(** * saas-starter-stack: analytics classifiers, pageview store and
      payment-webhook tax reconciliation

    A shallow embedding of [analytics.js] (IP anonymisation, bot and
    user-agent classification, the SQLite pageview table) and of the parts of
    [server.js] that reconcile a completed Stripe checkout into invoice data
    ([app.post('/webhook')], [createZohoInvoice], [getZohoTaxId]).

    Conventions.
    - A JavaScript string is the list of its UTF-16 code units ([jsstr]).
    - A possibly missing value ([undefined] / [null]) is an [option].
    - Amounts in cents are integers ([Z]) and a tax percentage is the
      rational ([Q]) it denotes.  The one place where the handler leaves
      integer arithmetic, the division behind the net of a tax-inclusive
      total, is evaluated in binary64 as JavaScript does ([Double]).
    - A computation is the list of its effects followed by a thrown error
      or a value ([Fx.M]). *)

From Stdlib Require Import ZArith NArith QArith Qround Lqa List String Ascii Bool Lia.
From Stdlib Require Import SpecFloat.
Import ListNotations.

Set Implicit Arguments.

(* ================================================================== *)
(** ** JavaScript strings *)
(* ================================================================== *)

Module JsString.

Local Open Scope N_scope.

(** One UTF-16 code unit. *)
Definition char := N.
Definition jsstr := list char.

(** A source literal (ASCII) as a JavaScript string. *)
Definition js (s : string) : jsstr :=
  List.map N_of_ascii (list_ascii_of_string s).

Definition dot : char := 46.
Definition colon : char := 58.

Definition char_eqb (a b : char) : bool := N.eqb a b.

Fixpoint str_eqb (a b : jsstr) : bool :=
  match a, b with
  | [], [] => true
  | x :: a', y :: b' => char_eqb x y && str_eqb a' b'
  | _, _ => false
  end.

(** [s.split(sep)] for a one-character separator.  The result is never
    empty: [''.split('.')] is [['']]. *)
Fixpoint split (sep : char) (s : jsstr) : list jsstr :=
  match s with
  | [] => [[]]
  | c :: t =>
      if char_eqb c sep then [] :: split sep t
      else match split sep t with
           | [] => [[c]]
           | p :: ps => (c :: p) :: ps
           end
  end.

(** [parts.join(sep)]. *)
Fixpoint join (sep : jsstr) (parts : list jsstr) : jsstr :=
  match parts with
  | [] => []
  | [p] => p
  | p :: ps => p ++ sep ++ join sep ps
  end.

(** How many times the code unit [c] occurs in [s]. *)
Definition occurrences (c : char) (s : jsstr) : nat := count_occ N.eq_dec s c.

(** [parts[i]] read as a string inside a template literal or a
    concatenation known to be in range. *)
Definition at_index (parts : list jsstr) (i : nat) : jsstr := nth i parts [].

(** [s.endsWith(suffix)] as a proposition. *)
Definition ends_with (suffix s : jsstr) : Prop := exists pre, s = pre ++ suffix.

(** [s.includes(p)]: [p] occurs in [s] as a contiguous run, exact code units. *)
Fixpoint starts_with (p s : jsstr) : bool :=
  match p, s with
  | [], _ => true
  | a :: p', c :: s' => char_eqb a c && starts_with p' s'
  | _ :: _, [] => false
  end.

Fixpoint includes (p s : jsstr) : bool :=
  starts_with p s ||
  match s with
  | [] => false
  | _ :: t => includes p t
  end.

(** [s.replace(p, r)] with a string pattern: the first occurrence only. *)
Fixpoint replace_first (p r s : jsstr) : jsstr :=
  if starts_with p s then r ++ skipn (List.length p) s
  else match s with
       | [] => []
       | c :: t => c :: replace_first p r t
       end.

(** Code-unit-wise lexicographic order, a proper prefix sorting first.  On
    ASCII text this is SQLite's BINARY collation ([memcmp]). *)
Fixpoint str_ltb (a b : jsstr) : bool :=
  match a, b with
  | _, [] => false
  | [], _ :: _ => true
  | x :: a', y :: b' =>
      if x <? y then true
      else if y <? x then false
      else str_ltb a' b'
  end.

(** *** Case-insensitive literal patterns: [/literal/i.test(s)]

    Without the [u] flag the [i] flag compares code units after
    ECMAScript's Canonicalize, which upper-cases a code unit but leaves a
    non-ASCII unit alone whenever its upper case would be ASCII.  All the
    patterns of the program are ASCII, so only the ASCII letters fold. *)
Definition canon (c : char) : char :=
  if (97 <=? c) && (c <=? 122) then c - 32 else c.

Fixpoint match_lit (p s : jsstr) : bool :=
  match p, s with
  | [], _ => true
  | a :: p', c :: s' => char_eqb (canon a) (canon c) && match_lit p' s'
  | _ :: _, [] => false
  end.

(** [/p/i.test(s)]: the literal matches at some position. *)
Fixpoint test_lit (p s : jsstr) : bool :=
  match_lit p s ||
  match s with
  | [] => false
  | _ :: t => test_lit p t
  end.

(** [.] does not match a line terminator. *)
Definition line_terminator (c : char) : bool :=
  (c =? 10) || (c =? 13) || (c =? 8232) || (c =? 8233).

(** [.*p] anchored at the start of [s] (with backtracking): some run of
    non-terminators, then the literal. *)
Fixpoint dotstar_then (p s : jsstr) : bool :=
  match_lit p s ||
  match s with
  | [] => false
  | c :: t => negb (line_terminator c) && dotstar_then p t
  end.

(** The rest of [s] after the literal [p] matched at its start. *)
Definition after_lit (p s : jsstr) : option jsstr :=
  if match_lit p s then Some (skipn (List.length p) s) else None.

(** [/p<k>/i.test(s)] where [k] decides what must follow the literal. *)
Fixpoint test_lit_then (p : jsstr) (k : jsstr -> bool) (s : jsstr) : bool :=
  match after_lit p s with
  | Some rest => k rest
  | None => false
  end ||
  match s with
  | [] => false
  | _ :: t => test_lit_then p k t
  end.

(** JavaScript truthiness of a possibly missing string. *)
Definition truthy (v : option jsstr) : bool :=
  match v with
  | None => false
  | Some [] => false
  | Some (_ :: _) => true
  end.

(** [a || b] on possibly missing strings. *)
Definition or_else (a b : option jsstr) : option jsstr :=
  if truthy a then a else b.

End JsString.

(* ================================================================== *)
(** ** analytics.js: classifiers *)
(* ================================================================== *)

Module Analytics.

Import JsString.
Local Open Scope N_scope.

(** [anonymizeIP(ip)] *)
Definition anonymizeIP (ip : option jsstr) : jsstr :=
  match ip with
  | None | Some [] => js "unknown"
  | Some s =>
      let parts := split dot s in
      if Nat.eqb (List.length parts) 4 then
        at_index parts 0 ++ js "." ++ at_index parts 1 ++ js "."
          ++ at_index parts 2 ++ js ".xxx"
      else
        let v6parts := split colon s in
        if Nat.ltb 3 (List.length v6parts) then
          join (js ":") (firstn 3 v6parts) ++ js "::xxx"
        else js "unknown"
  end.

(** The [botPatterns] array, in source order; every entry is a literal
    under the [i] flag ([java\/], [php\/] and [moz\.com] are escaped
    literals). *)
Definition botPatterns : list jsstr :=
  List.map js
    [ "googlebot"; "bingbot"; "slurp"; "duckduckbot";
      "baiduspider"; "yandexbot"; "sogou"; "exabot";
      "facebookexternalhit"; "twitterbot"; "linkedinbot";
      "whatsapp"; "telegrambot"; "pinterest"; "slackbot";
      "bot"; "crawler"; "spider"; "crawling"; "scraper";
      "curl"; "wget"; "httpie"; "postman";
      "python-requests"; "python-urllib"; "java/"; "php/";
      "go-http-client"; "ruby"; "perl";
      "headless"; "phantom"; "selenium"; "puppeteer"; "playwright";
      "uptimerobot"; "pingdom"; "statuscake"; "gtmetrix";
      "ahrefs"; "semrush"; "moz.com"; "dotbot"; "majestic"; "screaming" ]%string.

(** [isBot(userAgent)] *)
Definition isBot (userAgent : option jsstr) : bool :=
  match userAgent with
  | None | Some [] => true
  | Some ua => existsb (fun pattern => test_lit pattern ua) botPatterns
  end.

(** [detectBrowser(ua)] *)
Definition detectBrowser (ua : option jsstr) : jsstr :=
  match ua with
  | None | Some [] => js "Unknown"
  | Some ua =>
      if test_lit (js "edg") ua then js "Edge"
      else if test_lit (js "opr") ua || test_lit (js "opera") ua then js "Opera"
      else if test_lit (js "chrome") ua && negb (test_lit (js "edg") ua)
           then js "Chrome"
      else if test_lit (js "safari") ua && negb (test_lit (js "chrome") ua)
           then js "Safari"
      else if test_lit (js "firefox") ua then js "Firefox"
      else if test_lit (js "msie") ua || test_lit (js "trident") ua then js "IE"
      else js "Other"
  end.

(** [detectOS(ua)] *)
Definition detectOS (ua : option jsstr) : jsstr :=
  match ua with
  | None | Some [] => js "Unknown"
  | Some ua =>
      if test_lit (js "windows nt 10") ua then js "Windows 10/11"
      else if test_lit (js "windows") ua then js "Windows"
      else if test_lit (js "macintosh") ua || test_lit (js "mac os x") ua
           then js "macOS"
      else if test_lit (js "iphone") ua then js "iOS"
      else if test_lit (js "ipad") ua then js "iPadOS"
      else if test_lit (js "android") ua then js "Android"
      else if test_lit (js "linux") ua then js "Linux"
      else if test_lit (js "cros") ua then js "ChromeOS"
      else js "Other"
  end.

(** [/mobile|android.*mobile|iphone/i] *)
Definition re_mobile (ua : jsstr) : bool :=
  test_lit (js "mobile") ua
  || test_lit_then (js "android") (dotstar_then (js "mobile")) ua
  || test_lit (js "iphone") ua.

(** [/ipad|tablet|android(?!.*mobile)/i] *)
Definition re_tablet (ua : jsstr) : bool :=
  test_lit (js "ipad") ua
  || test_lit (js "tablet") ua
  || test_lit_then (js "android")
       (fun rest => negb (dotstar_then (js "mobile") rest)) ua.

(** [detectDevice(ua)] *)
Definition detectDevice (ua : option jsstr) : jsstr :=
  match ua with
  | None | Some [] => js "unknown"
  | Some ua =>
      if re_mobile ua then js "mobile"
      else if re_tablet ua then js "tablet"
      else js "desktop"
  end.

Section Referrer.

(** [new URL(ref).hostname]; [None] when the constructor throws. *)
Variable URL_hostname : jsstr -> option jsstr.

(** [cleanReferrer(ref)] *)
Definition cleanReferrer (ref : option jsstr) : jsstr :=
  match ref with
  | None | Some [] => js "direct"
  | Some r =>
      match URL_hostname r with
      | Some hostname =>
          if includes (js "allgood.click") hostname then js "internal"
          else replace_first (js "www.") [] hostname
      | None => js "direct"
      end
  end.

End Referrer.

Definition is_lower (c : char) : bool := (97 <=? c) && (c <=? 122).
Definition is_upper (c : char) : bool := (65 <=? c) && (c <=? 90).

(** [acceptLang.match(/[a-z]{2}-([A-Z]{2})/)], the captured group of the
    leftmost match. *)
Fixpoint match_lang_country (s : jsstr) : option jsstr :=
  match s with
  | [] => None
  | a :: t =>
      match t with
      | b :: h :: c :: d :: _ =>
          if is_lower a && is_lower b && (h =? 45) && is_upper c && is_upper d
          then Some [c; d]
          else match_lang_country t
      | _ => match_lang_country t
      end
  end.

(** [extractCountryFromLang(acceptLang)] *)
Definition extractCountryFromLang (acceptLang : option jsstr) : option jsstr :=
  match acceptLang with
  | None | Some [] => None
  | Some s => match_lang_country s
  end.

(** [page.match(/^\/(de|es|fr|pt)\/?/)], the captured group. *)
Definition match_page_lang (page : jsstr) : option jsstr :=
  match page with
  | 47 :: a :: b :: _ =>
      if str_eqb [a; b] (js "de") || str_eqb [a; b] (js "es")
         || str_eqb [a; b] (js "fr") || str_eqb [a; b] (js "pt")
      then Some [a; b] else None
  | _ => None
  end.

End Analytics.

(* ================================================================== *)
(** ** analytics.js: the [pageviews] table *)
(* ================================================================== *)

Module Store.

Import JsString Analytics.
Local Open Scope N_scope.

(** A UTC wall-clock instant, as both [CURRENT_TIMESTAMP] and
    [Date.prototype.toISOString] print it. *)
Record Instant : Type := mkInstant {
  year : N; month : N; day : N;
  hour : N; minute : N; second : N; millis : N
}.

(** Position of an instant on the time line (fields in their calendar
    ranges): a larger key is a later instant. *)
Definition chron_key (t : Instant) : N :=
  (((((year t * 100 + month t) * 100 + day t) * 100 + hour t) * 100
      + minute t) * 100 + second t) * 1000 + millis t.

Definition older (a b : Instant) : Prop := chron_key a < chron_key b.

Definition digit (d : N) : char := 48 + d mod 10.
Definition pad2 (n : N) : jsstr := [digit (n / 10); digit n].
Definition pad3 (n : N) : jsstr := [digit (n / 100); digit (n / 10); digit n].
Definition pad4 (n : N) : jsstr :=
  [digit (n / 1000); digit (n / 100); digit (n / 10); digit n].

(** SQLite's [CURRENT_TIMESTAMP]: the text [YYYY-MM-DD HH:MM:SS]. *)
Definition CURRENT_TIMESTAMP (t : Instant) : jsstr :=
  pad4 (year t) ++ js "-" ++ pad2 (month t) ++ js "-" ++ pad2 (day t)
    ++ js " " ++ pad2 (hour t) ++ js ":" ++ pad2 (minute t)
    ++ js ":" ++ pad2 (second t).

(** [date.toISOString()]: the text [YYYY-MM-DDTHH:MM:SS.sssZ]. *)
Definition toISOString (t : Instant) : jsstr :=
  pad4 (year t) ++ js "-" ++ pad2 (month t) ++ js "-" ++ pad2 (day t)
    ++ js "T" ++ pad2 (hour t) ++ js ":" ++ pad2 (minute t)
    ++ js ":" ++ pad2 (second t) ++ js "." ++ pad3 (millis t) ++ js "Z".

(** One row of [pageviews]; the columns of the [CREATE TABLE]. *)
Record Row : Type := mkRow {
  id : N;
  timestamp : jsstr;
  page : jsstr;
  ip_anonymized : jsstr;
  country : jsstr;
  language : jsstr;
  referrer : jsstr;
  user_agent : jsstr;
  browser : jsstr;
  os : jsstr;
  device_type : jsstr;
  is_bot : N
}.

(** The table: its rows in insertion order and the AUTOINCREMENT counter. *)
Record Db : Type := mkDb {
  rows : list Row;
  seq : N
}.

(** Statements run against the module-level [db] handle. *)
Definition DbM (A : Type) : Type := Db -> A * Db.

Definition ret {A} (a : A) : DbM A := fun db => (a, db).
Definition bind {A B} (m : DbM A) (k : A -> DbM B) : DbM B :=
  fun db => let (a, db') := m db in k a db'.

Notation "x <- m ;; k" := (bind m (fun x => k))
  (at level 61, m at next level, right associativity).

(** A [SELECT]: reads the rows. *)
Definition db_select {A} (q : list Row -> A) : DbM A :=
  fun db => (q (rows db), db).

(** The [INSERT] of [trackPageview]; [id] and [timestamp] take their
    column defaults. *)
Definition db_insert (now : Instant) (mk : N -> jsstr -> Row) : DbM unit :=
  fun db =>
    let i := seq db + 1 in
    (tt, mkDb (rows db ++ [mk i (CURRENT_TIMESTAMP now)]) i).

(** [DELETE FROM pageviews WHERE <cond>]; the result is [changes]. *)
Definition db_delete (cond : Row -> bool) : DbM N :=
  fun db =>
    let gone := filter cond (rows db) in
    (N.of_nat (List.length gone),
     mkDb (filter (fun r => negb (cond r)) (rows db)) (seq db)).

(** [timestamp > ?] and [timestamp < ?]: both operands are TEXT, compared
    under the BINARY collation. *)
Definition ts_gt (bound : jsstr) (r : Row) : bool := str_ltb bound (timestamp r).
Definition ts_lt (bound : jsstr) (r : Row) : bool := str_ltb (timestamp r) bound.

(** An incoming request, as far as [trackPageview] reads it. *)
Record Request : Type := mkRequest {
  headers : jsstr -> option jsstr;
  ip : option jsstr;
  remoteAddress : option jsstr
}.

(** [v || d] where [d] is a string literal. *)
Definition get_or (v : option jsstr) (d : jsstr) : jsstr :=
  match v with
  | Some (c :: s) => c :: s
  | _ => d
  end.

Definition first_of (sep : char) (v : jsstr) : jsstr := hd [] (split sep v).

Section Track.

Variable URL_hostname : jsstr -> option jsstr.
(** [String.prototype.toUpperCase], [toLowerCase] and [trim]. *)
Variables toUpperCase toLowerCase trim : jsstr -> jsstr.

(** [trackPageview(req, page)]; [now] is the clock SQLite reads. *)
Definition trackPageview (now : Instant) (req : Request) (page : jsstr)
  : DbM unit :=
  let ua := get_or (headers req (js "user-agent")) [] in
  let ip :=
    get_or
      (or_else (headers req (js "cf-connecting-ip"))
      (or_else (headers req (js "x-real-ip"))
      (or_else (option_map (fun v => trim (first_of 44 v))
                           (headers req (js "x-forwarded-for")))
      (or_else (ip req) (remoteAddress req)))))
      (js "unknown") in
  let country :=
    get_or
      (or_else (headers req (js "cf-ipcountry"))
               (extractCountryFromLang (headers req (js "accept-language"))))
      (js "unknown") in
  let language :=
    match match_page_lang page with
    | Some l => l
    | None =>
        get_or (option_map (fun v => first_of 45 (first_of 44 v))
                           (headers req (js "accept-language")))
               (js "en")
    end in
  db_insert now (fun i ts =>
    mkRow i ts
      page
      (anonymizeIP (Some ip))
      (toUpperCase country)
      (toLowerCase language)
      (cleanReferrer URL_hostname
         (or_else (headers req (js "referer")) (headers req (js "referrer"))))
      (firstn 500 ua)
      (detectBrowser (Some ua))
      (detectOS (Some ua))
      (detectDevice (Some ua))
      (if isBot (Some ua) then 1 else 0)).

End Track.

(** [GROUP BY key] with [COUNT( * )]: one entry per distinct key, in order of
    first appearance. *)
Fixpoint bump (k : jsstr) (acc : list (jsstr * N)) : list (jsstr * N) :=
  match acc with
  | [] => [(k, 1)]
  | (k', n) :: rest =>
      if str_eqb k k' then (k', n + 1) :: rest else (k', n) :: bump k rest
  end.

Definition group_count (key : Row -> jsstr) (rs : list Row) : list (jsstr * N) :=
  fold_left (fun acc r => bump (key r) acc) rs [].

(** [ORDER BY ... DESC] as a stable insertion sort ([before a b]: [a] sorts
    strictly before [b]).  SQL leaves the order of ties open; the embedding
    keeps them in group order. *)
Fixpoint insert_sorted {A} (before : A -> A -> bool) (x : A) (l : list A)
  : list A :=
  match l with
  | [] => [x]
  | y :: t => if before y x then y :: insert_sorted before x t
              else if before x y then x :: y :: t
              else y :: insert_sorted before x t
  end.

Definition order_by {A} (before : A -> A -> bool) (l : list A) : list A :=
  fold_left (fun acc x => insert_sorted before x acc) l [].

Definition count_desc (a b : jsstr * N) : bool := snd b <? snd a.
Definition key_desc (a b : jsstr * N) : bool := str_ltb (fst b) (fst a).

(** The object [getStats] returns (the two display fields [period] and
    [generated] are left out). *)
Record Stats : Type := mkStats {
  total : N; humans : N; bots : N;
  byPage : list (jsstr * N);
  byCountry : list (jsstr * N);
  byLanguage : list (jsstr * N);
  byBrowser : list (jsstr * N);
  byOS : list (jsstr * N);
  byDevice : list (jsstr * N);
  byReferrer : list (jsstr * N);
  perDay : list (jsstr * N);
  topBots : list (jsstr * N)
}.

Definition count_where (cond : Row -> bool) : DbM N :=
  db_select (fun rs => N.of_nat (List.length (filter cond rs))).

Definition grouped (cond : Row -> bool) (key : Row -> jsstr)
  (before : jsstr * N -> jsstr * N -> bool) (limit : option nat)
  : DbM (list (jsstr * N)) :=
  db_select (fun rs =>
    let sorted := order_by before (group_count key (filter cond rs)) in
    match limit with
    | Some n => firstn n sorted
    | None => sorted
    end).

(** [getStats(days)]; [since] is the [Date] the first two statements
    compute from [days]. *)
Definition getStats (since : Instant) : DbM Stats :=
  let sinceStr := toISOString since in
  let human r := ts_gt sinceStr r && (is_bot r =? 0) in
  let robot r := ts_gt sinceStr r && (is_bot r =? 1) in
  total <- count_where (ts_gt sinceStr) ;;
  humans <- count_where human ;;
  bots <- count_where robot ;;
  byPage <- grouped human page count_desc None ;;
  byCountry <- grouped human country count_desc (Some 15%nat) ;;
  byLanguage <- grouped human language count_desc None ;;
  byBrowser <- grouped human browser count_desc None ;;
  byOS <- grouped human os count_desc None ;;
  byDevice <- grouped human device_type count_desc None ;;
  byReferrer <-
    grouped (fun r => human r
                      && negb (str_eqb (referrer r) (js "direct"))
                      && negb (str_eqb (referrer r) (js "internal")))
            referrer count_desc (Some 15%nat) ;;
  perDay <- grouped human (fun r => firstn 10 (timestamp r)) key_desc None ;;
  topBots <- grouped robot browser count_desc (Some 10%nat) ;;
  ret (mkStats total humans bots byPage byCountry byLanguage byBrowser
               byOS byDevice byReferrer perDay topBots).

(** [cleanupOldData(keepDays)]; [cutoff] is the [Date] the first two
    statements compute ([keepDays] days before the current time). *)
Definition cleanupOldData (cutoff : Instant) : DbM N :=
  db_delete (ts_lt (toISOString cutoff)).

End Store.

(* ================================================================== *)
(** ** server.js: Stripe objects *)
(* ================================================================== *)

Module Stripe.

(** A Stripe tax rate; [percentage] is a decimal number. *)
Record TaxRate : Type := mkTaxRate {
  percentage : option Q;
  rate_inclusive : option bool
}.

(** A field that is either an object id or the expanded object. *)
Inductive Ref (A : Type) : Type :=
| Id (id : string)
| Expanded (obj : A).
Arguments Id {A} id.
Arguments Expanded {A} obj.

(** One entry of an invoice line's [tax_amounts]. *)
Record TaxAmount : Type := mkTaxAmount {
  tax_rate : option (Ref TaxRate);
  inclusive : bool
}.

Record InvoiceLine : Type := mkInvoiceLine {
  tax_amounts : option (list TaxAmount)
}.

(** An invoice; [lines] stands for [invoice.lines?.data]. *)
Record Invoice : Type := mkInvoice {
  tax : option Z;
  total : Z;
  subtotal : option Z;
  lines : option (list InvoiceLine)
}.

(** One entry of a session line item's [taxes]. *)
Record LineItemTax : Type := mkLineItemTax {
  rate : option TaxRate
}.

Record LineItem : Type := mkLineItem {
  taxes : option (list LineItemTax)
}.

Record TaxIdEntry : Type := mkTaxIdEntry { value : string }.

Record CustomerDetails : Type := mkCustomerDetails {
  email : option string;
  name : option string;
  address_country : option string;
  tax_ids : option (list TaxIdEntry);
  tax_exempt : option string
}.

(** [session.metadata], of which the handler reads [language]. *)
Record Metadata : Type := mkMetadata {
  language : option string
}.

(** A checkout session; [line_items] stands for [line_items?.data] and
    [amount_tax] for [total_details?.amount_tax].  [metadata] is missing
    when Stripe sends [null]. *)
Record Session : Type := mkSession {
  id : string;
  mode : string;
  currency : string;
  amount_total : Z;
  customer_email : option string;
  customer : option string;
  customer_details : option CustomerDetails;
  payment_intent : option string;
  invoice : option (Ref Invoice);
  amount_tax : option Z;
  line_items : option (list LineItem);
  metadata : option Metadata
}.

Record PaymentIntent : Type := mkPaymentIntent {
  pi_id : string;
  last_payment_error : option string
}.

(** A verified event: [event.type] decides how [event.data.object] is read. *)
Inductive Event : Type :=
| CheckoutSessionCompleted (livemode : bool) (session : Session)
| PaymentIntentSucceeded (livemode : bool) (paymentIntent : PaymentIntent)
| PaymentIntentFailed (livemode : bool) (failedPayment : PaymentIntent)
| Unhandled (type : string).

End Stripe.

(* ================================================================== *)
(** ** server.js: effects of the webhook handler *)
(* ================================================================== *)

Module Fx.

(** An error message.  [NoTaxMapping r n] is the template
    [No tax mapping for ${r}% (rounded: ${n}%). Tax rates 0-40% supported.] *)
Inductive Message : Type :=
| Text (s : string)
| Prefixed (prefix : string) (m : Message)
| NoTaxMapping (rate : Q) (rounded : Z).

(** The line item and the fields of the payload posted to [/invoices]. *)
Record InvoicePayload : Type := mkInvoicePayload {
  customer_id : string;
  item_name : string;
  item_rate : Q;
  item_quantity : Z;
  item_tax_id : string;
  currency_code : string;
  is_inclusive_tax : bool;
  reference_number : string
}.

(** What the handler does to the outside world, in order. *)
Inductive Effect : Type :=
| Log (text : string)
| StripeSessionsRetrieve (id : string)
| StripeInvoicesRetrieve (id : string)
| StripeTaxRatesRetrieve (id : string)
| SendPaymentNotification (kind : string) (reference : string) (testMode : bool)
| ZohoGetAccessToken
| ZohoFindOrCreateCustomer (email : option string)
| ZohoPostInvoice (payload : InvoicePayload)
| ZohoSendInvoiceEmail (invoice_id : string)
| ZohoRecordPayment (invoice_id : string) (amount : Q)
| SendZohoOKEmail (invoice_number : string)
| SendZohoErrorEmail (error : Message) (stripeSessionId : string)
| Respond (status : N) (body : Message).

(** A computation: the effects performed, then a thrown error or a value. *)
Definition M (A : Type) : Type := list Effect * (Message + A).

Definition ret {A} (a : A) : M A := ([], inr a).

Definition bind {A B} (m : M A) (k : A -> M B) : M B :=
  match m with
  | (t, inl e) => (t, inl e)
  | (t, inr a) => let (t', r) := k a in (t ++ t', r)
  end.

Definition throw {A} (e : Message) : M A := ([], inl e).

Definition emit (ev : Effect) : M unit := ([ev], inr tt).

Definition log (text : string) : M unit := emit (Log text).

(** An awaited call: the request is an effect, the outcome comes from the
    environment. *)
Definition call {A} (ev : Effect) (outcome : Message + A) : M A := ([ev], outcome).

(** [try { m } catch (error) { h error }] *)
Definition try_catch {A} (m : M A) (h : Message -> M A) : M A :=
  match m with
  | (t, inl e) => let (t', r) := h e in (t ++ t', r)
  | (t, inr a) => (t, inr a)
  end.

Definition trace {A} (m : M A) : list Effect := fst m.
Definition outcome {A} (m : M A) : Message + A := snd m.

Module Notations.
  Notation "x <- m ;; k" := (bind m (fun x => k))
    (at level 61, m at next level, right associativity).
  Notation "m ;;; k" := (bind m (fun _ => k))
    (at level 61, right associativity).
End Notations.

End Fx.

(* ================================================================== *)
(** ** JavaScript numbers *)
(* ================================================================== *)

Module Double.

Local Open Scope Z_scope.

(** A JavaScript number is an IEEE 754 binary64 value. *)
Definition double : Type := spec_float.

Definition prec : Z := 53.
Definition emax : Z := 1024.

(** The double of an integer: the integer itself up to [2^53], the
    nearest double beyond. *)
Definition of_int (n : Z) : double := binary_normalize prec emax n 0 false.

(** [x + y], [x * y] and [x / y]: rounded to nearest, ties to even. *)
Definition add (x y : double) : double := SFadd prec emax x y.
Definition mul (x y : double) : double := SFmul prec emax x y.
Definition div (x y : double) : double := SFdiv prec emax x y.

(** The double of the number a rational stands for.  A rational that is
    a double is returned as it is; a decimal such as 3.04, written
    [304 # 100], becomes the nearest double, as it does when the JSON of
    a Stripe object is parsed (numerator and denominator below [2^53]). *)
Definition of_number (q : Q) : double :=
  div (of_int (Qnum q)) (of_int (Zpos (Qden q))).

(** The rational a finite double stands for.  [Infinity] and [NaN] stand
    for none and are sent to 0; in the handler they would need a total
    beyond [1e306]. *)
Definition to_Q (x : double) : Q :=
  match x with
  | S754_finite s m e => (inject_Z (cond_Zopp s (Zpos m)) * Qpower 2 e)%Q
  | _ => 0%Q
  end.

End Double.

(* ================================================================== *)
(** ** server.js: tax reconciliation inside the webhook *)
(* ================================================================== *)

Module Tax.

Import Stripe Fx Fx.Notations.
Local Open Scope string_scope.
Local Open Scope Z_scope.

(** The three variables the handler fills in: [taxAmount],
    [taxRatePercentage] and [subtotalAmount] (amounts in cents). *)
Record Figures : Type := mkFigures {
  taxAmount : Z;
  taxRatePercentage : Q;
  subtotalAmount : Z
}.

(** [v || 0] on a possibly missing amount (on a number [||] changes
    nothing: the only falsy amount is 0 itself). *)
Definition num_or_0 (v : option Z) : Z :=
  match v with Some n => n | None => 0 end.

(** [v || 0] on a possibly missing percentage. *)
Definition rate_or_0 (v : option Q) : Q :=
  match v with Some q => q | None => 0%Q end.

(** [v || false] *)
Definition bool_or_false (v : option bool) : bool :=
  match v with Some b => b | None => false end.

(** [r > 0] *)
Definition Qpos_b (r : Q) : bool := 0 <? Qnum r.

(** [Math.round]: nearest integer, halves towards plus infinity.  It is
    exact on the value of its argument. *)
Definition Math_round (x : Q) : Z := Qfloor (x + (1 # 2)).

(** [const netInCentsFloat = (total * 100) / (100 + taxRatePercentage)]:
    a product, a sum and a quotient of doubles, each rounded. *)
Definition netInCentsFloat (total : Z) (ratePercentage : Q) : Double.double :=
  Double.div (Double.mul (Double.of_int total) (Double.of_int 100))
             (Double.add (Double.of_int 100) (Double.of_number ratePercentage)).

(** [Math.round(netInCentsFloat)] *)
Definition net_of_inclusive (total : Z) (ratePercentage : Q) : Z :=
  Math_round (Double.to_Q (netInCentsFloat total ratePercentage)).

(** The Stripe calls the reconciliation awaits. *)
Record StripeApi : Type := mkStripeApi {
  sessions_retrieve : string -> Message + Session;
  invoices_retrieve : string -> Message + Invoice;
  taxRates_retrieve : string -> Message + TaxRate
}.

Section Reconcile.

Variable api : StripeApi.

(** [invoice.lines?.data[0]?.tax_amounts || []] *)
Definition invoiceLineTaxAmounts (inv : Invoice) : list TaxAmount :=
  match lines inv with
  | Some (line :: _) =>
      match tax_amounts line with Some tas => tas | None => [] end
  | _ => []
  end.

(** [fullSession.line_items?.data[0]?.taxes || []] *)
Definition lineItemTaxes (s : Session) : list LineItemTax :=
  match line_items s with
  | Some (item :: _) =>
      match taxes item with Some ts => ts | None => [] end
  | _ => []
  end.

(** The [if (taxAmountData.tax_rate) { ... }] block: the percentage of the
    first tax amount's rate, fetched when only its id is present. *)
Definition tax_rate_percentage (taxAmountData : TaxAmount) : M Q :=
  match tax_rate taxAmountData with
  | Some (Id "") | None => ret 0%Q
  | Some (Id rateId) =>
      taxRate <- call (StripeTaxRatesRetrieve rateId)
                      (taxRates_retrieve api rateId) ;;
      log "[WEBHOOK] Retrieved tax rate" ;;;
      ret (rate_or_0 (percentage taxRate))
  | Some (Expanded taxRate) =>
      log "[WEBHOOK] Tax rate object" ;;;
      ret (rate_or_0 (percentage taxRate))
  end.

(** The branch [if (fullSession.invoice) { ... }]. *)
Definition invoice_figures (ref : Ref Invoice) : M Figures :=
  log "[WEBHOOK] detected - retrieving invoice for tax data..." ;;;
  invoice <- match ref with
             | Id invoiceId =>
                 call (StripeInvoicesRetrieve invoiceId)
                      (invoices_retrieve api invoiceId)
             | Expanded inv => ret inv
             end ;;
  let taxAmount := num_or_0 (tax invoice) in
  figures <-
    (if taxAmount =? 0 then
       log "[WEBHOOK] Reverse Charge detected - tax amount is 0" ;;;
       log "[WEBHOOK] Reverse Charge: Using invoice total as subtotal" ;;;
       ret (mkFigures taxAmount 0 (total invoice))
     else
       log "[WEBHOOK] Invoice tax_amounts:" ;;;
       match invoiceLineTaxAmounts invoice with
       | taxAmountData :: _ =>
           taxRatePercentage <- tax_rate_percentage taxAmountData ;;
           if inclusive taxAmountData && Qpos_b taxRatePercentage then
             log "[WEBHOOK] Tax-inclusive: NET = Total / (1 + rate%)" ;;;
             ret (mkFigures taxAmount taxRatePercentage
                    (net_of_inclusive (total invoice) taxRatePercentage))
           else
             ret (mkFigures taxAmount taxRatePercentage
                    (num_or_0 (subtotal invoice)))
       | [] =>
           ret (mkFigures taxAmount 0 (num_or_0 (subtotal invoice)))
       end) ;;
  log "[WEBHOOK] Invoice tax data:" ;;;
  ret figures.

(** The assignments of the fallback branch [else { ... }] (no invoice on
    the session), from [taxAmount = fullSession.total_details?.amount_tax
    || 0] to the end of its [if (taxAmount === 0) ... else ...]: the
    values the three variables hold afterwards. *)
Definition session_variables (fullSession : Session) : M Figures :=
  let taxAmount := num_or_0 (amount_tax fullSession) in
  if taxAmount =? 0 then
    log "[WEBHOOK] Reverse Charge detected - tax amount is 0" ;;;
    log "[WEBHOOK] Reverse Charge: Using session total as subtotal" ;;;
    ret (mkFigures taxAmount 0 (amount_total fullSession))
  else
    log "[WEBHOOK] Session line item taxes:" ;;;
    match lineItemTaxes fullSession with
    | taxData :: _ =>
        let taxRate := rate taxData in
        let taxRatePercentage :=
          match taxRate with
          | Some r => rate_or_0 (percentage r)
          | None => 0%Q
          end in
        let isInclusive :=
          match taxRate with
          | Some r => bool_or_false (rate_inclusive r)
          | None => false
          end in
        log "[WEBHOOK] Tax rate, inclusive:" ;;;
        if isInclusive && Qpos_b taxRatePercentage then
          log "[WEBHOOK] One-time tax-inclusive: NET = Total / (1 + rate%)" ;;;
          ret (mkFigures taxAmount taxRatePercentage
                 (net_of_inclusive (amount_total fullSession)
                                   taxRatePercentage))
        else
          ret (mkFigures taxAmount taxRatePercentage
                 (amount_total fullSession))
    | [] =>
        ret (mkFigures taxAmount 0 (amount_total fullSession))
    end.

(** The fallback branch as a whole.  After the assignments it builds the
    object of the ['Session tax data'] line, whose last property reads
    [isInclusive].  That name is declared by [let] inside the inner
    [else] block and is not in scope where it is read, so building the
    object throws a [ReferenceError] on every path, before the line is
    logged: the branch never hands the three variables on. *)
Definition session_figures (fullSession : Session) : M Figures :=
  log "[WEBHOOK] No invoice found - using session data (fallback)" ;;;
  session_variables fullSession ;;;
  throw (Text "isInclusive is not defined").

(** Truthiness of [fullSession.invoice]: an object, or a non-empty id. *)
Definition invoice_ref (fullSession : Session) : option (Ref Invoice) :=
  match invoice fullSession with
  | Some (Id "") | None => None
  | Some ref => Some ref
  end.

(** The tax part of the [checkout.session.completed] case, from the
    retrieved session to the three figures. *)
Definition reconcile (fullSession : Session) : M Figures :=
  match invoice_ref fullSession with
  | Some ref => invoice_figures ref
  | None => session_figures fullSession
  end.

End Reconcile.

End Tax.

(* ================================================================== *)
(** ** server.js: Zoho invoicing *)
(* ================================================================== *)

Module Zoho.

Import Stripe Fx Fx.Notations.
Local Open Scope string_scope.
Local Open Scope Z_scope.

(** The [invoiceData] object the webhook hands to [createZohoInvoice]
    (amounts in currency units). *)
Record InvoiceData : Type := mkInvoiceData {
  amount : Q;
  subtotal : Q;
  taxAmount : Q;
  currency : string;
  productName : string;
  customerEmail : option string;
  customerName : option string;
  country : option string;
  vatNumber : option string;
  taxExempt : string;
  taxRatePercentage : Q;
  paymentType : string;
  stripeSessionId : string;
  paymentIntentId : option string;
  isTestMode : bool
}.

(** Truthiness of a possibly missing string. *)
Definition present (v : option string) : bool :=
  match v with
  | Some s => negb (String.eqb s "")
  | None => false
  end.

(** *** [getZohoTaxId] and its tables *)

Inductive ZohoTaxId : Type := IVA_21 | IVA_10 | EXENTO_0.

(** The ids of [ZOHO_TAX_IDS]. *)
Definition ZOHO_TAX_IDS (k : ZohoTaxId) : string :=
  match k with
  | IVA_21 => "303134000000044019"
  | IVA_10 => "303134000003174029"
  | EXENTO_0 => "303134000000205025"
  end.

Definition EU_COUNTRIES : list string :=
  [ "AT"; "BE"; "BG"; "HR"; "CY"; "CZ"; "DK"; "EE"; "FI"; "FR";
    "DE"; "GR"; "HU"; "IE"; "IT"; "LV"; "LT"; "LU"; "MT"; "NL";
    "PL"; "PT"; "RO"; "SK"; "SI"; "ES"; "SE" ].

Section CountryCodes.

(** [String.prototype.toUpperCase] *)
Variable toUpperCase : string -> string.

(** [isEUCountry(country)] *)
Definition isEUCountry (country : option string) : bool :=
  match option_map toUpperCase country with
  | Some c => existsb (String.eqb c) EU_COUNTRIES
  | None => false
  end.

(** [country === 'ES'] *)
Definition is_ES (country : option string) : bool :=
  match country with
  | Some c => String.eqb c "ES"
  | None => false
  end.

(** [getZohoTaxId(invoiceData)] *)
Definition getZohoTaxId (invoiceData : InvoiceData) : string :=
  let country := option_map toUpperCase (country invoiceData) in
  let taxRatePercentage := taxRatePercentage invoiceData in
  let hasVatId := present (vatNumber invoiceData) in
  if is_ES country && Qeq_bool taxRatePercentage 21 then
    ZOHO_TAX_IDS IVA_21
  else if is_ES country && Qeq_bool taxRatePercentage 10 then
    ZOHO_TAX_IDS IVA_10
  else if isEUCountry country && negb (is_ES country) && hasVatId then
    ZOHO_TAX_IDS EXENTO_0
  else if isEUCountry country && negb (is_ES country) && negb hasVatId then
    if Tax.Qpos_b taxRatePercentage then ZOHO_TAX_IDS IVA_21
    else ZOHO_TAX_IDS EXENTO_0
  else if negb (isEUCountry country) then
    ZOHO_TAX_IDS EXENTO_0
  else if Qeq_bool taxRatePercentage 0 then
    ZOHO_TAX_IDS EXENTO_0
  else
    ZOHO_TAX_IDS IVA_21.

(** *** [createZohoInvoice] *)

(** The [TAX_IDS] object literal of [createZohoInvoice]. *)
Definition TAX_IDS_table : list (Z * string) :=
  [ (0, "YOUR_ZOHO_TAX_ID_0_PERCENT");
    (1, "YOUR_ZOHO_TAX_ID_1_PERCENT");
    (2, "YOUR_ZOHO_TAX_ID_2_PERCENT");
    (3, "YOUR_ZOHO_TAX_ID_3_PERCENT");
    (4, "YOUR_ZOHO_TAX_ID_4_PERCENT");
    (5, "YOUR_ZOHO_TAX_ID_5_PERCENT");
    (6, "YOUR_ZOHO_TAX_ID_6_PERCENT");
    (7, "YOUR_ZOHO_TAX_ID_7_PERCENT");
    (8, "YOUR_ZOHO_TAX_ID_8_PERCENT");
    (9, "YOUR_ZOHO_TAX_ID_9_PERCENT");
    (10, "YOUR_ZOHO_TAX_ID_10_PERCENT");
    (11, "YOUR_ZOHO_TAX_ID_11_PERCENT");
    (12, "YOUR_ZOHO_TAX_ID_12_PERCENT");
    (13, "YOUR_ZOHO_TAX_ID_13_PERCENT");
    (14, "YOUR_ZOHO_TAX_ID_14_PERCENT");
    (15, "YOUR_ZOHO_TAX_ID_15_PERCENT");
    (16, "YOUR_ZOHO_TAX_ID_16_PERCENT");
    (17, "YOUR_ZOHO_TAX_ID_17_PERCENT");
    (18, "YOUR_ZOHO_TAX_ID_18_PERCENT");
    (19, "YOUR_ZOHO_TAX_ID_19_PERCENT");
    (20, "YOUR_ZOHO_TAX_ID_20_PERCENT");
    (21, "YOUR_ZOHO_TAX_ID_21_PERCENT");
    (22, "YOUR_ZOHO_TAX_ID_22_PERCENT");
    (23, "YOUR_ZOHO_TAX_ID_23_PERCENT");
    (24, "YOUR_ZOHO_TAX_ID_24_PERCENT");
    (25, "YOUR_ZOHO_TAX_ID_25_PERCENT");
    (26, "YOUR_ZOHO_TAX_ID_26_PERCENT");
    (27, "YOUR_ZOHO_TAX_ID_27_PERCENT");
    (28, "YOUR_ZOHO_TAX_ID_28_PERCENT");
    (29, "YOUR_ZOHO_TAX_ID_29_PERCENT");
    (30, "YOUR_ZOHO_TAX_ID_30_PERCENT") ].

(** [TAX_IDS[roundedTax]] *)
Definition TAX_IDS (roundedTax : Z) : option string :=
  option_map snd (find (fun kv => fst kv =? roundedTax) TAX_IDS_table).

(** What [findOrCreateZohoCustomer] resolves to. *)
Inductive CustomerResult : Type :=
| CustomerOk (customer_id : string) (existing : bool)
| CustomerFailed (error : Message).

(** What the [fetch] of [/invoices] resolves to: a non-2xx response, or
    the parsed JSON body. *)
Inductive InvoicesResponse : Type :=
| NotOk (status : N) (errorData : string)
| Json (code : Z) (message : string) (invoice_number invoice_id : string).

(** What [createZohoInvoice] resolves to. *)
Inductive InvoiceResult : Type :=
| Success (invoice_number invoice_id customer_id : string)
| Failure (error : Message).

(** [{ success, error }] of the two follow-up calls. *)
Inductive CallResult : Type :=
| Done
| Failed (error : Message).

(** The Zoho and token calls the invoicing code awaits. *)
Record ZohoApi : Type := mkZohoApi {
  getZohoAccessToken : Message + string;
  findOrCreateZohoCustomer : option string -> CustomerResult;
  post_invoices : InvoicePayload -> Message + InvoicesResponse;
  sendZohoInvoiceEmail : string -> option string -> CallResult;
  recordZohoPayment : string -> string -> Q -> CallResult
}.

Variable zoho : ZohoApi.

(** [createZohoInvoice(invoiceData)] *)
Definition createZohoInvoice (invoiceData : InvoiceData) : M InvoiceResult :=
  log "[ZOHO] Creating invoice..." ;;;
  try_catch
    (accessToken <- call ZohoGetAccessToken (getZohoAccessToken zoho) ;;
     customerResult <-
       call (ZohoFindOrCreateCustomer (customerEmail invoiceData))
            (inr (findOrCreateZohoCustomer zoho (customerEmail invoiceData))) ;;
     customerId <-
       match customerResult with
       | CustomerFailed error =>
           throw (Prefixed "Customer lookup/creation failed: " error)
       | CustomerOk customer_id _ => ret customer_id
       end ;;
     log "[ZOHO] Using customer ID:" ;;;
     let isSubscription := String.eqb (paymentType invoiceData) "subscription" in
     let productName :=
       if isSubscription then "allgood.click suscripción"
       else "allgood.click servicio online" in
     let taxRatePercentage := taxRatePercentage invoiceData in
     let roundedTax := Tax.Math_round taxRatePercentage in
     taxId <-
       match TAX_IDS roundedTax with
       | None =>
           let errorMsg := NoTaxMapping taxRatePercentage roundedTax in
           log "[ZOHO] No tax mapping" ;;;
           throw errorMsg
       | Some taxId => ret taxId
       end ;;
     log "[ZOHO] Using Tax" ;;;
     let netAmount := subtotal invoiceData in
     log "[ZOHO] Using Stripe's subtotal:" ;;;
     log "[ZOHO] Tax rate:" ;;;
     let orderType := if isSubscription then "abo" else "unico" in
     let orderNumber := "allgood-" ++ orderType in
     let invoicePayload :=
       mkInvoicePayload customerId productName netAmount 1 taxId
         (toUpperCase (currency invoiceData)) false orderNumber in
     log "[ZOHO] Customer country:" ;;;
     response <- call (ZohoPostInvoice invoicePayload)
                      (post_invoices zoho invoicePayload) ;;
     match response with
     | NotOk status errorData =>
         throw (Prefixed "Zoho API error: " (Text errorData))
     | Json code message invoice_number invoice_id =>
         if code =? 0 then
           log "[ZOHO] Invoice created:" ;;;
           ret (Success invoice_number invoice_id customerId)
         else
           throw (Prefixed "Zoho error: " (Text message))
     end)
    (fun error =>
       log "[ZOHO] Error creating invoice:" ;;;
       ret (Failure error)).

End CountryCodes.

End Zoho.

(* ================================================================== *)
(** ** server.js: [app.post('/webhook')] *)
(* ================================================================== *)

Module Webhook.

Import Stripe Fx Fx.Notations.
Local Open Scope string_scope.
Local Open Scope Z_scope.

(** The request as the handler reads it: the raw body and the
    [stripe-signature] header. *)
Record Request : Type := mkRequest {
  body : string;
  stripe_signature : option string
}.

(** Everything outside the process that the handler consults. *)
Record Env : Type := mkEnv {
  constructEvent : string -> option string -> Message + Event;
  stripe : Tax.StripeApi;
  zoho : Zoho.ZohoApi;
  ZOHO_ENABLED : bool;
  toUpperCase : string -> string
}.

Section Handler.

Variable env : Env.

(** [a || b] on possibly missing strings. *)
Definition or_else (a b : option string) : option string :=
  if Zoho.present a then a else b.

Definition details {A} (s : Session) (f : CustomerDetails -> option A)
  : option A :=
  match customer_details s with
  | Some d => f d
  | None => None
  end.

(** [taxIds.length > 0 ? taxIds[0].value : null] *)
Definition first_tax_id (s : Session) : option string :=
  match details s tax_ids with
  | Some (t :: _) => Some (value t)
  | _ => None
  end.

Definition cents (n : Z) : Q := (inject_Z n / 100)%Q.

(** The [invoiceData] object literal. *)
Definition invoiceData_of (livemode : bool) (fullSession : Session)
  (figures : Tax.Figures) : Zoho.InvoiceData :=
  Zoho.mkInvoiceData
    (cents (amount_total fullSession))
    (cents (Tax.subtotalAmount figures))
    (cents (Tax.taxAmount figures))
    (currency fullSession)
    (if String.eqb (mode fullSession) "subscription"
     then "allgood.click suscripción" else "allgood.click servicio online")
    (or_else (details fullSession email) (customer_email fullSession))
    (or_else (details fullSession name) None)
    (or_else (details fullSession address_country) None)
    (first_tax_id fullSession)
    (match or_else (details fullSession tax_exempt) None with
     | Some e => e
     | None => "none"
     end)
    (Tax.taxRatePercentage figures)
    (mode fullSession)
    (id fullSession)
    (payment_intent fullSession)
    (negb livemode).

(** The block [if (ZOHO_ENABLED) { ... } else { ... }]. *)
Definition invoicing (session : Session) (invoiceData : Zoho.InvoiceData)
  : M unit :=
  if ZOHO_ENABLED env then
    try_catch
      (invoiceResult <-
         Zoho.createZohoInvoice (toUpperCase env) (zoho env) invoiceData ;;
       match invoiceResult with
       | Zoho.Success invoice_number invoice_id customer_id =>
           log "[ZOHO] Invoice created successfully:" ;;;
           log "[ZOHO] Sending invoice email to customer..." ;;;
           emailResult <-
             call (ZohoSendInvoiceEmail invoice_id)
                  (inr (Zoho.sendZohoInvoiceEmail (zoho env) invoice_id
                          (Zoho.customerEmail invoiceData))) ;;
           match emailResult with
           | Zoho.Failed _ => log "[ZOHO] Email sending failed, but continuing:"
           | Zoho.Done => ret tt
           end ;;;
           log "[ZOHO] Recording payment..." ;;;
           paymentResult <-
             call (ZohoRecordPayment invoice_id (Zoho.amount invoiceData))
                  (inr (Zoho.recordZohoPayment (zoho env) invoice_id customer_id
                          (Zoho.amount invoiceData))) ;;
           match paymentResult with
           | Zoho.Failed _ => log "[ZOHO] Payment recording failed:"
           | Zoho.Done => ret tt
           end ;;;
           emit (SendZohoOKEmail invoice_number)
       | Zoho.Failure error =>
           log "[ZOHO] Invoice creation failed:" ;;;
           emit (SendZohoErrorEmail error (id session))
       end)
      (fun error =>
         log "[ZOHO] Unexpected error during invoice creation:" ;;;
         emit (SendZohoErrorEmail error (id session)))
  else
    log "[ZOHO] Invoicing disabled - skipping invoice creation".

(** [session.metadata.language], read while the object of the
    ['Payment successful'] line is built: a [TypeError] when [metadata]
    is missing (its message names [null] or [undefined], whichever the
    session holds; the embedding keeps one text for both). *)
Definition metadata_language (session : Session) : M (option string) :=
  match metadata session with
  | Some m => ret (language m)
  | None => throw (Text "Cannot read properties of null (reading 'language')")
  end.

(** [case 'checkout.session.completed':].  Everything before the [try]
    that surrounds the invoicing runs unprotected: an error there leaves
    the handler before it responds. *)
Definition checkout_session_completed (livemode : bool) (session : Session)
  : M unit :=
  log "[WEBHOOK] Processing checkout.session.completed" ;;;
  let isTestMode := negb livemode in
  metadata_language session ;;;
  log "[WEBHOOK] Payment successful:" ;;;
  log "[WEBHOOK] Calling sendPaymentNotification..." ;;;
  emit (SendPaymentNotification "success" (id session) isTestMode) ;;;
  log "[WEBHOOK] Email result:" ;;;
  log "[WEBHOOK] Creating Zoho invoice..." ;;;
  try_catch
    (fullSession <-
       call (StripeSessionsRetrieve (id session))
            (Tax.sessions_retrieve (stripe env) (id session)) ;;
     figures <- Tax.reconcile (stripe env) fullSession ;;
     log "[WEBHOOK] Tax Data Extracted:" ;;;
     let invoiceData := invoiceData_of livemode fullSession figures in
     log "[ZOHO] Invoice data prepared:" ;;;
     invoicing session invoiceData)
    (fun error => log "[WEBHOOK] Error processing invoice data:").

(** [app.post('/webhook', async (req, res) => { ... })] *)
Definition webhook (req : Request) : M unit :=
  log "[WEBHOOK] Received webhook request" ;;;
  let sig := stripe_signature req in
  match constructEvent env (body req) sig with
  | inl err =>
      log "[WEBHOOK] Signature verification failed:" ;;;
      emit (Respond 400 (Prefixed "Webhook Error: " err))
  | inr event =>
      log "[WEBHOOK] Signature verified successfully" ;;;
      log "[WEBHOOK] Event type:" ;;;
      match event with
      | CheckoutSessionCompleted livemode session =>
          checkout_session_completed livemode session
      | PaymentIntentSucceeded _ paymentIntent =>
          log "PaymentIntent was successful:"
      | PaymentIntentFailed livemode failedPayment =>
          let isTestModeFailed := negb livemode in
          log "Payment failed:" ;;;
          emit (SendPaymentNotification "error" (pi_id failedPayment)
                  isTestModeFailed)
      | Unhandled _ => log "Unhandled event type"
      end ;;;
      emit (Respond 200 (Text "{ received: true }"))
  end.

End Handler.

End Webhook.

(* ================================================================== *)
(** ** Vocabulary of the statements *)
(* ================================================================== *)

Module Address.

Import JsString.

(** A dotted quad [a.b.c.d] and a colon-separated address. *)
Definition quad (a b c d : jsstr) : jsstr :=
  a ++ js "." ++ b ++ js "." ++ c ++ js "." ++ d.

Definition hextets (fields : list jsstr) : jsstr := join (js ":") fields.

(** A field of an address: no separator inside. *)
Definition dot_free (a : jsstr) : Prop := ~ In dot a.
Definition field (a : jsstr) : Prop := ~ In dot a /\ ~ In colon a.

(** Inputs that mix both notations so that [anonymizeIP] reads them as a
    colon-separated address although their first three colon-separated
    fields hold exactly three dots. *)
Definition mixed_notation (s : jsstr) : Prop :=
  occurrences dot s <> 3%nat
  /\ (3 < List.length (split colon s))%nat
  /\ occurrences dot (join (js ":") (firstn 3 (split colon s))) = 3%nat.

End Address.

Module Cascade.

Import JsString Analytics.

(** "Ordered pattern matching, first match wins", with a default on no
    match: the specification's description of a classifier. *)
Definition rule : Type := (jsstr -> bool) * jsstr.

Definition first_match (rules : list rule) (default : jsstr) (ua : jsstr)
  : jsstr :=
  match find (fun r => fst r ua) rules with
  | Some r => snd r
  | None => default
  end.

(** One of the literals occurs, case-insensitively. *)
Definition any (ps : list string) (ua : jsstr) : bool :=
  existsb (fun p => test_lit (js p) ua) ps.

Definition browser_rules : list rule :=
  [ (any ["edg"], js "Edge");
    (any ["opr"; "opera"], js "Opera");
    (fun ua => any ["chrome"] ua && negb (any ["edg"] ua), js "Chrome");
    (fun ua => any ["safari"] ua && negb (any ["chrome"] ua), js "Safari");
    (any ["firefox"], js "Firefox");
    (any ["msie"; "trident"], js "IE") ]%string.

Definition os_rules : list rule :=
  [ (any ["windows nt 10"], js "Windows 10/11");
    (any ["windows"], js "Windows");
    (any ["macintosh"; "mac os x"], js "macOS");
    (any ["iphone"], js "iOS");
    (any ["ipad"], js "iPadOS");
    (any ["android"], js "Android");
    (any ["linux"], js "Linux");
    (any ["cros"], js "ChromeOS") ]%string.

Definition device_rules : list rule :=
  [ (re_mobile, js "mobile"); (re_tablet, js "tablet") ].

(** A classifier built from a rule table: the category for missing or
    empty input, else the first matching rule, else the default. *)
Definition classifier (missing : string) (rules : list rule) (default : string)
  (input : option jsstr) : jsstr :=
  match input with
  | None | Some [] => js missing
  | Some ua => first_match rules (js default) ua
  end.

(** The categories a classifier can return. *)
Definition categories (missing : string) (rules : list rule) (default : string)
  : list jsstr :=
  js missing :: js default :: List.map snd rules.

End Cascade.

Module Calendar.

Import JsString Store.
Local Open Scope N_scope.

(** The calendar day of an instant, as a number that grows with time. *)
Definition date_key (t : Instant) : N := (year t * 100 + month t) * 100 + day t.

(** Fields within what the two text formats can print. *)
Definition printable (t : Instant) : Prop :=
  year t < 10000 /\ month t < 100 /\ day t < 100.

(** A request without any header, address or referrer. *)
Definition bare_request : Request := mkRequest (fun _ => None) None None.

Definition empty_db : Db := mkDb [] 0.

End Calendar.

Module Checkout.

Import Stripe Fx Tax.
Local Open Scope string_scope.
Local Open Scope Z_scope.

Section Reading.

Variable api : StripeApi.

(** The invoice the handler reads for a session: the expanded object, or
    what [stripe.invoices.retrieve] returns for its id. *)
Inductive reads_invoice (s : Session) (inv : Invoice) : Prop :=
| invoice_expanded :
    invoice_ref s = Some (Expanded inv) -> reads_invoice s inv
| invoice_retrieved (invoiceId : string) :
    invoice_ref s = Some (Id invoiceId) ->
    invoices_retrieve api invoiceId = inr inv ->
    reads_invoice s inv.

(** The percentage of a tax amount's rate: on the expanded rate, or on
    what [stripe.taxRates.retrieve] returns for its id. *)
Inductive reads_rate (ta : TaxAmount) (R : Q) : Prop :=
| rate_expanded (r : TaxRate) :
    tax_rate ta = Some (Expanded r) -> percentage r = Some R ->
    reads_rate ta R
| rate_retrieved (rateId : string) (r : TaxRate) :
    tax_rate ta = Some (Id rateId) -> rateId <> "" ->
    taxRates_retrieve api rateId = inr r -> percentage r = Some R ->
    reads_rate ta R.

(** The total and the tax collected, as the provider reports them on the
    invoice of the session. *)
Inductive reported (s : Session) : Z -> Z -> Prop :=
| reported_on_invoice (inv : Invoice) :
    reads_invoice s inv ->
    reported s (total inv) (num_or_0 (tax inv)).

(** Tax-inclusive pricing at the nominal rate [R]: the first tax amount
    of the invoice's first line is inclusive and carries the rate [R]. *)
Inductive inclusive_tax (s : Session) (R : Q) : Prop :=
| inclusive_on_invoice (inv : Invoice) (ta : TaxAmount) (more : list TaxAmount) :
    reads_invoice s inv ->
    invoiceLineTaxAmounts inv = ta :: more ->
    inclusive ta = true ->
    reads_rate ta R ->
    inclusive_tax s R.

(** No tax-rate metadata: the invoice's first line has no tax amounts. *)
Inductive no_tax_metadata (s : Session) : Prop :=
| none_on_invoice (inv : Invoice) :
    reads_invoice s inv -> invoiceLineTaxAmounts inv = [] ->
    no_tax_metadata s.

End Reading.

(** [Number.isSafeInteger]: an integer that a double holds exactly, as
    every amount in cents is. *)
Definition safe_integer (n : Z) : Prop := Z.abs n < 2 ^ 53.

(** A number given as a ratio of safe integers, as every percentage of a
    Stripe tax rate is (at most four decimals): [Double.of_number] is
    then the double JavaScript holds for it. *)
Definition plain_number (q : Q) : Prop :=
  safe_integer (Qnum q) /\ safe_integer (Zpos (Qden q)).

(** The log lines that mark the two ways a net amount is decided. *)
Definition reverse_charge_detected (e : Effect) : Prop :=
  e = Log "[WEBHOOK] Reverse Charge detected - tax amount is 0".

Definition net_by_division (e : Effect) : Prop :=
  e = Log "[WEBHOOK] Tax-inclusive: NET = Total / (1 + rate%)"
  \/ e = Log "[WEBHOOK] One-time tax-inclusive: NET = Total / (1 + rate%)".

(** An API in which every call fails, for sessions that need none. *)
Definition offline : StripeApi :=
  mkStripeApi (fun _ => inl (Text "offline")) (fun _ => inl (Text "offline"))
              (fun _ => inl (Text "offline")).

(** A session with an expanded invoice and nothing else of interest. *)
Definition session_with_invoice (inv : Invoice) : Session :=
  mkSession "cs_test_1" "payment" "eur" (total inv) None None None None
            (Some (Expanded inv)) None None (Some (mkMetadata (Some "en"))).

(** A session without an invoice: only its total and the tax of its
    [total_details]. *)
Definition session_without_invoice (total : Z) (collected : option Z)
  : Session :=
  mkSession "cs_test_2" "payment" "eur" total None None None None
            None collected None (Some (mkMetadata (Some "en"))).

(** A line with one tax entry at an expanded rate. *)
Definition one_tax_line (isInclusive : bool) (percent : Q) : InvoiceLine :=
  mkInvoiceLine
    (Some [mkTaxAmount
             (Some (Expanded (mkTaxRate (Some percent) (Some isInclusive))))
             isInclusive]).

End Checkout.

Module Delivery.

Import Stripe Fx Webhook.
Local Open Scope string_scope.

(** Console output: the only effect that is neither a call to Stripe,
    Zoho or the mail relay nor the response. *)
Definition console (e : Effect) : Prop := exists text, e = Log text.

(** An environment that rejects every signature, with nothing else
    reachable. *)
Definition rejecting : Env :=
  mkEnv (fun _ _ =>
           inl (Text "No signatures found matching the expected signature for payload"))
        Checkout.offline
        (Zoho.mkZohoApi (inl (Text "offline"))
           (fun _ => Zoho.CustomerFailed (Text "offline"))
           (fun _ => inl (Text "offline"))
           (fun _ _ => Zoho.Failed (Text "offline"))
           (fun _ _ _ => Zoho.Failed (Text "offline")))
        true
        (fun c => c).

End Delivery.

Module Pageviews.

Import JsString Store Calendar.
Local Open Scope N_scope.

(** What a stored row looks like: an anonymised address, a user agent of
    at most 500 code units, a bot flag of 0 or 1. *)
Definition row_ok (r : Row) : Prop :=
  (ip_anonymized r = js "unknown" \/ ends_with (js "xxx") (ip_anonymized r))
  /\ (List.length (user_agent r) <= 500)%nat
  /\ (is_bot r = 0 \/ is_bot r = 1).

(** The table: every row as above, ids pairwise different and not above
    the AUTOINCREMENT counter. *)
Definition table_ok (db : Db) : Prop :=
  Forall row_ok (rows db)
  /\ NoDup (List.map id (rows db))
  /\ Forall (fun r => id r <= seq db) (rows db).

(** The counts of a breakdown, added up. *)
Definition sum_counts (l : list (jsstr * N)) : N :=
  fold_right (fun e acc => snd e + acc) 0 l.

(** The rows of the table were stored, in this order, at the instants [ts]. *)
Definition stamped (ts : list Instant) (db : Db) : Prop :=
  List.map timestamp (rows db) = List.map CURRENT_TIMESTAMP ts
  /\ Forall printable ts.

End Pageviews.

Module Traces.

Import Fx.

(** The response to the request. *)
Definition is_response (e : Effect) : bool :=
  match e with Respond _ _ => true | _ => false end.

(** The calls of [sendZohoOKEmail] and [sendZohoErrorEmail], which report
    to the operator how invoicing went.  Each call tries to send one
    mail; whether the mail leaves depends on the Gmail password and on
    the relay. *)
Definition is_operator_report (e : Effect) : bool :=
  match e with
  | SendZohoOKEmail _ | SendZohoErrorEmail _ _ => true
  | _ => false
  end.

(** Everything the Zoho integration does: its API calls and its mails. *)
Definition is_zoho (e : Effect) : bool :=
  match e with
  | ZohoGetAccessToken | ZohoFindOrCreateCustomer _ | ZohoPostInvoice _
  | ZohoSendInvoiceEmail _ | ZohoRecordPayment _ _
  | SendZohoOKEmail _ | SendZohoErrorEmail _ _ => true
  | _ => false
  end.

(** The computation performs no effect of the kind [P]. *)
Definition free_of {A} (P : Effect -> bool) (m : M A) : Prop :=
  forallb (fun e => negb (P e)) (trace m) = true.

(** How many effects of the kind [P] a trace holds. *)
Definition count (P : Effect -> bool) (t : list Effect) : nat :=
  List.length (filter P t).

(** A completed checkout whose session carries no metadata. *)
Definition without_metadata (event : Stripe.Event) : bool :=
  match event with
  | Stripe.CheckoutSessionCompleted _ session =>
      match Stripe.metadata session with
      | Some _ => false
      | None => true
      end
  | _ => false
  end.

End Traces.

(* ================================================================== *)
(** ** server.js: language, country and currency of a visitor *)
(* ================================================================== *)

Module Locale.

Import JsString.
Local Open Scope N_scope.

(** The code units [String.prototype.trim] strips: ECMAScript's WhiteSpace
    and LineTerminator. *)
Definition is_space (c : char) : bool :=
  existsb (N.eqb c)
    [9; 10; 11; 12; 13; 32; 160; 5760;
     8192; 8193; 8194; 8195; 8196; 8197; 8198; 8199; 8200; 8201; 8202;
     8232; 8233; 8239; 8287; 12288; 65279].

Fixpoint trimStart (s : jsstr) : jsstr :=
  match s with
  | [] => []
  | c :: t => if is_space c then trimStart t else s
  end.

(** [s.trim()] *)
Definition trim (s : jsstr) : jsstr := rev (trimStart (rev (trimStart s))).

(** [list.includes(x)] on strings. *)
Definition includes_str (l : list jsstr) (x : jsstr) : bool :=
  existsb (str_eqb x) l.

(** [s.split(sep)[0]] *)
Definition first_part (sep : char) (s : jsstr) : jsstr := hd [] (split sep s).

Definition supportedLanguages : list jsstr :=
  List.map js ["de"; "en"; "es"; "fr"; "pt"]%string.

Section Case.

(** [String.prototype.toLowerCase] and [toUpperCase]. *)
Variables toLowerCase toUpperCase : jsstr -> jsstr.

(** [detectLanguage(acceptLanguageHeader)] *)
Definition detectLanguage (acceptLanguageHeader : option jsstr) : jsstr :=
  match acceptLanguageHeader with
  | None | Some [] => js "en"
  | Some h =>
      let languages :=
        List.map (fun lang =>
                    toLowerCase (first_part 45 (trim (first_part 59 lang))))
                 (split 44 h) in
      match find (includes_str supportedLanguages) languages with
      | Some lang => lang
      | None => js "en"
      end
  end.

(** [detectCountry(acceptLanguageHeader)] *)
Definition detectCountry (acceptLanguageHeader : option jsstr) : option jsstr :=
  match acceptLanguageHeader with
  | None | Some [] => None
  | Some h =>
      let locales := List.map (fun lang => trim (first_part 59 lang)) (split 44 h) in
      match find (fun locale => Nat.eqb (List.length (split 45 locale)) 2)
                 locales with
      | Some locale => Some (toUpperCase (at_index (split 45 locale) 1))
      | None => None
      end
  end.

End Case.

(** The two prices of the environment, as [parseInt] reads them
    ([PRICE_ONETIME_EUR] and [PRICE_ONETIME_USD], 499 when unset). *)
Record Prices : Type := mkPrices {
  PRICE_ONETIME_EUR : Z;
  PRICE_ONETIME_USD : Z
}.

(** The object [getCurrencyAndLocale] returns. *)
Record Pricing : Type := mkPricing {
  currency : jsstr;
  locale : jsstr;
  amount : Z
}.

Definition eurCountries : list jsstr :=
  List.map js
    [ "AT"; "BE"; "BG"; "HR"; "CY"; "CZ"; "DK"; "EE"; "FI"; "FR";
      "DE"; "GR"; "HU"; "IE"; "IT"; "LV"; "LT"; "LU"; "MT"; "NL";
      "PL"; "PT"; "RO"; "SK"; "SI"; "ES"; "SE";
      "GB"; "CH"; "NO"; "IS"; "LI"; "MC"; "VA"; "AD"; "SM" ]%string.

Definition europeanLanguages : list jsstr :=
  List.map js
    [ "de"; "es"; "fr"; "it"; "nl"; "pt"; "pl"; "el"; "fi"; "sv"; "da";
      "cs"; "sk"; "sl"; "et"; "lv"; "lt"; "mt"; "ga"; "ro"; "bg"; "hu";
      "hr" ]%string.

Section Priced.

Variable prices : Prices.

(** [getCurrencyAndLocale(lang, country)] *)
Definition getCurrencyAndLocale (lang : jsstr) (country : option jsstr)
  : Pricing :=
  match country with
  | Some (c :: cs) =>
      if includes_str eurCountries (c :: cs) then
        mkPricing (js "eur") lang (PRICE_ONETIME_EUR prices)
      else
        mkPricing (js "usd") (js "en") (PRICE_ONETIME_USD prices)
  | _ =>
      if includes_str europeanLanguages lang then
        mkPricing (js "eur") lang (PRICE_ONETIME_EUR prices)
      else
        mkPricing (js "eur") (js "en") (PRICE_ONETIME_EUR prices)
  end.

Variables toLowerCase toUpperCase : jsstr -> jsstr.

(** The language, country and pricing chosen at the start of
    [/create-checkout-session]: the language of the request body wins
    over the header, the country always comes from the header. *)
Definition checkout_pricing (browserLanguage acceptLanguageHeader : option jsstr)
  : Pricing :=
  let lang :=
    if truthy browserLanguage then detectLanguage toLowerCase browserLanguage
    else detectLanguage toLowerCase acceptLanguageHeader in
  let country := detectCountry toUpperCase acceptLanguageHeader in
  getCurrencyAndLocale lang country.

End Priced.

End Locale.

(* ================================================================== *)
(** ** server.js: admin sessions and the protected statistics routes *)
(* ================================================================== *)

Module Admin.

Local Open Scope string_scope.
Local Open Scope Z_scope.

(** [adminSessions]: session id to creation time (milliseconds). *)
Definition Sessions : Type := list (string * Z).

(** [adminSessions.has(id)], [.set(id, { created })], [.delete(id)]. *)
Definition has (sid : string) (m : Sessions) : bool :=
  existsb (fun e => String.eqb (fst e) sid) m.

Definition set (sid : string) (created : Z) (m : Sessions) : Sessions :=
  if has sid m then
    List.map (fun e => if String.eqb (fst e) sid then (sid, created) else e) m
  else (m ++ [(sid, created)])%list.

Definition delete (sid : string) (m : Sessions) : Sessions :=
  filter (fun e => negb (String.eqb (fst e) sid)) m.

Definition maxAge : Z := 24 * 60 * 60 * 1000.

(** The hourly [setInterval] callback: drop what is older than [maxAge]. *)
Definition sweep (now : Z) (m : Sessions) : Sessions :=
  filter (fun e => negb (maxAge <? now - snd e)) m.

(** What a middleware or route does with the request. *)
Inductive Answer : Type :=
| Next
| Status401
| Redirect (url : string).

(** [sessionId && adminSessions.has(sessionId)] *)
Definition logged_in (m : Sessions) (cookie : option string) : bool :=
  match cookie with
  | Some sid => negb (String.eqb sid "") && has sid m
  | None => false
  end.

(** [requireAdminAuth(req, res, next)] *)
Definition requireAdminAuth (m : Sessions) (cookie : option string)
  (path : string) : Answer :=
  if negb (logged_in m cookie) then
    if String.prefix "/api/" path then Status401
    else Redirect "/admin/login"
  else Next.

(** [app.post('/admin/login')]: the sessions afterwards, the cookie set
    and the redirect.  [correctPassword] is [STATS_PASSWORD], [fresh] the
    id drawn from [crypto.randomBytes], [now] is [Date.now()]. *)
Definition login (correctPassword : option string) (fresh : string) (now : Z)
  (password : option string) (m : Sessions)
  : Sessions * option string * string :=
  match correctPassword with
  | None | Some "" => (m, None, "/admin/login?error=1")
  | Some correct =>
      match password with
      | Some p =>
          if String.eqb p correct then
            (set fresh now m, Some fresh, "/admin/stats")
          else (m, None, "/admin/login?error=1")
      | None => (m, None, "/admin/login?error=1")
      end
  end.

(** [app.get('/admin/logout')] *)
Definition logout (cookie : option string) (m : Sessions) : Sessions * string :=
  match cookie with
  | Some sid =>
      if String.eqb sid "" then (m, "/admin/login")
      else (delete sid m, "/admin/login")
  | None => (m, "/admin/login")
  end.

(** [parseInt(req.query.days) || fallback]; [None] is [NaN]. *)
Definition days_or (parsed : option Z) (fallback : Z) : Z :=
  match parsed with
  | Some 0 | None => fallback
  | Some n => n
  end.

(** What the two statistics routes answer. *)
Inductive StatsAnswer : Type :=
| Refused (a : Answer)
| StatsJson (stats : Store.Stats)
| CleanupJson (deletedRecords : N).

Section Routes.

(** The [Date] that lies the given number of days before the current
    time ([new Date()] followed by [setDate(getDate() - days)]). *)
Variable days_ago : Z -> Store.Instant.

(** [app.get('/api/stats', requireAdminAuth, ...)] *)
Definition api_stats (m : Sessions) (cookie : option string)
  (days : option Z) : Store.DbM StatsAnswer :=
  match requireAdminAuth m cookie "/api/stats" with
  | Next =>
      Store.bind (Store.getStats (days_ago (days_or days 30)))
                 (fun stats => Store.ret (StatsJson stats))
  | a => Store.ret (Refused a)
  end.

(** [app.post('/api/stats/cleanup', requireAdminAuth, ...)] *)
Definition api_stats_cleanup (m : Sessions) (cookie : option string)
  (days : option Z) : Store.DbM StatsAnswer :=
  match requireAdminAuth m cookie "/api/stats/cleanup" with
  | Next =>
      Store.bind (Store.cleanupOldData (days_ago (days_or days 90)))
                 (fun deleted => Store.ret (CleanupJson deleted))
  | a => Store.ret (Refused a)
  end.

End Routes.

End Admin.

(* ================================================================== *)
(** ** server.js: the cached Zoho access token *)
(* ================================================================== *)

Module TokenCache.

Import Fx.
Local Open Scope string_scope.
Local Open Scope Z_scope.

(** [zohoAccessTokenCache] *)
Record Cache : Type := mkCache {
  token : option string;
  expiresAt : Z
}.

Record Credentials : Type := mkCredentials {
  clientId : string;
  clientSecret : string;
  refreshToken : string
}.

(** What the token endpoint answers: a non-2xx status, or a JSON body
    that may carry [access_token]. *)
Inductive TokenResponse : Type :=
| AuthNotOk (status : string)
| AuthJson (access_token : option string).

(** What the outside world gives one call: the credentials found (or
    not), the answer to the [fetch] (or its network error), and the two
    readings of [Date.now()], at entry and after the answer. *)
Record World : Type := mkWorld {
  credentials : option Credentials;
  fetched : Credentials -> Message + TokenResponse;
  now : Z;
  later : Z
}.

(** The result of one call: whether the endpoint was asked, the token
    returned or the error thrown, and the cache afterwards. *)
Record Result : Type := mkResult {
  asked : bool;
  returned : Message + option string;
  cache_after : Cache
}.

(** [getZohoAccessToken()] *)
Definition getZohoAccessToken (w : World) (cache : Cache) : Result :=
  if Zoho.present (token cache) && (now w <? expiresAt cache) then
    mkResult false (inr (token cache)) cache
  else
    match credentials w with
    | None => mkResult false (inl (Text "Zoho credentials not found")) cache
    | Some c =>
        match fetched w c with
        | inl e => mkResult true (inl e) cache
        | inr (AuthNotOk status) =>
            mkResult true (inl (Prefixed "Zoho auth failed: " (Text status))) cache
        | inr (AuthJson access_token) =>
            mkResult true (inr access_token)
                     (mkCache access_token (later w + 55 * 60 * 1000))
        end
    end.

End TokenCache.

(* ================================================================== *)
(** * Properties *)
(* ================================================================== *)

Module JsStringFacts.

Import JsString.
Local Open Scope N_scope.


Lemma split_not_nil (sep : char) (s : jsstr) : split sep s <> [].
Proof.
  induction s as [|c t IH]; simpl; [discriminate|].
  destruct (char_eqb c sep); [discriminate|].
  destruct (split sep t); discriminate.
Qed.

Lemma split_parts_free (sep : char) (s p : jsstr) :
  In p (split sep s) -> ~ In sep p.
Proof.
  revert p; induction s as [|c t IH]; simpl; intros p Hin.
  - destruct Hin as [<-|[]]; intros [].
  - destruct (char_eqb c sep) eqn:E.
    + destruct Hin as [<-|Hin]; [intros []|now apply IH].
    + destruct (split sep t) as [|q qs] eqn:Es.
      * destruct Hin as [<-|[]]. intros [->|[]].
        unfold char_eqb in E. now rewrite N.eqb_refl in E.
      * destruct Hin as [<-|Hin].
        -- intros [->|Hq].
           ++ unfold char_eqb in E. now rewrite N.eqb_refl in E.
           ++ apply (IH q); [now left|exact Hq].
        -- apply IH. now right.
Qed.

Lemma split_free (sep : char) (a : jsstr) :
  ~ In sep a -> split sep a = [a].
Proof.
  induction a as [|c t IH]; simpl; intros H; [reflexivity|].
  destruct (char_eqb c sep) eqn:E.
  - exfalso. apply H. left. now apply N.eqb_eq in E.
  - rewrite IH; [reflexivity|]. intros Hin. apply H. now right.
Qed.

Lemma split_app_sep (sep : char) (a t : jsstr) :
  ~ In sep a -> split sep (a ++ sep :: t) = a :: split sep t.
Proof.
  induction a as [|c a' IH]; simpl; intros H.
  - unfold char_eqb. now rewrite N.eqb_refl.
  - destruct (char_eqb c sep) eqn:E.
    + exfalso. apply H. left. now apply N.eqb_eq in E.
    + rewrite IH; [reflexivity|]. intros Hin. apply H. now right.
Qed.

Lemma join_split (sep : char) (s : jsstr) : join [sep] (split sep s) = s.
Proof.
  induction s as [|c t IH]; simpl; [reflexivity|].
  destruct (char_eqb c sep) eqn:E.
  - apply N.eqb_eq in E. subst c.
    pose proof (split_not_nil sep t) as Hne.
    destruct (split sep t) as [|q qs]; [contradiction|].
    simpl in *. now rewrite IH.
  - pose proof (split_not_nil sep t) as Hne.
    destruct (split sep t) as [|q qs]; [contradiction|].
    destruct qs as [|q' qs']; simpl in *; now rewrite <- IH.
Qed.

Lemma split_join_free (sep : char) (p : jsstr) (ps : list jsstr) :
  (forall q, In q (p :: ps) -> ~ In sep q) ->
  split sep (join [sep] (p :: ps)) = p :: ps.
Proof.
  revert p; induction ps as [|q qs IH]; intros p H.
  - simpl. apply split_free. apply H. now left.
  - change (join [sep] (p :: q :: qs)) with (p ++ sep :: join [sep] (q :: qs)).
    rewrite split_app_sep by (apply H; now left).
    rewrite IH; [reflexivity|]. intros r Hr. apply H. now right.
Qed.

Lemma split_length (sep : char) (s : jsstr) :
  List.length (split sep s) = S (occurrences sep s).
Proof.
  unfold occurrences.
  induction s as [|c t IH]; simpl; [reflexivity|].
  unfold char_eqb. destruct (N.eqb_spec c sep) as [->|Hne].
  - simpl. rewrite IH. destruct (N.eq_dec sep sep); [reflexivity|contradiction].
  - destruct (N.eq_dec c sep); [contradiction|].
    pose proof (split_not_nil sep t) as Hnil.
    destruct (split sep t); [contradiction|]. exact IH.
Qed.

Lemma occurrences_app (c : char) (a b : jsstr) :
  occurrences c (a ++ b) = (occurrences c a + occurrences c b)%nat.
Proof. apply count_occ_app. Qed.

Lemma occurrences_free (c : char) (a : jsstr) :
  ~ In c a <-> occurrences c a = 0%nat.
Proof. apply count_occ_not_In. Qed.

(** A literal matches wherever a case variant of it starts. *)
Lemma match_lit_variant (p g rest : jsstr) :
  List.map canon g = List.map canon p -> match_lit p (g ++ rest) = true.
Proof.
  revert g; induction p as [|a p IH]; intros g H; [reflexivity|].
  destruct g as [|c g]; [discriminate|].
  simpl in *. injection H as Hc Hg.
  unfold char_eqb. rewrite Hc, N.eqb_refl. simpl. now apply IH.
Qed.

Lemma test_lit_here (p s : jsstr) : match_lit p s = true -> test_lit p s = true.
Proof. intros H. destruct s; simpl; rewrite H; reflexivity. Qed.

Lemma test_lit_skip (p pre s : jsstr) :
  test_lit p s = true -> test_lit p (pre ++ s) = true.
Proof.
  induction pre as [|c pre IH]; intros H; [exact H|].
  simpl. rewrite (IH H). apply orb_true_r.
Qed.

Lemma test_lit_variant (p pre g post : jsstr) :
  List.map canon g = List.map canon p -> test_lit p (pre ++ g ++ post) = true.
Proof.
  intros H. apply test_lit_skip, test_lit_here. now apply match_lit_variant.
Qed.

End JsStringFacts.

Module AnalyticsFacts.

Import JsString JsStringFacts Analytics Address Cascade.
Local Open Scope N_scope.

(** [anonymizeIP] on a string, without the emptiness test: the empty
    string falls through both branches to ['unknown'] anyway. *)
Lemma anonymizeIP_string (s : jsstr) :
  anonymizeIP (Some s) =
  if Nat.eqb (List.length (split dot s)) 4 then
    at_index (split dot s) 0 ++ js "." ++ at_index (split dot s) 1 ++ js "."
      ++ at_index (split dot s) 2 ++ js ".xxx"
  else if Nat.ltb 3 (List.length (split colon s)) then
    join (js ":") (firstn 3 (split colon s)) ++ js "::xxx"
  else js "unknown".
Proof. destruct s; reflexivity. Qed.

Lemma anonymizeIP_quad (a b c d : jsstr) :
  dot_free a -> dot_free b -> dot_free c -> dot_free d ->
  anonymizeIP (Some (quad a b c d)) = quad a b c (js "xxx").
Proof.
  intros Ha Hb Hc Hd. rewrite anonymizeIP_string.
  assert (Hs : split dot (quad a b c d) = [a; b; c; d]).
  { unfold quad. change (js ".") with [dot]. simpl app.
    rewrite !split_app_sep by assumption. now rewrite split_free. }
  rewrite Hs. reflexivity.
Qed.

Lemma quad_of_split (s a b c d : jsstr) :
  split dot s = [a; b; c; d] ->
  dot_free a /\ dot_free b /\ dot_free c /\ dot_free d /\ s = quad a b c d.
Proof.
  intros Hs.
  assert (Hf : forall p, In p [a; b; c; d] -> ~ In dot p).
  { intros p Hp. apply split_parts_free with (s := s). now rewrite Hs. }
  repeat split; try (apply Hf; simpl; tauto).
  rewrite <- (join_split dot s), Hs. reflexivity.
Qed.

Lemma anonymizeIP_hextets (h0 h1 h2 h3 : jsstr) (rest : list jsstr) :
  Forall field (h0 :: h1 :: h2 :: h3 :: rest) ->
  anonymizeIP (Some (hextets (h0 :: h1 :: h2 :: h3 :: rest)))
  = hextets [h0; h1; h2; []; js "xxx"].
Proof.
  intros Hf. rewrite anonymizeIP_string.
  set (s := hextets (h0 :: h1 :: h2 :: h3 :: rest)).
  assert (Hc : split colon s = h0 :: h1 :: h2 :: h3 :: rest).
  { apply split_join_free. intros q Hq.
    rewrite Forall_forall in Hf. now apply Hf. }
  assert (Hd : occurrences dot s = 0%nat).
  { subst s. clear Hc. unfold hextets.
    induction (h0 :: h1 :: h2 :: h3 :: rest) as [|p ps IH]; [reflexivity|].
    inversion Hf as [|? ? [Hp _] Hps]; subst.
    destruct ps as [|q qs].
    - simpl. now apply occurrences_free.
    - change (join (js ":") (p :: q :: qs))
        with (p ++ js ":" ++ join (js ":") (q :: qs)).
      rewrite !occurrences_app, (IH Hps).
      apply occurrences_free in Hp. rewrite Hp. reflexivity. }
  rewrite split_length, Hd, Hc.
  change (hextets [h0; h1; h2; []; js "xxx"])
    with (h0 ++ js ":" ++ h1 ++ js ":" ++ h2 ++ js "::xxx").
  change ((h0 ++ js ":" ++ h1 ++ js ":" ++ h2) ++ js "::xxx"
          = h0 ++ js ":" ++ h1 ++ js ":" ++ h2 ++ js "::xxx").
  now rewrite <- !app_assoc.
Qed.

Lemma four_parts {A} (l : list A) :
  List.length l = 4%nat -> exists a b c d, l = [a; b; c; d].
Proof.
  destruct l as [|a [|b [|c [|d [|e l]]]]]; try discriminate.
  intros _. now exists a, b, c, d.
Qed.

Lemma dot_free_xxx : dot_free (js "xxx").
Proof. unfold dot_free. simpl. intros [H|[H|[H|[]]]]; discriminate. Qed.

Lemma anonymizeIP_idem_quad (s : jsstr) :
  List.length (split dot s) = 4%nat ->
  anonymizeIP (Some (anonymizeIP (Some s))) = anonymizeIP (Some s).
Proof.
  intros H. destruct (four_parts _ H) as (a & b & c & d & Hs).
  destruct (quad_of_split _ Hs) as (Ha & Hb & Hc & Hd & ->).
  rewrite anonymizeIP_quad by assumption.
  apply anonymizeIP_quad; auto using dot_free_xxx.
Qed.

(** The colon branch: what it returns, and what a second pass does to it. *)
Lemma anonymizeIP_colon (s : jsstr) :
  List.length (split dot s) <> 4%nat ->
  (3 < List.length (split colon s))%nat ->
  anonymizeIP (Some s) = join (js ":") (firstn 3 (split colon s)) ++ js "::xxx".
Proof.
  intros Hd Hc. rewrite anonymizeIP_string.
  apply Nat.eqb_neq in Hd. apply Nat.ltb_lt in Hc. now rewrite Hd, Hc.
Qed.

Lemma colon_prefix_shape (s : jsstr) :
  (3 < List.length (split colon s))%nat ->
  exists p0 p1 p2,
    firstn 3 (split colon s) = [p0; p1; p2]
    /\ ~ In colon p0 /\ ~ In colon p1 /\ ~ In colon p2.
Proof.
  intros Hc.
  pose proof (split_parts_free colon s) as Hf.
  destruct (split colon s) as [|p0 [|p1 [|p2 [|p3 rest]]]];
    simpl in Hc; try lia.
  exists p0, p1, p2. repeat split; try (apply Hf; simpl; tauto).
Qed.

Lemma anonymizeIP_idem_colon (s : jsstr) :
  List.length (split dot s) <> 4%nat ->
  (3 < List.length (split colon s))%nat ->
  occurrences dot (join (js ":") (firstn 3 (split colon s))) <> 3%nat ->
  anonymizeIP (Some (anonymizeIP (Some s))) = anonymizeIP (Some s).
Proof.
  intros Hd Hc Hj. rewrite (anonymizeIP_colon _ Hd Hc).
  destruct (colon_prefix_shape _ Hc) as (p0 & p1 & p2 & Hp & H0 & H1 & H2).
  rewrite Hp in *.
  set (o := join (js ":") [p0; p1; p2] ++ js "::xxx").
  assert (Ho : o = hextets [p0; p1; p2; []; js "xxx"]).
  { subst o.
    change (hextets [p0; p1; p2; []; js "xxx"])
      with (p0 ++ js ":" ++ p1 ++ js ":" ++ p2 ++ js "::xxx").
    change (join (js ":") [p0; p1; p2])
      with (p0 ++ js ":" ++ p1 ++ js ":" ++ p2).
    now rewrite <- !app_assoc. }
  assert (Hsplit : split colon o = [p0; p1; p2; []; js "xxx"]).
  { rewrite Ho. apply split_join_free.
    intros q [<-|[<-|[<-|[<-|[<-|[]]]]]]; auto.
    simpl. intros [H|[H|[H|[]]]]; discriminate. }
  rewrite (anonymizeIP_colon o).
  - now rewrite Hsplit.
  - rewrite split_length. subst o. rewrite occurrences_app.
    change (occurrences dot (js "::xxx")) with 0%nat. lia.
  - rewrite Hsplit. simpl. lia.
Qed.

Lemma anonymizeIP_not_idem_mixed (s : jsstr) :
  mixed_notation s ->
  anonymizeIP (Some (anonymizeIP (Some s))) <> anonymizeIP (Some s).
Proof.
  intros (Hd & Hc & Hj).
  assert (Hd' : List.length (split dot s) <> 4%nat)
    by (rewrite split_length; lia).
  rewrite (anonymizeIP_colon _ Hd' Hc).
  set (j := join (js ":") (firstn 3 (split colon s))) in *.
  assert (H4 : List.length (split dot (j ++ js "::xxx")) = 4%nat).
  { rewrite split_length, occurrences_app, Hj. reflexivity. }
  rewrite anonymizeIP_string, H4. simpl Nat.eqb. cbv iota.
  intros Heq. apply (f_equal (@rev char)) in Heq.
  rewrite !rev_app_distr in Heq. simpl in Heq. discriminate Heq.
Qed.

(** *** Claims about [anonymizeIP] *)

(** C6 (as amended).  [anonymizeIP('203.0.113.42')] is ['203.0.113.xxx'];
    a dotted quad keeps its first three octets and gets ['xxx'] as the
    fourth; a colon-separated address of more than three dot-free
    hextets is collapsed to its first three followed by ['::xxx']; equal
    inputs give equal outputs; and a second application changes nothing
    exactly when the input is not of the mixed notation (read as
    colon-separated while its first three colon fields hold three
    dots), for a string as for a missing input. *)
Theorem anonymizeIP_laws :
  anonymizeIP (Some (js "203.0.113.42")) = js "203.0.113.xxx"
  /\ (forall a b c d,
        dot_free a -> dot_free b -> dot_free c -> dot_free d ->
        anonymizeIP (Some (quad a b c d)) = quad a b c (js "xxx"))
  /\ (forall h0 h1 h2 h3 rest,
        Forall field (h0 :: h1 :: h2 :: h3 :: rest) ->
        anonymizeIP (Some (hextets (h0 :: h1 :: h2 :: h3 :: rest)))
        = hextets [h0; h1; h2] ++ js "::xxx")
  /\ (forall ip ip', ip = ip' -> anonymizeIP ip = anonymizeIP ip')
  /\ (forall s,
        anonymizeIP (Some (anonymizeIP (Some s))) = anonymizeIP (Some s)
        <-> ~ mixed_notation s)
  /\ anonymizeIP (Some (anonymizeIP None)) = anonymizeIP None.
Proof.
  split; [reflexivity|].
  split; [exact anonymizeIP_quad|].
  split.
  { intros h0 h1 h2 h3 rest Hf. rewrite (anonymizeIP_hextets Hf).
    change (hextets [h0; h1; h2; []; js "xxx"])
      with (h0 ++ js ":" ++ h1 ++ js ":" ++ h2 ++ js "::xxx").
    change (hextets [h0; h1; h2]) with (h0 ++ js ":" ++ h1 ++ js ":" ++ h2).
    now rewrite <- !app_assoc. }
  split; [now intros ip ip' ->|].
  split; [|reflexivity].
  intros s. split.
  - intros Hidem Hmixed. now apply (anonymizeIP_not_idem_mixed Hmixed).
  - intros Hn.
    destruct (Nat.eq_dec (List.length (split dot s)) 4) as [H4|H4];
      [now apply anonymizeIP_idem_quad|].
    destruct (Nat.ltb_spec 3 (List.length (split colon s))) as [Hc|Hc].
    + apply anonymizeIP_idem_colon; try assumption.
      intros Hj. apply Hn. repeat split; try assumption.
      rewrite split_length in H4. lia.
    + assert (Hu : anonymizeIP (Some s) = js "unknown").
      { rewrite anonymizeIP_string.
        apply Nat.eqb_neq in H4. rewrite H4.
        destruct (Nat.ltb_spec 3 (List.length (split colon s))); [lia|].
        reflexivity. }
      rewrite Hu. reflexivity.
Qed.

Lemma anonymizeIP_laws_witness :
  ~ mixed_notation (js "2001:0db8:85a3:0000:0000:8a2e:0370:7334")
  /\ anonymizeIP
       (Some (anonymizeIP (Some (js "2001:0db8:85a3:0000:0000:8a2e:0370:7334"))))
     = anonymizeIP (Some (js "2001:0db8:85a3:0000:0000:8a2e:0370:7334")).
Proof.
  assert (Hn : ~ mixed_notation (js "2001:0db8:85a3:0000:0000:8a2e:0370:7334")).
  { intros (_ & _ & H). vm_compute in H. discriminate H. }
  split; [exact Hn|].
  apply (proj1 (proj2 (proj2 (proj2 (proj2 anonymizeIP_laws)))) _). exact Hn.
Defined.

(** C6 as stated fails: on ['1.2:3.4:5.6:7.8'] the first pass takes the
    colon branch, the second pass takes the dotted-quad branch. *)
Lemma anonymizeIP_twice_differs :
  anonymizeIP (Some (js "1.2:3.4:5.6:7.8")) = js "1.2:3.4:5.6::xxx"
  /\ anonymizeIP (Some (anonymizeIP (Some (js "1.2:3.4:5.6:7.8"))))
     = js "1.2:3.4:5.xxx"
  /\ anonymizeIP (Some (anonymizeIP (Some (js "1.2:3.4:5.6:7.8"))))
     <> anonymizeIP (Some (js "1.2:3.4:5.6:7.8")).
Proof.
  split; [reflexivity|]. split; [reflexivity|].
  vm_compute. discriminate.
Qed.

(** C10 (as amended).  [anonymizeIP] returns ['unknown'] or a string
    ending in ['xxx'].  On an input with exactly three dots, so on every
    dotted quad, the output's four dot-separated fields are the first
    three fields and ['xxx'], whatever followed the last dot.  On an
    input that does not have exactly three dots and has more than three
    colon-separated fields, so on an IPv6 address written without a
    dotted quad inside, the output's colon-separated fields are the
    first three fields, an empty field and ['xxx'], whatever the fields
    past the third were. *)
Theorem anonymizeIP_masks_tail :
  (forall ip,
     anonymizeIP ip = js "unknown" \/ ends_with (js "xxx") (anonymizeIP ip))
  /\ (forall a b c d d',
        dot_free a -> dot_free b -> dot_free c -> dot_free d -> dot_free d' ->
        split dot (anonymizeIP (Some (quad a b c d))) = [a; b; c; js "xxx"]
        /\ anonymizeIP (Some (quad a b c d)) = anonymizeIP (Some (quad a b c d')))
  /\ (forall s s',
        occurrences dot s <> 3%nat -> occurrences dot s' <> 3%nat ->
        (3 < List.length (split colon s))%nat ->
        (3 < List.length (split colon s'))%nat ->
        firstn 3 (split colon s) = firstn 3 (split colon s') ->
        split colon (anonymizeIP (Some s))
        = (firstn 3 (split colon s) ++ [[]; js "xxx"])%list
        /\ anonymizeIP (Some s) = anonymizeIP (Some s')).
Proof.
  split; [|split].
  - intros [s|]; [|now left]. rewrite anonymizeIP_string.
    destruct (Nat.eqb _ 4).
    + right.
      exists (at_index (split dot s) 0 ++ js "." ++ at_index (split dot s) 1
              ++ js "." ++ at_index (split dot s) 2 ++ js ".").
      now rewrite <- !app_assoc.
    + destruct (Nat.ltb 3 _); [|now left]. right.
      exists (join (js ":") (firstn 3 (split colon s)) ++ js "::").
      now rewrite <- app_assoc.
  - intros a b c d d' Ha Hb Hc Hd Hd'.
    rewrite !anonymizeIP_quad by assumption. split; [|reflexivity].
    unfold quad. change (js ".") with [dot]. simpl app.
    rewrite !split_app_sep by assumption.
    now rewrite split_free by exact dot_free_xxx.
  - intros s s' Hd Hd' Hc Hc' Hf.
    assert (H4 : List.length (split dot s) <> 4%nat)
      by (rewrite split_length; lia).
    assert (H4' : List.length (split dot s') <> 4%nat)
      by (rewrite split_length; lia).
    rewrite (anonymizeIP_colon _ H4 Hc), (anonymizeIP_colon _ H4' Hc'), <- Hf.
    split; [|reflexivity].
    destruct (colon_prefix_shape _ Hc) as (p0 & p1 & p2 & Hp & H0 & H1 & H2).
    rewrite Hp.
    replace (join (js ":") [p0; p1; p2] ++ js "::xxx")
      with (join [colon] [p0; p1; p2; []; js "xxx"]).
    + apply split_join_free.
      intros q [<-|[<-|[<-|[<-|[<-|[]]]]]]; auto.
      simpl. intros [H|[H|[H|[]]]]; discriminate.
    + change (join [colon] [p0; p1; p2; []; js "xxx"])
        with (p0 ++ js ":" ++ p1 ++ js ":" ++ p2 ++ js "::xxx").
      change (join (js ":") [p0; p1; p2])
        with (p0 ++ js ":" ++ p1 ++ js ":" ++ p2).
      now rewrite <- !app_assoc.
Qed.

Lemma anonymizeIP_masks_tail_witness :
  split dot (anonymizeIP (Some (quad (js "192") (js "168") (js "1") (js "123"))))
  = [js "192"; js "168"; js "1"; js "xxx"]
  /\ anonymizeIP (Some (quad (js "192") (js "168") (js "1") (js "123")))
     = anonymizeIP (Some (quad (js "192") (js "168") (js "1") (js "7"))).
Proof.
  apply (proj1 (proj2 anonymizeIP_masks_tail));
    unfold dot_free; simpl; intuition discriminate.
Defined.

(** C10 as stated fails: an IPv6 address that ends in a dotted quad has
    exactly three dots, so it is read as a dotted quad; only the text
    after its last dot is replaced, and its fourth, fifth and sixth
    hextets are still in the output. *)
Lemma anonymizeIP_keeps_hextets_before_embedded_quad :
  let s := js "2001:db8:85a3:8d3:1319:8a2e:192.0.2.33" in
  (3 < List.length (split colon s))%nat
  /\ anonymizeIP (Some s) = js "2001:db8:85a3:8d3:1319:8a2e:192.0.2.xxx"
  /\ split colon (anonymizeIP (Some s))
     = [js "2001"; js "db8"; js "85a3"; js "8d3"; js "1319"; js "8a2e";
        js "192.0.2.xxx"].
Proof.
  split; [vm_compute; lia|]. split; vm_compute; reflexivity.
Qed.

(** *** Claim about [isBot] *)

(** C7.  A user agent that contains the letters of [Googlebot] in any
    casing, with any text before and after, is classified as a bot. *)
Theorem isBot_googlebot_any_case (pre g post : jsstr) :
  List.map canon g = List.map canon (js "Googlebot") ->
  isBot (Some (pre ++ g ++ post)) = true.
Proof.
  intros Hg.
  assert (Ht : test_lit (js "googlebot") (pre ++ g ++ post) = true).
  { apply test_lit_variant. rewrite Hg. reflexivity. }
  unfold isBot. destruct (pre ++ g ++ post) as [|c ua] eqn:E.
  - reflexivity.
  - apply existsb_exists. exists (js "googlebot").
    split; [left; reflexivity|exact Ht].
Qed.

Lemma isBot_googlebot_any_case_witness :
  List.map canon (js "GoogleBOT") = List.map canon (js "Googlebot")
  /\ isBot (Some (js "Mozilla/5.0 (compatible; " ++ js "GoogleBOT"
                   ++ js "/2.1; +http://www.google.com/bot.html)")) = true.
Proof.
  split; [reflexivity|].
  apply isBot_googlebot_any_case. reflexivity.
Defined.

End AnalyticsFacts.

Module ClassifierFacts.

Import JsString Analytics Cascade.

Lemma first_match_range (rules : list rule) (default ua : jsstr) :
  In (first_match rules default ua) (default :: List.map snd rules).
Proof.
  unfold first_match. destruct (find (fun r => fst r ua) rules) as [r|] eqn:E; [|now left].
  right. apply in_map. now apply find_some in E.
Qed.

Lemma first_match_default (rules : list rule) (default ua : jsstr) :
  (forall r, In r rules -> fst r ua = false) ->
  first_match rules default ua = default.
Proof.
  intros H. unfold first_match.
  destruct (find (fun r => fst r ua) rules) as [r|] eqn:E; [|reflexivity].
  apply find_some in E. destruct E as [Hin Hr].
  rewrite (H r Hin) in Hr. discriminate.
Qed.

Lemma classifier_range missing rules default input :
  In (classifier missing rules default input) (categories missing rules default).
Proof.
  unfold classifier, categories.
  destruct input as [[|c ua]|]; try (now left).
  right. apply first_match_range.
Qed.

Ltac cascade :=
  intros [[|c ua]|]; try reflexivity;
  unfold classifier, first_match;
  cbn [find fst snd any existsb browser_rules os_rules device_rules];
  repeat match goal with
         | |- context [test_lit (js ?p) ?s] =>
             let b := fresh "b" in
             generalize (test_lit (js p) s); intros b; destruct b
         | |- context [re_mobile ?s] => destruct (re_mobile s)
         | |- context [re_tablet ?s] => destruct (re_tablet s)
         end;
  reflexivity.

Lemma detectBrowser_cascade :
  forall ua, detectBrowser ua = classifier "Unknown" browser_rules "Other" ua.
Proof. unfold detectBrowser. cascade. Qed.

Lemma detectOS_cascade :
  forall ua, detectOS ua = classifier "Unknown" os_rules "Other" ua.
Proof. unfold detectOS. cascade. Qed.

Lemma detectDevice_cascade :
  forall ua, detectDevice ua = classifier "unknown" device_rules "desktop" ua.
Proof. unfold detectDevice. cascade. Qed.

Section Referrer.

Variable URL_hostname : jsstr -> option jsstr.

(** C8.  The four classifiers are total functions of a possibly missing
    string.  Browser, OS and device detection are ordered rule tables:
    the category for missing or empty input, else the result of the first
    rule that matches, else the default (['Other'], ['Other'],
    ['desktop']); so each result lies in the finite list of categories.
    Referrer cleaning returns ['direct'] for missing or empty input and
    when the URL does not parse, else ['internal'] or the host name
    without its first ['www.']. *)
Theorem classifiers_total_with_defaults :
  (forall ua, detectBrowser ua = classifier "Unknown" browser_rules "Other" ua)
  /\ (forall ua, detectOS ua = classifier "Unknown" os_rules "Other" ua)
  /\ (forall ua, detectDevice ua = classifier "unknown" device_rules "desktop" ua)
  /\ (forall ua,
        In (detectBrowser ua) (categories "Unknown" browser_rules "Other")
        /\ In (detectOS ua) (categories "Unknown" os_rules "Other")
        /\ In (detectDevice ua) (categories "unknown" device_rules "desktop"))
  /\ (forall ua c,
        (forall r, In r browser_rules -> fst r (c :: ua) = false) ->
        (forall r, In r os_rules -> fst r (c :: ua) = false) ->
        (forall r, In r device_rules -> fst r (c :: ua) = false) ->
        detectBrowser (Some (c :: ua)) = js "Other"
        /\ detectOS (Some (c :: ua)) = js "Other"
        /\ detectDevice (Some (c :: ua)) = js "desktop")
  /\ cleanReferrer URL_hostname None = js "direct"
  /\ cleanReferrer URL_hostname (Some []) = js "direct"
  /\ (forall ref, URL_hostname ref = None ->
        cleanReferrer URL_hostname (Some ref) = js "direct")
  /\ (forall ref,
        cleanReferrer URL_hostname ref = js "direct"
        \/ cleanReferrer URL_hostname ref = js "internal"
        \/ exists r hostname,
             ref = Some r /\ URL_hostname r = Some hostname
             /\ cleanReferrer URL_hostname ref
                = replace_first (js "www.") [] hostname).
Proof.
  split; [exact detectBrowser_cascade|].
  split; [exact detectOS_cascade|].
  split; [exact detectDevice_cascade|].
  split.
  { intros ua.
    rewrite detectBrowser_cascade, detectOS_cascade, detectDevice_cascade.
    repeat split; apply classifier_range. }
  split.
  { intros ua c Hb Ho Hd.
    rewrite detectBrowser_cascade, detectOS_cascade, detectDevice_cascade.
    unfold classifier.
    now rewrite !first_match_default by assumption. }
  split; [reflexivity|]. split; [reflexivity|].
  split.
  { intros ref H. unfold cleanReferrer. rewrite H. now destruct ref. }
  intros [[|c r]|]; try (now left).
  unfold cleanReferrer.
  destruct (URL_hostname (c :: r)) as [hostname|] eqn:E; [|now left].
  destruct (includes _ hostname); [right; now left|].
  right; right. now exists (c :: r), hostname.
Qed.

End Referrer.

Lemma classifiers_total_with_defaults_witness :
  detectBrowser (Some (js "Lynx/2.8.9rel.1 libwww-FM/2.14")) = js "Other"
  /\ detectOS (Some (js "Lynx/2.8.9rel.1 libwww-FM/2.14")) = js "Other"
  /\ detectDevice (Some (js "Lynx/2.8.9rel.1 libwww-FM/2.14")) = js "desktop".
Proof.
  apply (proj1 (proj2 (proj2 (proj2 (proj2
           (classifiers_total_with_defaults (fun _ => None)))))));
    intros r H; simpl in H;
    repeat (destruct H as [<-|H]; [reflexivity|]); destruct H.
Defined.

End ClassifierFacts.

Module StoreFacts.

Import JsString Analytics Store Calendar.
Local Open Scope N_scope.

Ltac Zify.zify_post_hook ::= Z.to_euclidean_division_equations.

(** *** What each operation does to the table *)

(** [getStats] only reads. *)
Lemma getStats_keeps_table (since : Instant) (db : Db) :
  snd (getStats since db) = db.
Proof. reflexivity. Qed.

(** [trackPageview] appends one row and touches no other. *)
Lemma trackPageview_appends URL_hostname toUpperCase toLowerCase trim
  (now : Instant) (req : Request) (page : jsstr) (db : Db) :
  exists row,
    snd (trackPageview URL_hostname toUpperCase toLowerCase trim now req page db)
    = mkDb (rows db ++ [row]) (seq db + 1)
    /\ timestamp row = CURRENT_TIMESTAMP now
    /\ id row = seq db + 1.
Proof. eexists. split; [reflexivity|]. split; reflexivity. Qed.

(** [cleanupOldData] removes rows and changes none: what is left is the
    old table without the rows whose timestamp text sorts before the
    cutoff text. *)
Lemma cleanupOldData_removes_only (cutoff : Instant) (db : Db) :
  rows (snd (cleanupOldData cutoff db))
  = filter (fun r => negb (str_ltb (timestamp r) (toISOString cutoff))) (rows db)
  /\ seq (snd (cleanupOldData cutoff db)) = seq db
  /\ (forall r, In r (rows (snd (cleanupOldData cutoff db))) -> In r (rows db)).
Proof.
  split; [reflexivity|]. split; [reflexivity|].
  intros r H. simpl in H. now apply filter_In in H.
Qed.

(** *** The text comparison behind [timestamp < ?] *)

Lemma str_ltb_same (c : char) (x y : jsstr) :
  str_ltb (c :: x) (c :: y) = str_ltb x y.
Proof. simpl. now rewrite N.ltb_irrefl. Qed.

Lemma str_ltb_pad2 (a b : N) (x y : jsstr) :
  a < 100 -> b < 100 ->
  str_ltb (pad2 a ++ x) (pad2 b ++ y)
  = if a <? b then true else if b <? a then false else str_ltb x y.
Proof.
  intros Ha Hb. unfold pad2, digit. cbn [app str_ltb].
  repeat match goal with
         | |- context [?u <? ?v] => destruct (N.ltb_spec u v)
         end; try reflexivity; try lia.
Qed.

Lemma pad4_split (n : N) : pad4 n = pad2 (n / 100) ++ pad2 (n mod 100).
Proof.
  unfold pad4, pad2, digit. simpl.
  replace ((n / 1000) mod 10) with ((n / 100 / 10) mod 10) by lia.
  replace ((n mod 100 / 10) mod 10) with ((n / 10) mod 10) by lia.
  replace ((n mod 100) mod 10) with (n mod 10) by lia.
  reflexivity.
Qed.

Lemma str_ltb_pad4 (a b : N) (x y : jsstr) :
  a < 10000 -> b < 10000 ->
  str_ltb (pad4 a ++ x) (pad4 b ++ y)
  = if a <? b then true else if b <? a then false else str_ltb x y.
Proof.
  intros Ha Hb. rewrite !pad4_split, <- !app_assoc.
  rewrite str_ltb_pad2 by lia. rewrite str_ltb_pad2 by lia.
  repeat match goal with
         | |- context [?u <? ?v] => destruct (N.ltb_spec u v)
         end; try reflexivity; lia.
Qed.

(** A stored timestamp sorts before the cutoff text exactly when its
    calendar day is not after the cutoff's day: on the same day the
    space of [CURRENT_TIMESTAMP] sorts before the [T] of [toISOString],
    whatever the time of day. *)
Lemma stored_before_cutoff_text (t cutoff : Instant) :
  printable t -> printable cutoff ->
  str_ltb (CURRENT_TIMESTAMP t) (toISOString cutoff)
  = (date_key t <=? date_key cutoff).
Proof.
  intros (Hy & Hm & Hd) (Hy' & Hm' & Hd').
  unfold CURRENT_TIMESTAMP, toISOString.
  rewrite str_ltb_pad4 by assumption.
  change (js "-") with [45]. cbn [app].
  rewrite str_ltb_same, str_ltb_pad2 by assumption.
  rewrite str_ltb_same, str_ltb_pad2 by assumption.
  change (js " ") with [32]. change (js "T") with [84]. cbn [app str_ltb].
  change (32 <? 84) with true. cbv iota.
  unfold date_key.
  repeat match goal with
         | |- context [?u <? ?v] => destruct (N.ltb_spec u v)
         end;
    destruct (N.leb_spec ((year t * 100 + month t) * 100 + day t)
                         ((year cutoff * 100 + month cutoff) * 100 + day cutoff));
    try reflexivity; try lia.
Qed.

(** Every row stored on the cutoff's calendar day is deleted, also when
    it was stored after the cutoff instant. *)
Lemma same_day_row_deleted (t cutoff : Instant) (r : Row) :
  printable t -> printable cutoff ->
  timestamp r = CURRENT_TIMESTAMP t ->
  date_key t = date_key cutoff ->
  ts_lt (toISOString cutoff) r = true.
Proof.
  intros Ht Hc Hr Hk. unfold ts_lt.
  rewrite Hr, stored_before_cutoff_text, Hk by assumption.
  apply N.leb_refl.
Qed.

(** C9 (where the code departs from it).  A pageview stored on
    2024-03-10 at 18:00:00 is nine hours newer than the cutoff
    2024-03-10T09:00:00.000Z, yet [cleanupOldData] deletes it: the stored
    text ['2024-03-10 18:00:00'] sorts before the cutoff text
    ['2024-03-10T09:00:00.000Z']. *)
Theorem cleanupOldData_deletes_newer_row :
  let stored := mkInstant 2024 3 10 18 0 0 0 in
  let cutoff := mkInstant 2024 3 10 9 0 0 0 in
  let db := snd (trackPageview (fun _ => None) (fun s => s) (fun s => s)
                   (fun s => s) stored bare_request (js "/") empty_db) in
  older cutoff stored
  /\ List.map timestamp (rows db) = [js "2024-03-10 18:00:00"]
  /\ toISOString cutoff = js "2024-03-10T09:00:00.000Z"
  /\ cleanupOldData cutoff db = (1, mkDb [] 1).
Proof.
  repeat split.
Qed.

End StoreFacts.

Module TaxFacts.

Import Stripe Fx Tax Checkout.
Local Open Scope string_scope.
Local Open Scope Z_scope.

Lemma Qpos_b_true (r : Q) : (0 < r)%Q -> Qpos_b r = true.
Proof.
  unfold Qpos_b, Qlt. simpl. intros H. apply Z.ltb_lt. lia.
Qed.

(** [Math.round] is off by at most one half. *)
Lemma Math_round_near (x : Q) :
  (x - (1 # 2) < inject_Z (Math_round x) /\ inject_Z (Math_round x) <= x + (1 # 2))%Q.
Proof.
  unfold Math_round. split.
  - pose proof (Qlt_floor (x + (1 # 2))) as H.
    rewrite inject_Z_plus in H.
    apply Qplus_lt_l with (z := 1%Q).
    eapply Qle_lt_trans; [|exact H].
    ring_simplify. apply Qle_refl.
  - apply Qfloor_le.
Qed.

(** Two integers next to the same rational are at most one apart. *)
Lemma round_within_one (q : Q) (net n' : Z) :
  (q - (1 # 2) < inject_Z net)%Q -> (inject_Z net <= q + (1 # 2))%Q ->
  (q - 1 < inject_Z n')%Q -> (inject_Z n' < q + 1)%Q ->
  Z.abs (net - n') <= 1.
Proof.
  intros H1 H2 H3 H4.
  assert (Hu : net < n' + 2).
  { rewrite Zlt_Qlt, inject_Z_plus. change (inject_Z 2) with 2%Q.
    generalize dependent (inject_Z net). generalize dependent (inject_Z n').
    intros; lra. }
  assert (Hl : n' < net + 2).
  { rewrite Zlt_Qlt, inject_Z_plus. change (inject_Z 2) with 2%Q.
    generalize dependent (inject_Z net). generalize dependent (inject_Z n').
    intros; lra. }
  lia.
Qed.

Section Reconciled.

Variable api : StripeApi.

Lemma reads_invoice_unique (s : Session) (inv inv' : Invoice) :
  reads_invoice api s inv -> reads_invoice api s inv' -> inv = inv'.
Proof.
  intros [H|i H Hi] [H'|i' H' Hi']; congruence.
Qed.

Lemma reads_invoice_some (s : Session) (inv : Invoice) :
  reads_invoice api s inv -> invoice_ref s <> None.
Proof. intros [H|i H Hi]; congruence. Qed.

Lemma not_division_log (l : list Effect) :
  forallb (fun e => match e with
                    | Log t =>
                        negb (String.eqb t "[WEBHOOK] Tax-inclusive: NET = Total / (1 + rate%)")
                        && negb (String.eqb t "[WEBHOOK] One-time tax-inclusive: NET = Total / (1 + rate%)")
                    | _ => true
                    end) l = true ->
  Forall (fun e => ~ net_by_division e) l.
Proof.
  intros H. apply Forall_forall. intros e He.
  rewrite forallb_forall in H. specialize (H e He).
  intros [->| ->]; discriminate H.
Qed.

Ltac resolve_invoice H :=
  unfold reconcile;
  destruct H as [H|invoiceId H Hcall]; rewrite H;
  unfold invoice_figures; try rewrite Hcall.

(** *** Zero tax collected *)

Lemma reconcile_zero_tax (s : Session) (T : Z) :
  reported api s T 0 ->
  outcome (reconcile api s) = inr (mkFigures 0 0 T)
  /\ Exists reverse_charge_detected (trace (reconcile api s))
  /\ Forall (fun e => ~ net_by_division e) (trace (reconcile api s)).
Proof.
  intros H. inversion H as [inv Hinv HT Ht]; subst.
  resolve_invoice Hinv; cbn; rewrite Ht; cbn;
    (split; [reflexivity|]);
    (split; [apply Exists_exists; eexists; split; [|reflexivity]; simpl; tauto|]);
    apply not_division_log; reflexivity.
Qed.

(** *** Tax-inclusive pricing *)

Lemma tax_rate_percentage_reads (ta : TaxAmount) (R : Q) :
  reads_rate api ta R -> outcome (tax_rate_percentage api ta) = inr R.
Proof.
  intros [r Hr HR|rateId r Hr Hne Hcall HR]; unfold tax_rate_percentage;
    rewrite Hr.
  - cbn. now rewrite HR.
  - destruct rateId as [|c rateId]; [contradiction|].
    rewrite Hcall. cbn. now rewrite HR.
Qed.

Lemma outcome_bind {A B} (m : M A) (k : A -> M B) (a : A) :
  outcome m = inr a -> outcome (bind m k) = outcome (k a).
Proof.
  destruct m as [t [e|a']]; simpl; intros H; [discriminate|].
  injection H as ->. unfold outcome. simpl. now destruct (k a).
Qed.

Lemma outcome_bind_log {B} (text : string) (k : unit -> M B) :
  outcome (bind (log text) k) = outcome (k tt).
Proof. now apply outcome_bind. Qed.

Lemma outcome_then_log {A} (m : M A) (text : string) :
  outcome (bind m (fun a => bind (log text) (fun _ => ret a))) = outcome m.
Proof. destruct m as [t [e|a]]; reflexivity. Qed.

Lemma inclusive_net (s : Session) (T t : Z) (R : Q) :
  reported api s T t -> inclusive_tax api s R -> t <> 0 -> (0 < R)%Q ->
  outcome (reconcile api s) = inr (mkFigures t R (net_of_inclusive T R)).
Proof.
  intros Hrep Hincl Ht HR.
  apply Z.eqb_neq in Ht. apply Qpos_b_true in HR.
  inversion Hrep as [inv Hinv HT Htax]; subst.
  inversion Hincl as [inv' ta more Hinv' Hlines Hi Hrate]; subst.
  rewrite <- (reads_invoice_unique Hinv Hinv') in *. clear Hinv'.
  apply tax_rate_percentage_reads in Hrate.
  resolve_invoice Hinv.
  - rewrite outcome_bind_log.
    rewrite (outcome_bind _ _ (a := inv)) by reflexivity.
    rewrite outcome_then_log, Ht, outcome_bind_log, Hlines.
    rewrite (outcome_bind _ _ Hrate), Hi, HR. reflexivity.
  - rewrite outcome_bind_log.
    rewrite (outcome_bind _ _ (a := inv)) by reflexivity.
    rewrite outcome_then_log, Ht, outcome_bind_log, Hlines.
    rewrite (outcome_bind _ _ Hrate), Hi, HR. reflexivity.
Qed.

(** *** No tax amounts on the first invoice line *)

Lemma no_metadata_figures (s : Session) (T t : Z) :
  reported api s T t -> no_tax_metadata api s ->
  exists net,
    outcome (reconcile api s) = inr (mkFigures t 0 net)
    /\ (t = 0 -> net = T)
    /\ (t <> 0 -> forall inv, reads_invoice api s inv ->
                  net = num_or_0 (subtotal inv)).
Proof.
  intros Hrep Hnone.
  inversion Hrep as [inv Hinv HT Htax]; subst.
  inversion Hnone as [inv' Hinv' Hlines]; subst.
  rewrite <- (reads_invoice_unique Hinv Hinv') in *. clear Hinv'.
  assert (Hout : outcome (reconcile api s)
                 = inr (mkFigures (num_or_0 (tax inv)) 0
                          (if num_or_0 (tax inv) =? 0 then total inv
                           else num_or_0 (subtotal inv)))).
  { pose proof Hinv as Hinv0.
    resolve_invoice Hinv0;
      rewrite outcome_bind_log;
      rewrite (outcome_bind _ _ (a := inv)) by reflexivity;
      rewrite outcome_then_log;
      destruct (num_or_0 (tax inv) =? 0);
      rewrite ?outcome_bind_log, ?Hlines; reflexivity. }
  eexists. split; [exact Hout|].
  split; [intros E; now rewrite E|].
  intros Hne inv2 Hinv2. rewrite <- (reads_invoice_unique Hinv Hinv2).
  apply Z.eqb_neq in Hne. now rewrite Hne.
Qed.

(** *** No invoice on the session *)

(** What the assignments of the fallback branch leave in the three
    variables when no tax was collected. *)
Lemma session_variables_zero_tax (s : Session) :
  num_or_0 (amount_tax s) = 0 ->
  outcome (session_variables s) = inr (mkFigures 0 0 (amount_total s)).
Proof. intros H. unfold session_variables. rewrite H. reflexivity. Qed.

Lemma session_variables_outcome (s : Session) :
  exists fig, outcome (session_variables s) = inr fig.
Proof.
  unfold session_variables.
  destruct (num_or_0 (amount_tax s) =? 0); [eexists; reflexivity|].
  rewrite outcome_bind_log.
  destruct (lineItemTaxes s) as [|[[r|]] more]; cbn [rate];
    rewrite ?outcome_bind_log; try (eexists; reflexivity).
  destruct (bool_or_false (rate_inclusive r) && Qpos_b (rate_or_0 (percentage r)));
    eexists; reflexivity.
Qed.

(** The fallback branch never returns: it ends in the [ReferenceError]. *)
Lemma session_figures_throws (s : Session) :
  outcome (session_figures s) = inl (Text "isInclusive is not defined").
Proof.
  unfold session_figures. rewrite outcome_bind_log.
  destruct (session_variables_outcome s) as [fig Hfig].
  now rewrite (outcome_bind _ _ Hfig).
Qed.

Lemma reconcile_without_invoice (s : Session) :
  invoice_ref s = None ->
  outcome (reconcile api s) = inl (Text "isInclusive is not defined").
Proof.
  intros H. unfold reconcile. rewrite H. apply session_figures_throws.
Qed.

End Reconciled.

(** *** The double quotient *)

(** Rounding the double quotient is not rounding the exact quotient: a
    total of 966 at 3.04 percent has the exact quotient 937.5, while the
    double quotient is 937.4999999999999, so the net is 937; likewise
    1047 at 11.68 percent. *)
Lemma net_rounds_the_double_quotient :
  net_of_inclusive 966 (304 # 100) = 937
  /\ Math_round (inject_Z 966 * 100 / (100 + (304 # 100)))%Q = 938
  /\ net_of_inclusive 1047 (1168 # 100) = 937
  /\ Math_round (inject_Z 1047 * 100 / (100 + (1168 # 100)))%Q = 938.
Proof. repeat split; vm_compute; reflexivity. Qed.

(** *** Claims about the reconciliation *)

(** C1 (as amended).  For a checkout whose invoice is tax-inclusive, with
    total [T] cents (a safe integer), nominal rate [R] percent ([R > 0])
    and a non-zero reported tax [t], the reconciliation sets the net to
    [Math.round] of the double quotient [(T * 100) / (100 + R)], halves
    rounded up, which lies within half a cent of that quotient; the rate
    is [R]; the tax amount is the provider-reported [t], passed through.
    So net plus tax gives back [T] exactly when the provider reported
    [T - net], and within one cent whenever the provider reported
    [T - n'] for an integer [n'] less than one cent away from the
    quotient (the quotient rounded either way). *)
Theorem inclusive_net_and_reported_tax (api : StripeApi) (s : Session)
  (T t : Z) (R : Q) :
  reported api s T t -> inclusive_tax api s R -> t <> 0 -> (0 < R)%Q ->
  safe_integer T -> plain_number R ->
  let quotient := Double.to_Q (netInCentsFloat T R) in
  let net := Math_round quotient in
  outcome (reconcile api s) = inr (mkFigures t R net)
  /\ (quotient - (1 # 2) < inject_Z net /\ inject_Z net <= quotient + (1 # 2))%Q
  /\ (net + t = T <-> t = T - net)
  /\ (forall n' : Z,
        (quotient - 1 < inject_Z n')%Q -> (inject_Z n' < quotient + 1)%Q ->
        t = T - n' -> Z.abs (net + t - T) <= 1).
Proof.
  intros Hrep Hincl Ht HR _ _ quotient net.
  split; [exact (inclusive_net Hrep Hincl Ht HR)|].
  split; [apply Math_round_near|].
  split; [lia|].
  intros n' Hlo Hhi ->.
  replace (net + (T - n') - T) with (net - n') by lia.
  destruct (Math_round_near quotient) as [H1 H2].
  exact (round_within_one H1 H2 Hlo Hhi).
Qed.

Lemma inclusive_net_and_reported_tax_witness :
  let inv := mkInvoice (Some 166) 999 (Some 833) (Some [one_tax_line true 20]) in
  let s := session_with_invoice inv in
  reported offline s 999 166 /\ inclusive_tax offline s 20
  /\ outcome (reconcile offline s) = inr (mkFigures 166 20 833).
Proof.
  intros inv s.
  assert (Hinv : reads_invoice offline s inv) by (now apply invoice_expanded).
  assert (Hrep : reported offline s 999 166)
    by exact (reported_on_invoice Hinv).
  assert (Hincl : inclusive_tax offline s 20).
  { eapply inclusive_on_invoice;
      [exact Hinv|reflexivity|reflexivity|].
    eapply rate_expanded; reflexivity. }
  split; [exact Hrep|]. split; [exact Hincl|].
  apply (inclusive_net_and_reported_tax Hrep Hincl);
    [lia|reflexivity|unfold safe_integer; simpl; lia
    |split; unfold safe_integer; simpl; lia].
Defined.

(** C1 as stated fails: the tax amount is not [T - net].  On a total of
    999 at 20 percent inclusive with 167 reported as tax, the net is 833
    and the tax amount stays 167, not 166. *)
Lemma reported_tax_is_not_total_minus_net :
  let inv := mkInvoice (Some 167) 999 (Some 832) (Some [one_tax_line true 20]) in
  let s := session_with_invoice inv in
  outcome (reconcile offline s) = inr (mkFigures 167 20 833)
  /\ 167 <> 999 - 833.
Proof. split; [vm_compute; reflexivity|lia]. Qed.

(** C2 fails on a session without an invoice.  With no tax collected on
    a total of 999 the fallback branch does assign tax 0, rate 0 and the
    total as the net and logs the reverse charge, as the claim says and
    as the invoice branch does; but it then throws the [ReferenceError]
    of its closing log line, so the reconciliation yields no figures at
    all. *)
Theorem zero_tax_without_invoice_throws :
  let s := session_without_invoice 999 (Some 0) in
  outcome (session_variables s) = inr (mkFigures 0 0 999)
  /\ reconcile offline s
     = ([Log "[WEBHOOK] No invoice found - using session data (fallback)";
         Log "[WEBHOOK] Reverse Charge detected - tax amount is 0";
         Log "[WEBHOOK] Reverse Charge: Using session total as subtotal"],
        inl (Text "isInclusive is not defined"))
  /\ forall figures, outcome (reconcile offline s) <> inr figures.
Proof.
  split; [reflexivity|]. split; [reflexivity|].
  intros figures. discriminate.
Qed.

(** C4 (as amended).  When the first line of the session's invoice
    carries no tax amounts, the rate is 0 and the tax amount is the
    provider-reported amount.  The net is the total when that amount is
    zero; with a non-zero reported tax the net is the invoice's own
    subtotal. *)
Theorem no_tax_metadata_fallback (api : StripeApi) (s : Session) (T t : Z) :
  reported api s T t -> no_tax_metadata api s ->
  exists net,
    outcome (reconcile api s) = inr (mkFigures t 0 net)
    /\ (t = 0 -> net = T)
    /\ (t <> 0 -> forall inv, reads_invoice api s inv ->
                  net = num_or_0 (subtotal inv)).
Proof. apply no_metadata_figures. Qed.

Lemma no_tax_metadata_fallback_witness :
  let inv := mkInvoice (Some 190) 1190 (Some 1000) (Some []) in
  let s := session_with_invoice inv in
  reported offline s 1190 190 /\ no_tax_metadata offline s
  /\ exists net, outcome (reconcile offline s) = inr (mkFigures 190 0 net)
                 /\ net = 1000.
Proof.
  intros inv s.
  assert (Hinv : reads_invoice offline s inv) by (now apply invoice_expanded).
  assert (Hrep : reported offline s 1190 190)
    by exact (reported_on_invoice Hinv).
  assert (Hnone : no_tax_metadata offline s)
    by exact (none_on_invoice Hinv eq_refl).
  split; [exact Hrep|]. split; [exact Hnone|].
  destruct (no_tax_metadata_fallback Hrep Hnone) as (net & Hout & _ & Hnet).
  exists net. split; [exact Hout|].
  apply (Hnet ltac:(lia) inv Hinv).
Defined.

(** C4 as stated fails: an invoice with 167 of tax, a total of 1000, a
    subtotal of 833 and no tax amounts on its lines is reconciled to net
    833 and tax 167, not to net 1000 and tax 0. *)
Lemma no_tax_metadata_keeps_tax_and_subtotal :
  let inv := mkInvoice (Some 167) 1000 (Some 833) None in
  let s := session_with_invoice inv in
  no_tax_metadata offline s
  /\ outcome (reconcile offline s) = inr (mkFigures 167 0 833)
  /\ outcome (reconcile offline s) <> inr (mkFigures 0 0 1000).
Proof.
  intros inv s. split.
  - apply (@none_on_invoice offline s inv); [now apply invoice_expanded|reflexivity].
  - split; [reflexivity|discriminate].
Qed.

End TaxFacts.

Module ZohoFacts.

Import Stripe Fx Zoho.
Local Open Scope string_scope.
Local Open Scope Z_scope.

(** The table has an entry exactly for 0 to 30. *)
Lemma TAX_IDS_none (n : Z) : TAX_IDS n = None <-> n < 0 \/ 30 < n.
Proof.
  split.
  - intros H.
    destruct (Z_lt_dec n 0) as [|Hge]; [now left|].
    destruct (Z_lt_dec 30 n) as [|Hle]; [now right|].
    exfalso.
    assert (Hall : forallb (fun k => match TAX_IDS (Z.of_nat k) with
                                     | Some _ => true
                                     | None => false
                                     end) (seq 0 31) = true) by reflexivity.
    rewrite forallb_forall in Hall.
    specialize (Hall (Z.to_nat n)).
    rewrite Z2Nat.id, H in Hall by lia.
    assert (Hin : In (Z.to_nat n) (seq 0 31)) by (apply in_seq; lia).
    specialize (Hall Hin). discriminate Hall.
  - intros Hn. unfold TAX_IDS, TAX_IDS_table.
    cbn [find fst].
    repeat match goal with
           | |- context [?k =? n] =>
               destruct (Z.eqb_spec k n); [lia|]
           end.
    reflexivity.
Qed.

Section Invoicing.

Variable toUpperCase : string -> string.
Variable zoho : ZohoApi.

Lemma posted_tax_id (d : InvoiceData) (p : InvoicePayload) :
  In (ZohoPostInvoice p) (trace (createZohoInvoice toUpperCase zoho d)) ->
  TAX_IDS (Tax.Math_round (taxRatePercentage d)) = Some (item_tax_id p).
Proof.
  unfold createZohoInvoice.
  destruct (getZohoAccessToken zoho) as [e|token].
  { cbn. intuition discriminate. }
  destruct (findOrCreateZohoCustomer zoho (customerEmail d)) as [cid ex|e].
  2:{ cbn. intuition discriminate. }
  cbn -[TAX_IDS Tax.Math_round].
  destruct (TAX_IDS (Tax.Math_round (taxRatePercentage d))) as [taxId|] eqn:E.
  2:{ cbn. intuition discriminate. }
  cbn -[TAX_IDS Tax.Math_round].
  match goal with
  | |- context [post_invoices zoho ?payload] =>
      destruct (post_invoices zoho payload) as [e|[status err|code msg num iid]]
  end; cbn; try destruct (code =? 0); cbn;
    intros H; repeat (destruct H as [H|H]; try discriminate H);
    try contradiction; injection H as <-; reflexivity.
Qed.

Lemma unmapped_rate_outcome (d : InvoiceData) :
  TAX_IDS (Tax.Math_round (taxRatePercentage d)) = None ->
  (exists e, outcome (createZohoInvoice toUpperCase zoho d) = inr (Failure e))
  /\ (forall token cid existing,
        getZohoAccessToken zoho = inr token ->
        findOrCreateZohoCustomer zoho (customerEmail d) = CustomerOk cid existing ->
        outcome (createZohoInvoice toUpperCase zoho d)
        = inr (Failure (NoTaxMapping (taxRatePercentage d)
                          (Tax.Math_round (taxRatePercentage d))))).
Proof.
  intros E. unfold createZohoInvoice. split.
  - destruct (getZohoAccessToken zoho) as [e|token].
    { cbn. eexists. reflexivity. }
    destruct (findOrCreateZohoCustomer zoho (customerEmail d)) as [cid ex|e].
    2:{ cbn. eexists. reflexivity. }
    cbn -[TAX_IDS Tax.Math_round]. rewrite E. cbn -[Tax.Math_round].
    eexists. reflexivity.
  - intros token cid existing Htoken Hcust. rewrite Htoken, Hcust.
    cbn -[TAX_IDS Tax.Math_round]. rewrite E. reflexivity.
Qed.

End Invoicing.

(** C3.  For a rate whose rounded value has no entry in [TAX_IDS] (the
    entries are 0 to 30, so 37 has none) invoice creation posts nothing
    and resolves to a failure; once the access token and the customer
    lookup have succeeded that failure is the explicit "No tax mapping
    for X% (rounded: N%)" error.  No invoice is ever posted with a
    default tax id: the tax id of a posted invoice is always the
    [TAX_IDS] entry of its rounded rate, whatever the country and VAT
    number. *)
Theorem unmapped_rate_fails_loudly (toUpperCase : string -> string)
  (zoho : ZohoApi) (d : InvoiceData) :
  TAX_IDS (Tax.Math_round (taxRatePercentage d)) = None ->
  (forall p,
     ~ In (ZohoPostInvoice p) (trace (createZohoInvoice toUpperCase zoho d)))
  /\ (exists e,
        outcome (createZohoInvoice toUpperCase zoho d) = inr (Failure e))
  /\ (forall token cid existing,
        getZohoAccessToken zoho = inr token ->
        findOrCreateZohoCustomer zoho (customerEmail d) = CustomerOk cid existing ->
        outcome (createZohoInvoice toUpperCase zoho d)
        = inr (Failure (NoTaxMapping (taxRatePercentage d)
                          (Tax.Math_round (taxRatePercentage d)))))
  /\ (forall d' p,
        In (ZohoPostInvoice p) (trace (createZohoInvoice toUpperCase zoho d')) ->
        TAX_IDS (Tax.Math_round (taxRatePercentage d')) = Some (item_tax_id p)).
Proof.
  intros E. split.
  - intros p Hp. apply posted_tax_id in Hp. congruence.
  - split; [exact (proj1 (unmapped_rate_outcome toUpperCase zoho d E))|].
    split; [exact (proj2 (unmapped_rate_outcome toUpperCase zoho d E))|].
    intros d' p. apply posted_tax_id.
Qed.

Lemma unmapped_rate_fails_loudly_witness :
  let zoho := mkZohoApi (inr "token") (fun _ => CustomerOk "460000000026049" true)
                (fun _ => inr (Json 0 "ok" "INV-000001" "982000000567114"))
                (fun _ _ => Done) (fun _ _ _ => Done) in
  let d := mkInvoiceData 10 (730 # 100) (270 # 100) "eur"
             "allgood.click servicio online" (Some "buyer@example.com") None
             (Some "ES") None "none" 37 "payment" "cs_test_3" None true in
  TAX_IDS (Tax.Math_round (taxRatePercentage d)) = None
  /\ outcome (createZohoInvoice (fun c => c) zoho d)
     = inr (Failure (NoTaxMapping 37 37)).
Proof.
  intros zoho d.
  assert (E : TAX_IDS (Tax.Math_round (taxRatePercentage d)) = None)
    by reflexivity.
  split; [exact E|].
  exact (proj1 (proj2 (proj2 (unmapped_rate_fails_loudly (fun c => c) zoho d E)))
           "token" "460000000026049" true eq_refl eq_refl).
Defined.

(** [getZohoTaxId], the mapping from country, rate and VAT number, is
    defined beside [createZohoInvoice] but called from nowhere.  Unlike
    the table lookup it does end in defaults: a Spanish customer at 37
    percent, a rate without a table entry, falls through to the id of
    IVA 21 percent; a German consumer at 19 percent gets that id too. *)
Lemma getZohoTaxId_falls_back :
  let es := mkInvoiceData 10 (730 # 100) (270 # 100) "eur"
              "allgood.click servicio online" (Some "buyer@example.com") None
              (Some "ES") None "none" 37 "payment" "cs_test_3" None true in
  let de := mkInvoiceData 10 (840 # 100) (160 # 100) "eur"
              "allgood.click servicio online" (Some "buyer@example.com") None
              (Some "DE") None "none" 19 "payment" "cs_test_4" None true in
  TAX_IDS (Tax.Math_round (taxRatePercentage es)) = None
  /\ getZohoTaxId (fun c => c) es = ZOHO_TAX_IDS IVA_21
  /\ getZohoTaxId (fun c => c) de = ZOHO_TAX_IDS IVA_21.
Proof. repeat split. Qed.

End ZohoFacts.

Module WebhookFacts.

Import Stripe Fx Webhook Delivery.
Local Open Scope string_scope.

(** C5.  When signature verification fails the handler answers with
    status 400 and the verification error, and does nothing else but
    write to the console: no Stripe, Zoho or mail call is made. *)
Theorem signature_failure_rejects (env : Env) (req : Request) (err : Message) :
  constructEvent env (body req) (stripe_signature req) = inl err ->
  webhook env req
  = ([Log "[WEBHOOK] Received webhook request";
      Log "[WEBHOOK] Signature verification failed:";
      Respond 400 (Prefixed "Webhook Error: " err)], inr tt)
  /\ exists logs,
       Forall console logs
       /\ trace (webhook env req)
          = (logs ++ [Respond 400 (Prefixed "Webhook Error: " err)])%list.
Proof.
  intros H.
  assert (E : webhook env req
              = ([Log "[WEBHOOK] Received webhook request";
                  Log "[WEBHOOK] Signature verification failed:";
                  Respond 400 (Prefixed "Webhook Error: " err)], inr tt)).
  { unfold webhook. rewrite H. reflexivity. }
  split; [exact E|]. rewrite E.
  exists [Log "[WEBHOOK] Received webhook request";
          Log "[WEBHOOK] Signature verification failed:"].
  split; [|reflexivity].
  repeat constructor; eexists; reflexivity.
Qed.

Lemma signature_failure_rejects_witness :
  let req := mkRequest "{}" (Some "t=1,v1=00") in
  constructEvent rejecting (body req) (stripe_signature req)
  = inl (Text "No signatures found matching the expected signature for payload")
  /\ trace (webhook rejecting req)
     = [Log "[WEBHOOK] Received webhook request";
        Log "[WEBHOOK] Signature verification failed:";
        Respond 400
          (Prefixed "Webhook Error: "
             (Text "No signatures found matching the expected signature for payload"))].
Proof.
  intros req. split; [reflexivity|].
  exact (f_equal fst
           (proj1 (signature_failure_rejects rejecting req
                     (err := Text "No signatures found matching the expected signature for payload")
                     eq_refl))).
Defined.

(** By contrast a verified [checkout.session.completed] event whose
    session carries metadata is processed: the notification mail goes
    out before anything else. *)
Lemma verified_checkout_is_processed (env : Env) (req : Request)
  (livemode : bool) (session : Session) (m : Metadata) :
  constructEvent env (body req) (stripe_signature req)
  = inr (CheckoutSessionCompleted livemode session) ->
  metadata session = Some m ->
  In (SendPaymentNotification "success" (id session) (negb livemode))
     (trace (webhook env req)).
Proof.
  intros H Hm. unfold webhook. rewrite H.
  unfold checkout_session_completed, metadata_language. rewrite Hm.
  destruct (try_catch _ _) as [t r].
  destruct r; cbn; tauto.
Qed.

End WebhookFacts.

Module AnalyticsMore.

Import JsString JsStringFacts Analytics.
Local Open Scope N_scope.

(** *** Literal patterns and surrounding text *)

Lemma match_lit_extend (p s post : jsstr) :
  match_lit p s = true -> match_lit p (s ++ post) = true.
Proof.
  revert s; induction p as [|a p IH]; intros s H; [reflexivity|].
  destruct s as [|c s]; [discriminate|].
  simpl in *. apply andb_true_iff in H. destruct H as [Hc Hs].
  rewrite Hc. simpl. now apply IH.
Qed.

Lemma test_lit_extend (p s post : jsstr) :
  test_lit p s = true -> test_lit p (s ++ post) = true.
Proof.
  induction s as [|c s IH]; intros H.
  - simpl in H. rewrite orb_false_r in H.
    apply test_lit_here. now apply (match_lit_extend p [] post).
  - simpl in H. apply orb_true_iff in H. destruct H as [H|H].
    + apply test_lit_here. now apply (match_lit_extend p (c :: s) post).
    + change ((c :: s) ++ post) with (c :: (s ++ post)).
      simpl. rewrite (IH H). apply orb_true_r.
Qed.

Lemma test_lit_suffix (p s : jsstr) (n : nat) :
  test_lit p (skipn n s) = true -> test_lit p s = true.
Proof.
  revert s; induction n as [|n IH]; intros s H; [exact H|].
  destruct s as [|c s]; [exact H|].
  simpl in H. simpl. rewrite (IH s H). apply orb_true_r.
Qed.

Lemma match_lit_prefix (p q s : jsstr) :
  match_lit (p ++ q) s = true -> match_lit p s = true.
Proof.
  revert s; induction p as [|a p IH]; intros s H; [reflexivity|].
  destruct s as [|c s]; [discriminate|].
  simpl in *. apply andb_true_iff in H. destruct H as [Hc Hs].
  rewrite Hc. simpl. now apply IH.
Qed.

Lemma test_lit_prefix (p q s : jsstr) :
  test_lit (p ++ q) s = true -> test_lit p s = true.
Proof.
  induction s as [|c s IH]; simpl; intros H.
  - rewrite orb_false_r in H. now rewrite (match_lit_prefix p q [] H).
  - apply orb_true_iff in H. destruct H as [H|H].
    + now rewrite (match_lit_prefix p q (c :: s) H).
    + rewrite (IH H). apply orb_true_r.
Qed.

Lemma dotstar_then_occurs (p s : jsstr) :
  dotstar_then p s = true -> test_lit p s = true.
Proof.
  induction s as [|c s IH]; simpl; intros H; [exact H|].
  apply orb_true_iff in H. destruct H as [H|H]; [now rewrite H|].
  apply andb_true_iff in H. rewrite (IH (proj2 H)). apply orb_true_r.
Qed.

(** The alternative [android.*mobile] never adds a match to [mobile]. *)
Lemma android_then_mobile_occurs (s : jsstr) :
  test_lit_then (js "android") (dotstar_then (js "mobile")) s = true ->
  test_lit (js "mobile") s = true.
Proof.
  induction s as [|c s IH]; intros H.
  - discriminate H.
  - cbn [test_lit_then] in H. apply orb_true_iff in H. destruct H as [H|H].
    + unfold after_lit in H.
      destruct (match_lit (js "android") (c :: s)); [|discriminate].
      apply dotstar_then_occurs in H. now apply test_lit_suffix in H.
    + cbn [test_lit]. rewrite (IH H). apply orb_true_r.
Qed.

(** Without any [mobile] the lookahead [(?!.*mobile)] always succeeds. *)
Lemma lookahead_vacuous (p q s : jsstr) :
  test_lit q s = false ->
  test_lit_then p (fun rest => negb (dotstar_then q rest)) s = test_lit p s.
Proof.
  assert (Hk : forall r, test_lit q r = false ->
                         negb (dotstar_then q (skipn (List.length p) r)) = true).
  { intros r Hr. apply negb_true_iff.
    destruct (dotstar_then q (skipn (List.length p) r)) eqn:E; [|reflexivity].
    apply dotstar_then_occurs, test_lit_suffix in E. congruence. }
  induction s as [|c s IH]; intros Hq.
  - cbn [test_lit_then test_lit]. unfold after_lit.
    destruct (match_lit p []); [|reflexivity].
    now rewrite (Hk [] Hq).
  - cbn [test_lit_then test_lit]. unfold after_lit.
    assert (Hs : test_lit q s = false).
    { cbn [test_lit] in Hq. now apply orb_false_iff in Hq. }
    rewrite (IH Hs).
    destruct (match_lit p (c :: s)); [|reflexivity].
    now rewrite (Hk (c :: s) Hq).
Qed.

(** X1.  A user agent that matches a bot pattern keeps matching when any
    text is put before or after it. *)
Theorem isBot_survives_context (pre ua post : jsstr) :
  ua <> [] -> isBot (Some ua) = true ->
  isBot (Some (pre ++ ua ++ post)) = true.
Proof.
  intros Hne H.
  destruct ua as [|c ua]; [contradiction|].
  unfold isBot in H. apply existsb_exists in H. destruct H as (p & Hp & Ht).
  unfold isBot. destruct (pre ++ (c :: ua) ++ post) as [|c' ua'] eqn:E;
    [reflexivity|].
  rewrite <- E. apply existsb_exists. exists p. split; [exact Hp|].
  apply test_lit_skip. now apply test_lit_extend.
Qed.

Lemma isBot_survives_context_witness :
  js "curl/8.4.0" <> []
  /\ isBot (Some (js "curl/8.4.0")) = true
  /\ isBot (Some (js "Mozilla/5.0 " ++ js "curl/8.4.0" ++ js " (x86_64)")) = true.
Proof.
  assert (Hne : js "curl/8.4.0" <> []) by discriminate.
  assert (Hb : isBot (Some (js "curl/8.4.0")) = true) by reflexivity.
  split; [exact Hne|]. split; [exact Hb|].
  exact (isBot_survives_context (js "Mozilla/5.0 ") (js " (x86_64)") Hne Hb).
Defined.

(** X2.  Device detection only looks for five words: an agent with
    [mobile] or [iphone] is a mobile, else one with [ipad], [tablet] or
    [android] is a tablet, else it is a desktop.  The alternative
    [android.*mobile] and the lookahead [(?!.*mobile)] never change the
    result. *)
Theorem detectDevice_by_words (c : char) (ua : jsstr) :
  detectDevice (Some (c :: ua)) =
  if test_lit (js "mobile") (c :: ua) || test_lit (js "iphone") (c :: ua)
  then js "mobile"
  else if test_lit (js "ipad") (c :: ua) || test_lit (js "tablet") (c :: ua)
          || test_lit (js "android") (c :: ua)
  then js "tablet"
  else js "desktop".
Proof.
  unfold detectDevice, re_mobile, re_tablet.
  set (s := c :: ua).
  destruct (test_lit (js "mobile") s) eqn:Hm; [reflexivity|].
  rewrite (lookahead_vacuous (js "android") (js "mobile") s Hm).
  destruct (test_lit_then (js "android") (dotstar_then (js "mobile")) s) eqn:Ha.
  - apply android_then_mobile_occurs in Ha. congruence.
  - reflexivity.
Qed.

(** X3.  An agent without [windows] that carries [mac os x] is
    classified macOS, also when it names an iPhone or an iPad: the macOS
    test comes before the iOS and iPadOS tests. *)
Theorem detectOS_mac_os_x_shadows_ios (ua : jsstr) :
  test_lit (js "windows") ua = false ->
  test_lit (js "mac os x") ua = true ->
  detectOS (Some ua) = js "macOS".
Proof.
  intros Hw Hm.
  destruct ua as [|c ua]; [discriminate Hm|].
  unfold detectOS.
  destruct (test_lit (js "windows nt 10") (c :: ua)) eqn:H10.
  - change (js "windows nt 10") with (js "windows" ++ js " nt 10") in H10.
    apply test_lit_prefix in H10. congruence.
  - rewrite Hw, Hm. now rewrite orb_true_r.
Qed.

Lemma detectOS_mac_os_x_shadows_ios_witness :
  let ua := js "Mozilla/5.0 (iPhone; CPU iPhone OS 16_0 like Mac OS X) AppleWebKit/605.1.15" in
  test_lit (js "iphone") ua = true /\ detectOS (Some ua) = js "macOS".
Proof.
  intros ua. split; [reflexivity|].
  apply detectOS_mac_os_x_shadows_ios; reflexivity.
Defined.

(** *** [extractCountryFromLang] *)

Lemma match_lang_country_sound (s r : jsstr) :
  match_lang_country s = Some r ->
  exists pre a b c d post,
    s = pre ++ [a; b; 45; c; d] ++ post /\ r = [c; d]
    /\ is_lower a = true /\ is_lower b = true
    /\ is_upper c = true /\ is_upper d = true.
Proof.
  induction s as [|a t IH]; intros H; [discriminate|].
  assert (Hrec : match_lang_country t = Some r ->
                 exists pre a0 b c d post,
                   a :: t = pre ++ [a0; b; 45; c; d] ++ post /\ r = [c; d]
                   /\ is_lower a0 = true /\ is_lower b = true
                   /\ is_upper c = true /\ is_upper d = true).
  { intros Ht. destruct (IH Ht) as (pre & a0 & b & c & d & post & -> & Hr).
    now exists (a :: pre), a0, b, c, d, post. }
  destruct t as [|b [|h [|c [|d rest]]]]; try (now apply Hrec).
  cbn [match_lang_country] in H.
  destruct (is_lower a && is_lower b && (h =? 45) && is_upper c && is_upper d)
    eqn:E; [|now apply Hrec].
  injection H as <-.
  apply andb_true_iff in E. destruct E as [E Hd].
  apply andb_true_iff in E. destruct E as [E Hc].
  apply andb_true_iff in E. destruct E as [E Hh].
  apply andb_true_iff in E. destruct E as [Ha Hb].
  apply N.eqb_eq in Hh. subst h.
  now exists [], a, b, c, d, rest.
Qed.

Lemma match_lang_country_later (x : char) (t : jsstr) :
  match_lang_country t <> None -> match_lang_country (x :: t) <> None.
Proof.
  intros H. destruct t as [|b [|h [|c [|d rest]]]]; try exact H.
  cbn [match_lang_country].
  destruct (is_lower x && is_lower b && (h =? 45) && is_upper c && is_upper d);
    [discriminate|exact H].
Qed.

(** X4.  [extractCountryFromLang] answers with a country exactly when the
    header holds two lower-case letters, a hyphen and two upper-case
    letters in a row; the answer is such a pair of upper-case letters
    taken from the header. *)
Theorem extractCountryFromLang_finds_region :
  (forall h r,
     extractCountryFromLang (Some h) = Some r ->
     exists pre a b c d post,
       h = pre ++ [a; b; 45; c; d] ++ post /\ r = [c; d]
       /\ is_lower a = true /\ is_lower b = true
       /\ is_upper c = true /\ is_upper d = true)
  /\ (forall pre a b c d post,
        is_lower a = true -> is_lower b = true ->
        is_upper c = true -> is_upper d = true ->
        extractCountryFromLang (Some (pre ++ [a; b; 45; c; d] ++ post)) <> None).
Proof.
  split.
  - intros h r H. destruct h as [|x h]; [discriminate|].
    now apply match_lang_country_sound.
  - intros pre a b c d post Ha Hb Hc Hd.
    assert (H : match_lang_country (pre ++ [a; b; 45; c; d] ++ post) <> None).
    { induction pre as [|x pre IH].
      - cbn. rewrite Ha, Hb, Hc, Hd. discriminate.
      - apply match_lang_country_later. exact IH. }
    destruct (pre ++ [a; b; 45; c; d] ++ post) as [|x h] eqn:E; exact H.
Qed.

Lemma extractCountryFromLang_finds_region_witness :
  extractCountryFromLang (Some (js "" ++ [100; 101; 45; 65; 84] ++ js ",de;q=0.9"))
  <> None.
Proof.
  apply (proj2 extractCountryFromLang_finds_region); reflexivity.
Defined.

End AnalyticsMore.

Module StoreMore.

Import JsString JsStringFacts Analytics Store Calendar Pageviews StoreFacts.
Local Open Scope N_scope.

(** *** Rows and tables *)

Lemma anonymizeIP_shape (ip : option jsstr) :
  anonymizeIP ip = js "unknown" \/ ends_with (js "xxx") (anonymizeIP ip).
Proof.
  destruct ip as [s|]; [|now left].
  rewrite AnalyticsFacts.anonymizeIP_string.
  destruct (Nat.eqb _ 4).
  - right.
    exists (at_index (split dot s) 0 ++ js "." ++ at_index (split dot s) 1
            ++ js "." ++ at_index (split dot s) 2 ++ js ".").
    now rewrite <- !app_assoc.
  - destruct (Nat.ltb 3 _); [|now left]. right.
    exists (join (js ":") (firstn 3 (split colon s)) ++ js "::").
    now rewrite <- app_assoc.
Qed.

Lemma NoDup_map_filter {A B} (f : A -> B) (g : A -> bool) (l : list A) :
  NoDup (List.map f l) -> NoDup (List.map f (filter g l)).
Proof.
  induction l as [|a l IH]; intros H; [constructor|].
  simpl in H. inversion H as [|? ? Hnin Hnd]; subst.
  simpl. destruct (g a); [|now apply IH].
  simpl. constructor; [|now apply IH].
  intros Hin. apply Hnin. apply in_map_iff in Hin.
  destruct Hin as (x & Hx & Hin). apply in_map_iff. exists x.
  split; [exact Hx|]. now apply filter_In in Hin.
Qed.

Lemma Forall_filter {A} (P : A -> Prop) (g : A -> bool) (l : list A) :
  Forall P l -> Forall P (filter g l).
Proof.
  intros H. apply Forall_forall. intros x Hx.
  apply filter_In in Hx. rewrite Forall_forall in H. now apply H.
Qed.

Section Tracking.

Variable URL_hostname : jsstr -> option jsstr.
Variables toUpperCase toLowerCase trim : jsstr -> jsstr.

Lemma trackPageview_keeps_table_ok (now : Instant) (req : Request)
  (page : jsstr) (db : Db) :
  table_ok db ->
  table_ok (snd (trackPageview URL_hostname toUpperCase toLowerCase trim
                   now req page db)).
Proof.
  intros (Hrows & Hnd & Hle).
  unfold table_ok, trackPageview, db_insert. cbn [snd rows seq].
  split; [|split].
  - apply Forall_app. split; [exact Hrows|].
    constructor; [|constructor].
    split; [apply anonymizeIP_shape|]. split.
    + cbn [user_agent]. apply firstn_le_length.
    + cbn [is_bot]. destruct (isBot _); [now right|now left].
  - rewrite map_app. cbn [List.map id].
    apply NoDup_app; [exact Hnd|repeat constructor; intros []|].
    intros x Hx [<-|[]]. apply in_map_iff in Hx.
    destruct Hx as (r & Hr & Hin).
    rewrite Forall_forall in Hle. specialize (Hle r Hin). lia.
  - apply Forall_app. split.
    + eapply Forall_impl; [|exact Hle]. intros r Hr. cbn beta in *. lia.
    + constructor; [|constructor]. cbn [id]. lia.
Qed.

End Tracking.

Lemma cleanupOldData_keeps_table_ok (cutoff : Instant) (db : Db) :
  table_ok db -> table_ok (snd (cleanupOldData cutoff db)).
Proof.
  intros (Hrows & Hnd & Hle).
  unfold table_ok, cleanupOldData, db_delete. cbn [snd rows seq].
  split; [now apply Forall_filter|].
  split; [now apply NoDup_map_filter|now apply Forall_filter].
Qed.

Lemma table_ok_empty : table_ok empty_db.
Proof. repeat split; constructor. Qed.

(** X5.  The empty table is well formed and every operation keeps it so:
    each stored address is ['unknown'] or ends in ['xxx'], each stored
    user agent has at most 500 code units, each bot flag is 0 or 1, and
    the ids are pairwise different and never above the counter. *)
Theorem pageviews_table_stays_ok :
  table_ok empty_db
  /\ (forall URL_hostname toUpperCase toLowerCase trim now req page db,
        table_ok db ->
        table_ok (snd (trackPageview URL_hostname toUpperCase toLowerCase trim
                         now req page db)))
  /\ (forall since db, table_ok db -> table_ok (snd (getStats since db)))
  /\ (forall cutoff db,
        table_ok db -> table_ok (snd (cleanupOldData cutoff db))).
Proof.
  split; [exact table_ok_empty|].
  split; [intros; now apply trackPageview_keeps_table_ok|].
  split; [intros since db H; now rewrite getStats_keeps_table|].
  intros; now apply cleanupOldData_keeps_table_ok.
Qed.

Lemma pageviews_table_stays_ok_witness :
  table_ok (snd (trackPageview (fun _ => None) (fun s => s) (fun s => s)
                   (fun s => s) (mkInstant 2024 3 10 18 0 0 0)
                   (mkRequest (fun _ => Some (js "203.0.113.42")) None None)
                   (js "/de/") empty_db)).
Proof.
  apply (proj1 (proj2 pageviews_table_stays_ok)).
  exact (proj1 pageviews_table_stays_ok).
Defined.

(** *** Counting *)

Lemma filter_split_flag (f : Row -> bool) (l : list Row) :
  Forall (fun r => is_bot r = 0 \/ is_bot r = 1) l ->
  List.length (filter f l)
  = (List.length (filter (fun r => f r && (is_bot r =? 0)%N) l)
     + List.length (filter (fun r => f r && (is_bot r =? 1)%N) l))%nat.
Proof.
  induction 1 as [|r l Hr Hl IH]; [reflexivity|].
  simpl. destruct (f r); simpl; [|exact IH].
  destruct Hr as [-> | ->]; simpl; rewrite IH; lia.
Qed.

(** X6.  On a well-formed table the total of [getStats] is the number of
    humans plus the number of bots. *)
Theorem getStats_total_is_humans_plus_bots (since : Instant) (db : Db) :
  table_ok db ->
  total (fst (getStats since db))
  = humans (fst (getStats since db)) + bots (fst (getStats since db)).
Proof.
  intros (Hrows & _ & _).
  cbn [getStats bind count_where grouped db_select ret fst total humans bots].
  rewrite (filter_split_flag (ts_gt (toISOString since)) (l := rows db)).
  - lia.
  - eapply Forall_impl; [|exact Hrows]. intros r Hr. apply Hr.
Qed.

Lemma getStats_total_is_humans_plus_bots_witness :
  let db := snd (trackPageview (fun _ => None) (fun s => s) (fun s => s)
                   (fun s => s) (mkInstant 2024 3 10 18 0 0 0)
                   bare_request (js "/") empty_db) in
  let st := fst (getStats (mkInstant 2024 3 1 0 0 0 0) db) in
  total st = humans st + bots st.
Proof.
  intros db st.
  apply getStats_total_is_humans_plus_bots.
  apply trackPageview_keeps_table_ok. exact table_ok_empty.
Defined.

(** *** Breakdowns *)

Lemma sum_counts_bump (k : jsstr) (acc : list (jsstr * N)) :
  sum_counts (bump k acc) = sum_counts acc + 1.
Proof.
  induction acc as [|[k' n] acc IH]; [reflexivity|].
  simpl. destruct (str_eqb k k'); simpl; [lia|]. rewrite IH. lia.
Qed.

Lemma sum_counts_group (key : Row -> jsstr) (rs : list Row) :
  sum_counts (group_count key rs) = N.of_nat (List.length rs).
Proof.
  unfold group_count.
  assert (H : forall acc,
            sum_counts (fold_left (fun a r => bump (key r) a) rs acc)
            = sum_counts acc + N.of_nat (List.length rs)).
  { induction rs as [|r rs IH]; intros acc; [simpl; lia|].
    cbn [fold_left List.length]. rewrite IH, sum_counts_bump. lia. }
  now rewrite H.
Qed.

Lemma sum_counts_insert (before : jsstr * N -> jsstr * N -> bool)
  (x : jsstr * N) (l : list (jsstr * N)) :
  sum_counts (insert_sorted before x l) = snd x + sum_counts l.
Proof.
  induction l as [|y l IH]; [reflexivity|].
  simpl. destruct (before y x); simpl; [rewrite IH; lia|].
  destruct (before x y); simpl; [lia|rewrite IH; lia].
Qed.

Lemma sum_counts_order (before : jsstr * N -> jsstr * N -> bool)
  (l : list (jsstr * N)) :
  sum_counts (order_by before l) = sum_counts l.
Proof.
  unfold order_by.
  assert (H : forall acc,
            sum_counts (fold_left (fun a x => insert_sorted before x a) l acc)
            = sum_counts acc + sum_counts l).
  { induction l as [|x l IH]; intros acc; [simpl; lia|].
    cbn [fold_left]. rewrite IH, sum_counts_insert. simpl. lia. }
  now rewrite H.
Qed.

Lemma bump_keys (k k0 : jsstr) (acc : list (jsstr * N)) :
  In k (List.map fst (bump k0 acc)) -> k = k0 \/ In k (List.map fst acc).
Proof.
  induction acc as [|[k' n] acc IH]; simpl.
  - intros [<-|[]]. now left.
  - destruct (str_eqb k0 k'); simpl; [tauto|].
    intros [H|H]; [tauto|]. destruct (IH H); tauto.
Qed.

Lemma group_keys (key : Row -> jsstr) (rs : list Row) (k : jsstr) :
  In k (List.map fst (group_count key rs)) -> exists r, In r rs /\ key r = k.
Proof.
  unfold group_count.
  assert (H : forall acc,
            In k (List.map fst (fold_left (fun a r => bump (key r) a) rs acc)) ->
            In k (List.map fst acc) \/ exists r, In r rs /\ key r = k).
  { induction rs as [|r rs IH]; intros acc Hin; [now left|].
    cbn [fold_left] in Hin. destruct (IH _ Hin) as [Hb|(r' & Hr' & Hk)].
    - apply bump_keys in Hb. destruct Hb as [->|Hb]; [|now left].
      right. exists r. split; [now left|reflexivity].
    - right. exists r'. split; [now right|exact Hk]. }
  intros Hin. destruct (H [] Hin) as [[]|Hr]. exact Hr.
Qed.

Lemma insert_sorted_in {A} (before : A -> A -> bool) (x e : A) (l : list A) :
  In e (insert_sorted before x l) -> e = x \/ In e l.
Proof.
  induction l as [|y l IH]; simpl; [intuition congruence|].
  destruct (before y x); simpl;
    [intros [H|H]; [tauto|destruct (IH H); tauto]|].
  destruct (before x y); simpl; [intuition congruence|].
  intros [H|H]; [tauto|destruct (IH H); tauto].
Qed.

Lemma order_by_in {A} (before : A -> A -> bool) (e : A) (l : list A) :
  In e (order_by before l) -> In e l.
Proof.
  unfold order_by.
  assert (H : forall acc,
            In e (fold_left (fun a x => insert_sorted before x a) l acc) ->
            In e acc \/ In e l).
  { induction l as [|x l IH]; intros acc Hin; [now left|].
    cbn [fold_left] in Hin. destruct (IH _ Hin) as [Hi|Hi].
    - apply insert_sorted_in in Hi. destruct Hi as [->|Hi]; [|now left].
      right. now left.
    - right. now right. }
  intros Hin. destruct (H [] Hin) as [[]|Hr]. exact Hr.
Qed.

Lemma firstn_members {A} (n : nat) (e : A) (l : list A) :
  In e (firstn n l) -> In e l.
Proof.
  intros H. rewrite <- (firstn_skipn n l). apply in_or_app. now left.
Qed.

Lemma str_eqb_refl (a : jsstr) : str_eqb a a = true.
Proof.
  induction a as [|c a IH]; [reflexivity|].
  simpl. unfold char_eqb. now rewrite N.eqb_refl.
Qed.

(** X7.  In the object [getStats] returns, the breakdowns by page,
    language, browser, OS, device and day each add up to the number of
    humans; the breakdowns by country and by referrer have at most 15
    entries and the bot list at most 10; the referrer breakdown never
    lists ['direct'] or ['internal']. *)
Theorem getStats_breakdowns (since : Instant) (db : Db) :
  let st := fst (getStats since db) in
  sum_counts (byPage st) = humans st
  /\ sum_counts (byLanguage st) = humans st
  /\ sum_counts (byBrowser st) = humans st
  /\ sum_counts (byOS st) = humans st
  /\ sum_counts (byDevice st) = humans st
  /\ sum_counts (perDay st) = humans st
  /\ (List.length (byCountry st) <= 15)%nat
  /\ (List.length (byReferrer st) <= 15)%nat
  /\ (List.length (topBots st) <= 10)%nat
  /\ (forall k n, In (k, n) (byReferrer st) ->
                  k <> js "direct" /\ k <> js "internal").
Proof.
  cbn [getStats bind count_where grouped db_select ret fst
       byPage byLanguage byBrowser byOS byDevice perDay byCountry byReferrer
       topBots humans].
  repeat (split; [now rewrite sum_counts_order, sum_counts_group|]).
  repeat (split; [apply firstn_le_length|]).
  intros k n Hin. apply firstn_members, order_by_in in Hin.
  assert (Hk : In k (List.map fst
                       (group_count referrer
                          (filter (fun r =>
                             ts_gt (toISOString since) r && (is_bot r =? 0)
                             && negb (str_eqb (referrer r) (js "direct"))
                             && negb (str_eqb (referrer r) (js "internal")))
                             (rows db))))).
  { apply in_map_iff. now exists (k, n). }
  apply group_keys in Hk. destruct Hk as (r & Hr & <-).
  apply filter_In in Hr. destruct Hr as [_ Hr].
  apply andb_true_iff in Hr. destruct Hr as [Hr Hi].
  apply andb_true_iff in Hr. destruct Hr as [_ Hd].
  split; intros E; rewrite E, str_eqb_refl in *; discriminate.
Qed.

(** *** Cleanup *)

Lemma filter_partition_length {A} (f : A -> bool) (l : list A) :
  List.length l
  = (List.length (filter f l) + List.length (filter (fun a => negb (f a)) l))%nat.
Proof.
  induction l as [|a l IH]; [reflexivity|].
  simpl. destruct (f a); simpl; lia.
Qed.

Lemma filter_twice {A} (f : A -> bool) (l : list A) :
  filter f (filter f l) = filter f l.
Proof.
  induction l as [|a l IH]; [reflexivity|].
  simpl. destruct (f a) eqn:E; [|exact IH]. simpl. now rewrite E, IH.
Qed.

Lemma filter_then_complement {A} (f : A -> bool) (l : list A) :
  filter f (filter (fun a => negb (f a)) l) = [].
Proof.
  induction l as [|a l IH]; [reflexivity|].
  simpl. destruct (f a) eqn:E; simpl; [exact IH|]. now rewrite E.
Qed.

(** X8.  The number [cleanupOldData] returns is the number of rows that
    left the table, and running it again with the same cutoff deletes
    nothing more. *)
Theorem cleanupOldData_counts_and_settles (cutoff : Instant) (db : Db) :
  N.of_nat (List.length (rows db))
  = fst (cleanupOldData cutoff db)
    + N.of_nat (List.length (rows (snd (cleanupOldData cutoff db))))
  /\ cleanupOldData cutoff (snd (cleanupOldData cutoff db))
     = (0, snd (cleanupOldData cutoff db)).
Proof.
  unfold cleanupOldData, db_delete. cbn [fst snd rows seq]. split.
  - rewrite (filter_partition_length (ts_lt (toISOString cutoff)) (rows db)) at 1.
    lia.
  - now rewrite filter_then_complement, filter_twice.
Qed.

(** *** Calendar days *)

(** X9.  For a row stored at instant [t], [cleanupOldData] keeps the row
    exactly when the calendar day of [t] is after the calendar day of
    the cutoff; the time of day plays no part. *)
Theorem cleanupOldData_keeps_later_days (cutoff t : Instant) (db : Db) (r : Row) :
  printable cutoff -> printable t ->
  timestamp r = CURRENT_TIMESTAMP t ->
  (In r (rows (snd (cleanupOldData cutoff db)))
   <-> In r (rows db) /\ date_key cutoff < date_key t).
Proof.
  intros Hc Ht Hr.
  unfold cleanupOldData, db_delete. cbn [snd rows].
  rewrite filter_In. unfold ts_lt.
  rewrite Hr, stored_before_cutoff_text by assumption.
  rewrite negb_true_iff, N.leb_gt. tauto.
Qed.

Lemma cleanupOldData_keeps_later_days_witness :
  let late := mkInstant 2024 3 11 0 0 1 0 in
  let cutoff := mkInstant 2024 3 10 9 0 0 0 in
  let r := mkRow 1 (CURRENT_TIMESTAMP late) (js "/") (js "unknown")
                 (js "UNKNOWN") (js "en") (js "direct") [] (js "Unknown")
                 (js "Unknown") (js "unknown") 1 in
  let db := mkDb [r] 1 in
  printable cutoff /\ printable late
  /\ In r (rows (snd (cleanupOldData cutoff db))).
Proof.
  intros late cutoff r db.
  assert (Hc : printable cutoff) by (repeat split).
  assert (Ht : printable late) by (repeat split).
  split; [exact Hc|]. split; [exact Ht|].
  apply (proj2 (@cleanupOldData_keeps_later_days cutoff late db r Hc Ht eq_refl)).
  split; [now left|reflexivity].
Defined.

Lemma cutoff_text_before_stored (since t : Instant) :
  printable since -> printable t ->
  str_ltb (toISOString since) (CURRENT_TIMESTAMP t)
  = (date_key since <? date_key t).
Proof.
  intros (Hy & Hm & Hd) (Hy' & Hm' & Hd').
  unfold CURRENT_TIMESTAMP, toISOString.
  rewrite str_ltb_pad4 by assumption.
  change (js "-") with [45]. cbn [app].
  rewrite str_ltb_same, str_ltb_pad2 by assumption.
  rewrite str_ltb_same, str_ltb_pad2 by assumption.
  change (js " ") with [32]. change (js "T") with [84]. cbn [app str_ltb].
  change (84 <? 32) with false. change (32 <? 84) with true. cbv iota.
  unfold date_key.
  repeat match goal with
         | |- context [?u <? ?v] => destruct (N.ltb_spec u v)
         end; try reflexivity; try lia.
Qed.

Lemma filter_map_length {A B} (g : B -> bool) (h : A -> B) (l : list A) :
  List.length (filter g (List.map h l))
  = List.length (filter (fun a => g (h a)) l).
Proof.
  induction l as [|a l IH]; [reflexivity|].
  simpl. destruct (g (h a)); simpl; now rewrite IH.
Qed.

(** X10.  On a table whose rows were stored at the instants [ts], the
    total of [getStats] is the number of those instants whose calendar
    day is after the calendar day of [since]: rows stored on the day of
    [since] itself are not counted, whatever their time. *)
Theorem getStats_counts_later_days (since : Instant) (ts : list Instant)
  (db : Db) :
  printable since -> stamped ts db ->
  total (fst (getStats since db))
  = N.of_nat (List.length (filter (fun t => date_key since <? date_key t) ts)).
Proof.
  intros Hs (Hmap & Hts).
  cbn [getStats bind count_where grouped db_select ret fst total].
  f_equal. unfold ts_gt.
  rewrite <- (filter_map_length (str_ltb (toISOString since)) timestamp).
  rewrite Hmap, filter_map_length.
  f_equal. apply filter_ext_in. intros t Ht.
  rewrite Forall_forall in Hts. now apply cutoff_text_before_stored, Hts.
Qed.

Lemma getStats_counts_later_days_witness :
  let t := mkInstant 2024 3 10 18 0 0 0 in
  let since := mkInstant 2024 3 10 9 0 0 0 in
  let db := snd (trackPageview (fun _ => None) (fun s => s) (fun s => s)
                   (fun s => s) t bare_request (js "/") empty_db) in
  printable since /\ stamped [t] db /\ total (fst (getStats since db)) = 0.
Proof.
  intros t since db.
  assert (Hs : printable since) by (repeat split).
  assert (Hst : stamped [t] db).
  { split; [reflexivity|]. constructor; [repeat split|constructor]. }
  split; [exact Hs|]. split; [exact Hst|].
  exact (getStats_counts_later_days Hs Hst).
Defined.

End StoreMore.

Module TaxMore.

Import Stripe Fx Tax Checkout Delivery TaxFacts.
Local Open Scope string_scope.
Local Open Scope Z_scope.

Lemma Qpos_b_false (r : Q) : ~ (0 < r)%Q -> Qpos_b r = false.
Proof.
  unfold Qpos_b, Qlt. simpl. intros H. apply Z.ltb_ge. lia.
Qed.

Lemma console_only (l : list Effect) :
  forallb (fun e => match e with Log _ => true | _ => false end) l = true ->
  Forall console l.
Proof.
  intros H. apply Forall_forall. intros e He.
  rewrite forallb_forall in H. specialize (H e He).
  destruct e; try discriminate. now eexists.
Qed.

Section Outcomes.

Variable api : StripeApi.

Lemma tax_rate_percentage_cases (ta : TaxAmount) :
  (exists R, outcome (tax_rate_percentage api ta) = inr R)
  \/ (exists rateId e, taxRates_retrieve api rateId = inl e
                       /\ outcome (tax_rate_percentage api ta) = inl e).
Proof.
  unfold tax_rate_percentage.
  destruct (tax_rate ta) as [[[|c rateId]|r]|]; try (left; eexists; reflexivity).
  destruct (taxRates_retrieve api (String c rateId)) as [e|r] eqn:E.
  - right. exists (String c rateId), e. now split.
  - left. eexists. reflexivity.
Qed.

Lemma figures_of_invoice (inv : Invoice) (ref : Ref Invoice) :
  (ref = Expanded inv
   \/ exists invoiceId, ref = Id invoiceId /\ invoices_retrieve api invoiceId = inr inv) ->
  (exists fig, outcome (invoice_figures api ref) = inr fig
               /\ taxAmount fig = num_or_0 (tax inv))
  \/ (exists rateId e, taxRates_retrieve api rateId = inl e
                       /\ outcome (invoice_figures api ref) = inl e).
Proof.
  intros Href.
  assert (Hout : outcome (invoice_figures api ref)
                 = outcome
                     (if num_or_0 (tax inv) =? 0 then
                        ret (mkFigures (num_or_0 (tax inv)) 0 (total inv))
                      else
                        match invoiceLineTaxAmounts inv with
                        | ta :: _ =>
                            bind (tax_rate_percentage api ta) (fun R =>
                              if inclusive ta && Qpos_b R then
                                ret (mkFigures (num_or_0 (tax inv)) R
                                       (net_of_inclusive (total inv) R))
                              else
                                ret (mkFigures (num_or_0 (tax inv)) R
                                       (num_or_0 (subtotal inv))))
                        | [] => ret (mkFigures (num_or_0 (tax inv)) 0
                                       (num_or_0 (subtotal inv)))
                        end)).
  { unfold invoice_figures.
    destruct Href as [->|(invoiceId & -> & Hcall)]; try rewrite Hcall;
      rewrite outcome_bind_log;
      rewrite (outcome_bind _ _ (a := inv)) by reflexivity;
      rewrite outcome_then_log;
      destruct (num_or_0 (tax inv) =? 0);
      rewrite ?outcome_bind_log; try reflexivity;
      destruct (invoiceLineTaxAmounts inv) as [|ta more]; try reflexivity;
      destruct (tax_rate_percentage api ta) as [tr [e|R]]; try reflexivity;
      cbn; destruct (inclusive ta && Qpos_b R); reflexivity. }
  rewrite Hout. clear Hout.
  destruct (num_or_0 (tax inv) =? 0).
  { left. eexists. split; reflexivity. }
  destruct (invoiceLineTaxAmounts inv) as [|ta more].
  { left. eexists. split; reflexivity. }
  destruct (tax_rate_percentage_cases ta) as [(R & HR)|(rateId & e & He & Hout)].
  - left. rewrite (outcome_bind _ _ HR).
    destruct (inclusive ta && Qpos_b R); eexists; split; reflexivity.
  - right. exists rateId, e. split; [exact He|].
    destruct (tax_rate_percentage api ta) as [tr [e'|R]];
      unfold outcome in *; simpl in *; congruence.
Qed.

Lemma session_variables_console (s : Session) :
  Forall console (trace (session_variables s)).
Proof.
  unfold session_variables.
  destruct (num_or_0 (amount_tax s) =? 0).
  { now apply console_only. }
  destruct (lineItemTaxes s) as [|[[r|]] more]; cbn [rate].
  - now apply console_only.
  - destruct (bool_or_false (rate_inclusive r) && Qpos_b (rate_or_0 (percentage r)));
      now apply console_only.
  - now apply console_only.
Qed.

Lemma session_figures_console (s : Session) :
  Forall console (trace (session_figures s)).
Proof.
  unfold session_figures.
  pose proof (session_variables_console s) as H.
  destruct (session_variables s) as [t [e|fig]]; cbn in *;
    (constructor; [now eexists|]); [exact H|].
  now rewrite app_nil_r.
Qed.

End Outcomes.

(** X11.  Whenever the reconciliation produces figures, the session has
    an invoice and the tax amount is the tax that invoice reports; on
    such a session it can only fail when retrieving a tax rate from
    Stripe fails, and then with that error.  Without an invoice on the
    session it never produces figures: it writes console lines, calls
    nothing and fails with the [ReferenceError] of its closing line. *)
Theorem reconcile_passes_reported_tax (api : StripeApi) (s : Session) :
  (forall T t,
     reported api s T t ->
     (exists fig, outcome (reconcile api s) = inr fig /\ taxAmount fig = t)
     \/ (exists rateId e, taxRates_retrieve api rateId = inl e
                          /\ outcome (reconcile api s) = inl e))
  /\ (invoice_ref s = None ->
      outcome (reconcile api s) = inl (Text "isInclusive is not defined")
      /\ Forall console (trace (reconcile api s)))
  /\ (forall fig, outcome (reconcile api s) = inr fig -> invoice_ref s <> None).
Proof.
  split; [|split].
  - intros T t Hrep.
    inversion Hrep as [inv Hinv HT Htax]; subst.
    unfold reconcile.
    destruct Hinv as [Href|invoiceId Href Hcall]; rewrite Href.
    + apply (@figures_of_invoice api inv). now left.
    + apply (@figures_of_invoice api inv). right. now exists invoiceId.
  - intros Hnone. split; [now apply reconcile_without_invoice|].
    unfold reconcile. rewrite Hnone. apply session_figures_console.
  - intros fig Hfig Hnone.
    rewrite (reconcile_without_invoice api s Hnone) in Hfig. discriminate Hfig.
Qed.

Lemma reconcile_passes_reported_tax_witness :
  let inv := mkInvoice (Some 167) 999 (Some 832) (Some [one_tax_line true 20]) in
  let s := session_with_invoice inv in
  reported offline s 999 167
  /\ ((exists fig, outcome (reconcile offline s) = inr fig /\ taxAmount fig = 167)
      \/ (exists rateId e, taxRates_retrieve offline rateId = inl e
                           /\ outcome (reconcile offline s) = inl e)).
Proof.
  intros inv s.
  assert (Hrep : reported offline s 999 167).
  { apply (@reported_on_invoice offline s inv). now apply invoice_expanded. }
  split; [exact Hrep|].
  exact (proj1 (reconcile_passes_reported_tax offline s) 999 167 Hrep).
Defined.

(** X13.  On a session with an invoice that reports non-zero tax, when
    the first tax amount of the first line is not inclusive, or its rate
    is not positive, nothing is divided: the net is the invoice's own
    subtotal, the rate is the one read and the tax is the reported
    one. *)
Theorem exclusive_tax_net (api : StripeApi) (s : Session) (inv : Invoice)
  (ta : TaxAmount) (more : list TaxAmount) (R : Q) :
  reads_invoice api s inv -> num_or_0 (tax inv) <> 0 ->
  invoiceLineTaxAmounts inv = ta :: more -> reads_rate api ta R ->
  inclusive ta = false \/ ~ (0 < R)%Q ->
  outcome (reconcile api s)
  = inr (mkFigures (num_or_0 (tax inv)) R (num_or_0 (subtotal inv))).
Proof.
  intros Hinv Ht Hlines Hrate Hexcl.
  apply Z.eqb_neq in Ht.
  apply (tax_rate_percentage_reads (api := api)) in Hrate.
  assert (Hc : inclusive ta && Qpos_b R = false).
  { destruct Hexcl as [-> | Hn]; [reflexivity|].
    rewrite (Qpos_b_false Hn). apply andb_false_r. }
  unfold reconcile.
  destruct Hinv as [Href|invoiceId Href Hcall]; rewrite Href;
    unfold invoice_figures; try rewrite Hcall;
    rewrite outcome_bind_log;
    rewrite (outcome_bind _ _ (a := inv)) by reflexivity;
    rewrite outcome_then_log, Ht, outcome_bind_log, Hlines;
    rewrite (outcome_bind _ _ Hrate), Hc; reflexivity.
Qed.

Lemma exclusive_tax_net_witness :
  let inv := mkInvoice (Some 210) 1210 (Some 1000)
               (Some [one_tax_line false (21 # 1)]) in
  let s := session_with_invoice inv in
  outcome (reconcile offline s) = inr (mkFigures 210 (21 # 1) 1000).
Proof.
  intros inv s.
  apply (@exclusive_tax_net offline s inv
           (mkTaxAmount (Some (Expanded (mkTaxRate (Some (21 # 1)) (Some false))))
              false) [] (21 # 1));
    [now apply invoice_expanded|discriminate|reflexivity
    |eapply rate_expanded; reflexivity|now left].
Defined.

(** X31.  When the invoice of a session reports zero tax, whatever its
    lines say about a nominal rate, the reconciliation logs a reverse
    charge and returns tax 0, rate 0 and the invoice total as the net;
    no net is computed by division and no tax rate is looked up. *)
Theorem zero_invoice_tax_is_reverse_charge (api : StripeApi) (s : Session)
  (T : Z) :
  reported api s T 0 ->
  outcome (reconcile api s) = inr (mkFigures 0 0 T)
  /\ Exists reverse_charge_detected (trace (reconcile api s))
  /\ Forall (fun e => ~ net_by_division e) (trace (reconcile api s))
  /\ (forall rateId, ~ In (StripeTaxRatesRetrieve rateId) (trace (reconcile api s))).
Proof.
  intros H.
  destruct (reconcile_zero_tax H) as (Hout & Hlog & Hdiv).
  split; [exact Hout|]. split; [exact Hlog|]. split; [exact Hdiv|].
  intros rateId. inversion H as [inv Hinv HT Ht]; subst.
  unfold reconcile.
  destruct Hinv as [Href|invoiceId Href Hcall]; rewrite Href;
    unfold invoice_figures; try rewrite Hcall; cbn; rewrite Ht; cbn;
    intuition discriminate.
Qed.

Lemma zero_invoice_tax_is_reverse_charge_witness :
  let inv := mkInvoice None 999 (Some 999) (Some [one_tax_line true 20]) in
  let s := session_with_invoice inv in
  reported offline s 999 0
  /\ outcome (reconcile offline s) = inr (mkFigures 0 0 999).
Proof.
  intros inv s.
  assert (Hrep : reported offline s 999 0).
  { apply (@reported_on_invoice offline s inv). now apply invoice_expanded. }
  split; [exact Hrep|].
  exact (proj1 (zero_invoice_tax_is_reverse_charge Hrep)).
Defined.

End TaxMore.

Module ZohoMore.

Import Stripe Fx Zoho ZohoFacts.
Local Open Scope string_scope.
Local Open Scope Z_scope.

Section Invoicing.

Variable toUpperCase : string -> string.
Variable zoho : ZohoApi.

(** X14.  [createZohoInvoice] never rejects: it resolves to a success or
    to a failure object.  A failed token request ends it before any
    customer lookup or invoice is sent, a failed customer lookup before
    any invoice is sent.  A success means that an invoice was posted
    and answered with code 0, with the subtotal as the rate of its one
    line item, quantity 1, tax not inclusive, and the customer id of the
    lookup. *)
Theorem createZohoInvoice_always_resolves (d : InvoiceData) :
  (exists res, outcome (createZohoInvoice toUpperCase zoho d) = inr res)
  /\ (forall e, getZohoAccessToken zoho = inl e ->
        createZohoInvoice toUpperCase zoho d
        = ([Log "[ZOHO] Creating invoice..."; ZohoGetAccessToken;
            Log "[ZOHO] Error creating invoice:"], inr (Failure e)))
  /\ (forall token e,
        getZohoAccessToken zoho = inr token ->
        findOrCreateZohoCustomer zoho (customerEmail d) = CustomerFailed e ->
        outcome (createZohoInvoice toUpperCase zoho d)
        = inr (Failure (Prefixed "Customer lookup/creation failed: " e))
        /\ forall p, ~ In (ZohoPostInvoice p)
                          (trace (createZohoInvoice toUpperCase zoho d)))
  /\ (forall num iid cid,
        outcome (createZohoInvoice toUpperCase zoho d) = inr (Success num iid cid) ->
        exists p message,
          In (ZohoPostInvoice p) (trace (createZohoInvoice toUpperCase zoho d))
          /\ post_invoices zoho p = inr (Json 0 message num iid)
          /\ customer_id p = cid
          /\ item_rate p = subtotal d
          /\ item_quantity p = 1
          /\ is_inclusive_tax p = false).
Proof.
  unfold createZohoInvoice.
  destruct (getZohoAccessToken zoho) as [e0|token] eqn:Etok.
  { cbn. split; [eexists; reflexivity|].
    split; [intros e He; injection He as <-; reflexivity|].
    split; [intros ? ? H; discriminate H|].
    intros num iid cid H. discriminate H. }
  destruct (findOrCreateZohoCustomer zoho (customerEmail d)) as [cid0 ex|e0] eqn:Ecus.
  2:{ cbn. split; [eexists; reflexivity|].
      split; [intros e He; discriminate He|].
      split.
      - intros tk e _ He. injection He as <-.
        split; [reflexivity|]. intros p Hp.
        repeat (destruct Hp as [Hp|Hp]; try discriminate Hp). exact Hp.
      - intros num iid cid H. discriminate H. }
  cbn -[TAX_IDS Tax.Math_round].
  destruct (TAX_IDS (Tax.Math_round (taxRatePercentage d))) as [taxId|] eqn:E.
  2:{ cbn. split; [eexists; reflexivity|].
      split; [intros e He; discriminate He|].
      split; [intros tk e _ He; discriminate He|].
      intros num iid cid H. discriminate H. }
  cbn -[TAX_IDS Tax.Math_round].
  match goal with
  | |- context [post_invoices zoho ?payload] =>
      set (p0 := payload);
      destruct (post_invoices zoho p0) as [e|[status err|code msg num0 iid0]] eqn:Epost
  end; cbn; try (destruct (Z.eqb_spec code 0) as [->|Hcode]); cbn;
    (split; [eexists; reflexivity|]);
    (split; [intros e' He; discriminate He|]);
    (split; [intros tk e' _ He; discriminate He|]);
    intros num iid cid H; try discriminate H.
  injection H as <- <- <-.
  exists p0, msg. split; [simpl; tauto|]. split; [exact Epost|].
  repeat split.
Qed.

End Invoicing.

Lemma createZohoInvoice_always_resolves_witness :
  let zoho := mkZohoApi (inr "token") (fun _ => CustomerOk "460000000026049" true)
                (fun _ => inr (Json 0 "ok" "INV-000001" "982000000567114"))
                (fun _ _ => Done) (fun _ _ _ => Done) in
  let d := mkInvoiceData 10 (826 # 100) (174 # 100) "eur"
             "allgood.click servicio online" (Some "buyer@example.com") None
             (Some "ES") None "none" 21 "payment" "cs_test_6" None true in
  exists p message,
    In (ZohoPostInvoice p) (trace (createZohoInvoice (fun c => c) zoho d))
    /\ post_invoices zoho p = inr (Json 0 message "INV-000001" "982000000567114")
    /\ customer_id p = "460000000026049"
    /\ item_rate p = (826 # 100)%Q
    /\ item_quantity p = 1
    /\ is_inclusive_tax p = false.
Proof.
  intros zoho d.
  exact (proj2 (proj2 (proj2
           (createZohoInvoice_always_resolves (fun c => c) zoho d)))
           "INV-000001" "982000000567114" "460000000026049" eq_refl).
Defined.

(** *** Rates with a tax id *)

Lemma Math_round_range (r : Q) (lo hi : Z) :
  lo <= Tax.Math_round r <= hi
  <-> (inject_Z lo - (1 # 2) <= r /\ r < inject_Z hi + (1 # 2))%Q.
Proof.
  unfold Tax.Math_round.
  pose proof (Qfloor_le (r + (1 # 2))) as Hle.
  pose proof (Qlt_floor (r + (1 # 2))) as Hlt.
  rewrite inject_Z_plus in Hlt. change (inject_Z 1) with 1%Q in Hlt.
  set (n := Qfloor (r + (1 # 2))) in *.
  split.
  - intros [Hlo Hhi].
    rewrite Zle_Qle in Hlo, Hhi.
    generalize dependent (inject_Z n). generalize dependent (inject_Z lo).
    generalize dependent (inject_Z hi). intros; split; lra.
  - intros [Hlo Hhi]. split.
    + assert (H : lo < n + 1); [|lia].
      rewrite Zlt_Qlt, inject_Z_plus. change (inject_Z 1) with 1%Q.
      generalize dependent (inject_Z n). generalize dependent (inject_Z lo).
      intros; lra.
    + assert (H : n < hi + 1); [|lia].
      rewrite Zlt_Qlt, inject_Z_plus. change (inject_Z 1) with 1%Q.
      generalize dependent (inject_Z n). generalize dependent (inject_Z hi).
      intros; lra.
Qed.

(** X15.  [createZohoInvoice] finds a tax id exactly for the rates from
    -0.5 up to, but not including, 30.5 percent.  Rates from 30.5 percent
    on have none, although the error message names 0-40 percent as
    supported. *)
Theorem tax_id_exists_for_rates_below_30_5 (r : Q) :
  TAX_IDS (Tax.Math_round r) <> None
  <-> (- (1 # 2) <= r /\ r < 61 # 2)%Q.
Proof.
  rewrite TAX_IDS_none.
  assert (H : ~ (Tax.Math_round r < 0 \/ 30 < Tax.Math_round r)
              <-> 0 <= Tax.Math_round r <= 30) by lia.
  rewrite H, (Math_round_range r 0 30).
  change (inject_Z 0) with 0%Q. change (inject_Z 30) with 30%Q.
  split; intros [H1 H2]; split; lra.
Qed.

(** *** [getZohoTaxId] *)

(** X16.  [getZohoTaxId] always answers with one of the three configured
    ids.  The reduced id is given only to Spain at 10 percent.  Outside
    Spain: a non-EU country gets the exempt id, an EU country with a VAT
    number gets the exempt id whatever the rate, and an EU country
    without VAT number gets the id of IVA 21 percent for every positive
    rate and the exempt id otherwise. *)
Theorem getZohoTaxId_cases (toUpperCase : string -> string) (d : InvoiceData) :
  let c := option_map toUpperCase (country d) in
  In (getZohoTaxId toUpperCase d)
     [ZOHO_TAX_IDS IVA_21; ZOHO_TAX_IDS IVA_10; ZOHO_TAX_IDS EXENTO_0]
  /\ (getZohoTaxId toUpperCase d = ZOHO_TAX_IDS IVA_10 ->
      is_ES c = true /\ (taxRatePercentage d == 10)%Q)
  /\ (is_ES c = false -> isEUCountry toUpperCase c = false ->
      getZohoTaxId toUpperCase d = ZOHO_TAX_IDS EXENTO_0)
  /\ (is_ES c = false -> isEUCountry toUpperCase c = true ->
      present (vatNumber d) = true ->
      getZohoTaxId toUpperCase d = ZOHO_TAX_IDS EXENTO_0)
  /\ (is_ES c = false -> isEUCountry toUpperCase c = true ->
      present (vatNumber d) = false ->
      getZohoTaxId toUpperCase d
      = if Tax.Qpos_b (taxRatePercentage d) then ZOHO_TAX_IDS IVA_21
        else ZOHO_TAX_IDS EXENTO_0).
Proof.
  intros c. unfold getZohoTaxId. cbv zeta. fold c.
  split; [|split; [|split; [|split]]].
  - destruct (is_ES c), (Qeq_bool (taxRatePercentage d) 21),
      (Qeq_bool (taxRatePercentage d) 10), (isEUCountry toUpperCase c),
      (present (vatNumber d)), (Tax.Qpos_b (taxRatePercentage d)),
      (Qeq_bool (taxRatePercentage d) 0); simpl; tauto.
  - destruct (is_ES c), (Qeq_bool (taxRatePercentage d) 21),
      (Qeq_bool (taxRatePercentage d) 10) eqn:H10,
      (isEUCountry toUpperCase c),
      (present (vatNumber d)), (Tax.Qpos_b (taxRatePercentage d)),
      (Qeq_bool (taxRatePercentage d) 0); cbn; intros H;
      try discriminate H; split; try reflexivity; now apply Qeq_bool_iff.
  - intros -> ->. reflexivity.
  - intros -> -> ->. reflexivity.
  - intros -> -> ->. reflexivity.
Qed.

Lemma getZohoTaxId_cases_witness :
  let d := mkInvoiceData 10 (840 # 100) (160 # 100) "eur"
             "allgood.click servicio online" (Some "buyer@example.com") None
             (Some "DE") (Some "DE123456789") "none" 19 "payment" "cs_test_7"
             None true in
  getZohoTaxId (fun c => c) d = ZOHO_TAX_IDS EXENTO_0.
Proof.
  intros d.
  apply (proj1 (proj2 (proj2 (proj2 (getZohoTaxId_cases (fun c => c) d)))));
    reflexivity.
Defined.

End ZohoMore.

Module WebhookMore.

Import Stripe Fx Webhook Delivery Traces.
Local Open Scope string_scope.
Local Open Scope Z_scope.

(** *** Traces of composed computations *)

Lemma trace_bind {A B} (m : M A) (k : A -> M B) :
  trace (bind m k)
  = (trace m ++ match outcome m with
                | inr a => trace (k a)
                | inl _ => []
                end)%list.
Proof.
  destruct m as [t [e|a]]; unfold trace, outcome; simpl.
  - now rewrite app_nil_r.
  - now destruct (k a).
Qed.

Lemma outcome_of_bind {A B} (m : M A) (k : A -> M B) :
  outcome (bind m k)
  = match outcome m with
    | inr a => outcome (k a)
    | inl e => inl e
    end.
Proof.
  destruct m as [t [e|a]]; unfold outcome; simpl; [reflexivity|].
  now destruct (k a).
Qed.

Lemma trace_try_catch {A} (m : M A) (h : Message -> M A) :
  trace (try_catch m h)
  = (trace m ++ match outcome m with
                | inl e => trace (h e)
                | inr _ => []
                end)%list.
Proof.
  destruct m as [t [e|a]]; unfold trace, outcome; simpl.
  - now destruct (h e).
  - now rewrite app_nil_r.
Qed.

Lemma outcome_try_catch {A} (m : M A) (h : Message -> M A) :
  outcome (try_catch m h)
  = match outcome m with
    | inl e => outcome (h e)
    | inr a => inr a
    end.
Proof.
  destruct m as [t [e|a]]; unfold outcome; simpl; [|reflexivity].
  now destruct (h e).
Qed.

Lemma free_bind {A B} (P : Effect -> bool) (m : M A) (k : A -> M B) :
  free_of P m -> (forall a, free_of P (k a)) -> free_of P (bind m k).
Proof.
  unfold free_of. intros Hm Hk. rewrite trace_bind, forallb_app, Hm.
  destruct (outcome m); [reflexivity|apply Hk].
Qed.

Lemma free_try_catch {A} (P : Effect -> bool) (m : M A) (h : Message -> M A) :
  free_of P m -> (forall e, free_of P (h e)) -> free_of P (try_catch m h).
Proof.
  unfold free_of. intros Hm Hh. rewrite trace_try_catch, forallb_app, Hm.
  destruct (outcome m); [apply Hh|reflexivity].
Qed.

Ltac free_step :=
  first
    [ apply free_bind; [|intros ?]
    | apply free_try_catch; [|intros ?]
    | reflexivity ].

Ltac free_all :=
  repeat first
    [ free_step
    | match goal with
      | |- free_of _ (match ?x with _ => _ end) => destruct x
      | |- free_of _ (if ?x then _ else _) => destruct x
      end ].

Section Quiet.

Variable env : Env.

Lemma reconcile_free (P : Effect -> bool) (s : Session) :
  (forall i, P (StripeInvoicesRetrieve i) = false) ->
  (forall i, P (StripeTaxRatesRetrieve i) = false) ->
  (forall t, P (Log t) = false) ->
  free_of P (Tax.reconcile (stripe env) s).
Proof.
  intros Hi Hr Hl.
  assert (Hlog : forall t, free_of P (log t)).
  { intros t. unfold free_of. simpl. now rewrite Hl. }
  assert (Hret : forall A (a : A), free_of P (ret a)) by reflexivity.
  assert (Hthrow : forall A (e : Message), free_of P (@throw A e)) by reflexivity.
  assert (Hcall : forall A ev (o : Message + A), P ev = false -> free_of P (call ev o)).
  { intros A ev o H. unfold free_of. simpl. now rewrite H. }
  unfold Tax.reconcile, Tax.invoice_figures, Tax.session_figures,
    Tax.session_variables, Tax.tax_rate_percentage.
  repeat first
    [ apply Hlog | apply Hret | apply Hthrow | apply Hcall; [auto]
    | apply free_bind; [|intros ?]
    | match goal with
      | |- free_of _ (match ?x with _ => _ end) => destruct x
      | |- free_of _ (if ?x then _ else _) => destruct x
      end ].
Qed.

Lemma createZohoInvoice_free (P : Effect -> bool) (d : Zoho.InvoiceData) :
  (forall t, P (Log t) = false) ->
  P ZohoGetAccessToken = false ->
  (forall m, P (ZohoFindOrCreateCustomer m) = false) ->
  (forall p, P (ZohoPostInvoice p) = false) ->
  free_of P (Zoho.createZohoInvoice (toUpperCase env) (zoho env) d).
Proof.
  intros Hl Ht Hc Hp.
  assert (Hlog : forall t, free_of P (log t)).
  { intros t. unfold free_of. simpl. now rewrite Hl. }
  assert (Hret : forall A (a : A), free_of P (ret a)) by reflexivity.
  assert (Hthrow : forall A (e : Message), free_of P (@throw A e)) by reflexivity.
  assert (Hcall : forall A ev (o : Message + A), P ev = false -> free_of P (call ev o)).
  { intros A ev o H. unfold free_of. simpl. now rewrite H. }
  unfold Zoho.createZohoInvoice.
  repeat first
    [ apply Hlog | apply Hret | apply Hthrow | apply Hcall; [auto]
    | apply free_bind; [|intros ?]
    | apply free_try_catch; [|intros ?]
    | match goal with
      | |- free_of _ (match ?x with _ => _ end) => destruct x
      | |- free_of _ (if ?x then _ else _) => destruct x
      end ].
Qed.

Lemma createZohoInvoice_outcome (d : Zoho.InvoiceData) :
  exists res,
    outcome (Zoho.createZohoInvoice (toUpperCase env) (zoho env) d) = inr res.
Proof.
  unfold Zoho.createZohoInvoice.
  rewrite outcome_of_bind. cbn [outcome log emit snd].
  rewrite outcome_try_catch.
  match goal with
  | |- context [match outcome ?m with _ => _ end] => destruct (outcome m) as [e|res]
  end.
  - rewrite outcome_of_bind. cbn. eexists. reflexivity.
  - now exists res.
Qed.

Lemma invoicing_free_response (session : Session) (d : Zoho.InvoiceData) :
  free_of is_response (invoicing env session d).
Proof.
  unfold invoicing. destruct (ZOHO_ENABLED env); [|reflexivity].
  apply free_try_catch; [|intros ?; reflexivity].
  apply free_bind; [now apply createZohoInvoice_free|].
  intros [num iid cid|e]; [|reflexivity].
  free_all.
Qed.

Lemma metadata_language_free (P : Effect -> bool) (session : Session) :
  free_of P (metadata_language session).
Proof. unfold metadata_language. now destruct (metadata session). Qed.

Lemma checkout_free_response (livemode : bool) (session : Session) :
  free_of is_response (checkout_session_completed env livemode session).
Proof.
  unfold checkout_session_completed.
  apply free_bind; [reflexivity|intros ?].
  apply free_bind; [apply metadata_language_free|intros ?].
  repeat (apply free_bind; [reflexivity|intros ?]).
  apply free_try_catch; [|intros ?; reflexivity].
  apply free_bind; [reflexivity|intros fullSession].
  apply free_bind; [now apply reconcile_free|intros figures].
  repeat (apply free_bind; [reflexivity|intros ?]).
  apply invoicing_free_response.
Qed.

(** With metadata on the session the case runs to its end, whatever
    happens inside its [try]. *)
Lemma checkout_outcome (livemode : bool) (session : Session) (m : Metadata) :
  metadata session = Some m ->
  outcome (checkout_session_completed env livemode session) = inr tt.
Proof.
  intros Hm. unfold checkout_session_completed, metadata_language. rewrite Hm.
  repeat (rewrite outcome_of_bind; cbn [outcome log emit ret snd]).
  rewrite outcome_try_catch.
  match goal with
  | |- context [match outcome ?m with _ => _ end] => destruct (outcome m) as [e|[]]
  end; reflexivity.
Qed.

(** Without metadata it stops at the first object it builds. *)
Lemma checkout_without_metadata (livemode : bool) (session : Session) :
  metadata session = None ->
  checkout_session_completed env livemode session
  = ([Log "[WEBHOOK] Processing checkout.session.completed"],
     inl (Text "Cannot read properties of null (reading 'language')")).
Proof.
  intros Hm. unfold checkout_session_completed, metadata_language.
  now rewrite Hm.
Qed.

(** A retrieved session without an invoice: the reconciliation throws,
    the [catch] around the invoicing logs the error, and nothing of the
    invoicing runs. *)
Lemma checkout_without_invoice (livemode : bool) (session fullSession : Session)
  (m : Metadata) :
  metadata session = Some m ->
  Tax.sessions_retrieve (stripe env) (id session) = inr fullSession ->
  Tax.invoice_ref fullSession = None ->
  checkout_session_completed env livemode session
  = (([Log "[WEBHOOK] Processing checkout.session.completed";
       Log "[WEBHOOK] Payment successful:";
       Log "[WEBHOOK] Calling sendPaymentNotification...";
       SendPaymentNotification "success" (id session) (negb livemode);
       Log "[WEBHOOK] Email result:";
       Log "[WEBHOOK] Creating Zoho invoice...";
       StripeSessionsRetrieve (id session)]
      ++ trace (Tax.session_figures fullSession)
      ++ [Log "[WEBHOOK] Error processing invoice data:"])%list,
     inr tt).
Proof.
  intros Hm Hfull Hnone.
  unfold checkout_session_completed, metadata_language.
  rewrite Hm, Hfull.
  cbn -[Tax.reconcile Tax.session_figures invoicing].
  unfold Tax.reconcile. rewrite Hnone.
  pose proof (TaxFacts.session_figures_throws fullSession) as Hthrow.
  destruct (Tax.session_figures fullSession) as [t [e|fig]];
    unfold outcome in Hthrow; simpl in Hthrow; [|discriminate].
  cbn. reflexivity.
Qed.

End Quiet.

Lemma count_app (P : Effect -> bool) (a b : list Effect) :
  count P (a ++ b) = (count P a + count P b)%nat.
Proof. unfold count. now rewrite filter_app, length_app. Qed.

Lemma count_free {A} (P : Effect -> bool) (m : M A) :
  free_of P m -> count P (trace m) = 0%nat.
Proof.
  unfold free_of, count. induction (trace m) as [|e t IH]; [reflexivity|].
  simpl. destruct (P e); [discriminate|]. exact IH.
Qed.

Lemma count_bind {A B} (P : Effect -> bool) (m : M A) (k : A -> M B) :
  count P (trace (bind m k))
  = (count P (trace m)
     + match outcome m with
       | inr a => count P (trace (k a))
       | inl _ => 0
       end)%nat.
Proof. rewrite trace_bind, count_app. now destruct (outcome m). Qed.

Lemma count_try_catch {A} (P : Effect -> bool) (m : M A) (h : Message -> M A) :
  count P (trace (try_catch m h))
  = (count P (trace m)
     + match outcome m with
       | inl e => count P (trace (h e))
       | inr _ => 0
       end)%nat.
Proof. rewrite trace_try_catch, count_app. now destruct (outcome m). Qed.

Lemma console_is_quiet (P : Effect -> bool) (t : list Effect) :
  (forall text, P (Log text) = false) ->
  Forall console t -> forallb (fun e => negb (P e)) t = true.
Proof.
  intros HP H. apply forallb_forall. intros e He.
  rewrite Forall_forall in H. destruct (H e He) as [text ->].
  now rewrite HP.
Qed.

Lemma invoicing_reports_once (env : Env) (session : Session)
  (d : Zoho.InvoiceData) :
  ZOHO_ENABLED env = true ->
  count is_operator_report (trace (invoicing env session d)) = 1%nat.
Proof.
  intros Hon. unfold invoicing. rewrite Hon.
  rewrite count_try_catch, count_bind, outcome_of_bind.
  rewrite (count_free (createZohoInvoice_free env is_operator_report d
                         (fun _ => eq_refl) eq_refl (fun _ => eq_refl)
                         (fun _ => eq_refl))).
  destruct (createZohoInvoice_outcome env d) as [res Hres]. rewrite Hres.
  destruct res as [num iid cid|e]; [|reflexivity].
  destruct (Zoho.sendZohoInvoiceEmail (zoho env) iid (Zoho.customerEmail d)) eqn:E1;
    destruct (Zoho.recordZohoPayment (zoho env) iid cid (Zoho.amount d)) eqn:E2;
    cbn; rewrite ?E1; cbn; rewrite ?E2; reflexivity.
Qed.

(** The events the handler can process to the end: every event but a
    completed checkout whose session has no metadata. *)
Lemma dispatch_outcome (env : Env) (event : Event) :
  without_metadata event = false ->
  outcome (match event with
           | CheckoutSessionCompleted livemode session =>
               checkout_session_completed env livemode session
           | PaymentIntentSucceeded _ _ => log "PaymentIntent was successful:"
           | PaymentIntentFailed livemode failedPayment =>
               bind (log "Payment failed:") (fun _ =>
                 emit (SendPaymentNotification "error" (pi_id failedPayment)
                         (negb livemode)))
           | Unhandled _ => log "Unhandled event type"
           end) = inr tt.
Proof.
  destruct event as [livemode session| | |]; try reflexivity.
  simpl. destruct (metadata session) as [m|] eqn:Hm; [|discriminate].
  intros _. now apply checkout_outcome with (m := m).
Qed.

(** X17.  The handler responds at most once, and only as the last thing
    it does: status 400 when the signature is not verified, and status
    200 for every verified event it can process, whatever Stripe, Zoho
    or the mail relay answer in between.  The one verified event it
    cannot process is a completed checkout whose session has no
    metadata: reading [session.metadata.language] throws outside every
    [try], before any notification, Stripe call or response. *)
Theorem webhook_answers_once (env : Env) (req : Request) :
  (forall err,
     constructEvent env (body req) (stripe_signature req) = inl err ->
     exists t,
       webhook env req
       = ((t ++ [Respond 400 (Prefixed "Webhook Error: " err)])%list, inr tt)
       /\ forallb (fun e => negb (is_response e)) t = true)
  /\ (forall event,
        constructEvent env (body req) (stripe_signature req) = inr event ->
        without_metadata event = false ->
        exists t,
          webhook env req
          = ((t ++ [Respond 200 (Text "{ received: true }")])%list, inr tt)
          /\ forallb (fun e => negb (is_response e)) t = true)
  /\ (forall event,
        constructEvent env (body req) (stripe_signature req) = inr event ->
        without_metadata event = true ->
        webhook env req
        = ([Log "[WEBHOOK] Received webhook request";
            Log "[WEBHOOK] Signature verified successfully";
            Log "[WEBHOOK] Event type:";
            Log "[WEBHOOK] Processing checkout.session.completed"],
           inl (Text "Cannot read properties of null (reading 'language')"))).
Proof.
  split; [|split].
  - intros err E. unfold webhook. rewrite E.
    exists [Log "[WEBHOOK] Received webhook request";
            Log "[WEBHOOK] Signature verification failed:"].
    split; reflexivity.
  - intros event E Hm. unfold webhook. rewrite E.
    set (work := match event with
                 | CheckoutSessionCompleted livemode session =>
                     checkout_session_completed env livemode session
                 | PaymentIntentSucceeded _ _ => log "PaymentIntent was successful:"
                 | PaymentIntentFailed livemode failedPayment =>
                     bind (log "Payment failed:") (fun _ =>
                       emit (SendPaymentNotification "error" (pi_id failedPayment)
                               (negb livemode)))
                 | Unhandled _ => log "Unhandled event type"
                 end).
    assert (Hout : outcome work = inr tt) by exact (dispatch_outcome env event Hm).
    assert (Hfree : free_of is_response work).
    { subst work. destruct event; try reflexivity. apply checkout_free_response. }
    exists ([Log "[WEBHOOK] Received webhook request";
             Log "[WEBHOOK] Signature verified successfully";
             Log "[WEBHOOK] Event type:"] ++ trace work)%list.
    split.
    + destruct work as [tw [e|[]]]; unfold outcome in Hout; simpl in Hout;
        [discriminate|]. reflexivity.
    + rewrite forallb_app. exact Hfree.
  - intros event E Hm. unfold webhook. rewrite E.
    destruct event as [livemode session| | |]; try discriminate Hm.
    simpl in Hm. destruct (metadata session) eqn:Hs; [discriminate|].
    now rewrite (checkout_without_metadata env livemode session Hs).
Qed.

Lemma webhook_answers_once_witness :
  let sess := mkSession "cs_test_7" "payment" "eur" 999 None None None None
                None (Some 0) None None in
  let env := mkEnv (fun _ _ => inr (CheckoutSessionCompleted false sess))
               (stripe rejecting) (zoho rejecting) true (fun c => c) in
  trace (webhook env (mkRequest "{}" (Some "t=1,v1=00")))
  = [Log "[WEBHOOK] Received webhook request";
     Log "[WEBHOOK] Signature verified successfully";
     Log "[WEBHOOK] Event type:";
     Log "[WEBHOOK] Processing checkout.session.completed"].
Proof.
  intros sess env.
  exact (f_equal fst
           (proj2 (proj2 (webhook_answers_once env
                            (mkRequest "{}" (Some "t=1,v1=00"))))
              (CheckoutSessionCompleted false sess) eq_refl eq_refl)).
Defined.

(** X18.  With Zoho invoicing switched off the handler makes no Zoho
    call and sends no Zoho mail, for any request. *)
Theorem webhook_without_zoho (env : Env) (req : Request) :
  ZOHO_ENABLED env = false -> free_of is_zoho (webhook env req).
Proof.
  intros Hoff. unfold webhook.
  destruct (constructEvent env (body req) (stripe_signature req))
    as [err|event]; [reflexivity|].
  repeat (apply free_bind; [reflexivity|intros ?]).
  apply free_bind; [|intros ?; reflexivity].
  destruct event; try reflexivity.
  unfold checkout_session_completed.
  apply free_bind; [reflexivity|intros ?].
  apply free_bind; [apply metadata_language_free|intros ?].
  repeat (apply free_bind; [reflexivity|intros ?]).
  apply free_try_catch; [|intros ?; reflexivity].
  apply free_bind; [reflexivity|intros fullSession].
  apply free_bind; [now apply reconcile_free|intros figures].
  repeat (apply free_bind; [reflexivity|intros ?]).
  unfold invoicing. rewrite Hoff. reflexivity.
Qed.

Lemma webhook_without_zoho_witness :
  let env := mkEnv (fun _ _ =>
                      inr (CheckoutSessionCompleted false
                             (mkSession "cs_test_8" "payment" "eur" 999 None
                                None None None None (Some 0) None
                                (Some (mkMetadata None)))))
               (Tax.mkStripeApi
                  (fun _ => inr (mkSession "cs_test_8" "payment" "eur" 999 None
                                   None None None None (Some 0) None
                                   (Some (mkMetadata None))))
                  (fun _ => inl (Text "offline"))
                  (fun _ => inl (Text "offline")))
               (zoho rejecting) false (fun c => c) in
  free_of is_zoho (webhook env (mkRequest "{}" (Some "t=1,v1=00"))).
Proof.
  intros env. apply webhook_without_zoho. reflexivity.
Defined.

(** X19.  For a verified [checkout.session.completed] event whose
    session has metadata, with Zoho invoicing switched on: when the
    session is retrieved and reconciled to figures, the handler calls
    exactly one of [sendZohoOKEmail] and [sendZohoErrorEmail], whatever
    Zoho answers; when retrieving the session fails, it makes no Zoho
    call and calls neither. *)
Theorem operator_is_told_once (env : Env) (req : Request) (livemode : bool)
  (session : Session) (m : Metadata) :
  constructEvent env (body req) (stripe_signature req)
  = inr (CheckoutSessionCompleted livemode session) ->
  metadata session = Some m ->
  ZOHO_ENABLED env = true ->
  (forall fullSession figures,
     Tax.sessions_retrieve (stripe env) (id session) = inr fullSession ->
     outcome (Tax.reconcile (stripe env) fullSession) = inr figures ->
     count is_operator_report (trace (webhook env req)) = 1%nat)
  /\ (forall e,
        Tax.sessions_retrieve (stripe env) (id session) = inl e ->
        free_of is_zoho (webhook env req)).
Proof.
  intros Hev Hm Hon. split.
  - intros fullSession figures Hfull Hfig.
    unfold webhook. rewrite Hev.
    rewrite !count_bind. cbn [outcome log emit snd trace fst].
    rewrite (checkout_outcome env livemode session Hm).
    unfold checkout_session_completed, metadata_language. rewrite Hm.
    rewrite !count_bind. cbn [outcome log emit ret snd trace fst].
    rewrite count_try_catch, !count_bind, Hfull.
    repeat (progress (rewrite ?count_bind, ?outcome_of_bind, ?Hfig;
                      cbn [outcome call log emit ret snd trace fst])).
    rewrite (count_free (reconcile_free env is_operator_report fullSession
                           (fun _ => eq_refl) (fun _ => eq_refl)
                           (fun _ => eq_refl))).
    rewrite invoicing_reports_once by exact Hon.
    destruct (outcome (invoicing env session _)); reflexivity.
  - intros e Hfail.
    unfold webhook. rewrite Hev.
    repeat (apply free_bind; [reflexivity|intros ?]).
    apply free_bind; [|intros ?; reflexivity].
    unfold checkout_session_completed.
    apply free_bind; [reflexivity|intros ?].
    apply free_bind; [apply metadata_language_free|intros ?].
    repeat (apply free_bind; [reflexivity|intros ?]).
    rewrite Hfail. reflexivity.
Qed.

Lemma operator_is_told_once_witness :
  let inv := Stripe.mkInvoice (Some 166) 999 (Some 833)
               (Some [Checkout.one_tax_line true 20]) in
  let sess := Checkout.session_with_invoice inv in
  let env := mkEnv (fun _ _ => inr (CheckoutSessionCompleted false sess))
               (Tax.mkStripeApi (fun _ => inr sess)
                  (fun _ => inl (Text "offline")) (fun _ => inl (Text "offline")))
               (Zoho.mkZohoApi (inr "token")
                  (fun _ => Zoho.CustomerOk "460000000026049" true)
                  (fun _ => inr (Zoho.Json 0 "ok" "INV-000001" "982000000567114"))
                  (fun _ _ => Zoho.Done) (fun _ _ _ => Zoho.Done))
               true (fun c => c) in
  count is_operator_report
    (trace (webhook env (mkRequest "{}" (Some "t=1,v1=00"))))
  = 1%nat.
Proof.
  intros inv sess env.
  eapply (proj1 (@operator_is_told_once env (mkRequest "{}" (Some "t=1,v1=00"))
                   false sess (mkMetadata (Some "en"))
                   eq_refl eq_refl eq_refl));
    [reflexivity|vm_compute; reflexivity].
Defined.

(** X30.  A verified [checkout.session.completed] event whose retrieved
    session has no invoice is never invoiced, even with Zoho invoicing
    switched on: the reconciliation throws, the handler logs 'Error
    processing invoice data', makes no Zoho call and reports nothing to
    the operator, and still answers with status 200. *)
Theorem checkout_without_invoice_is_not_invoiced (env : Env) (req : Request)
  (livemode : bool) (session fullSession : Session) (m : Metadata) :
  constructEvent env (body req) (stripe_signature req)
  = inr (CheckoutSessionCompleted livemode session) ->
  metadata session = Some m ->
  Tax.sessions_retrieve (stripe env) (id session) = inr fullSession ->
  Tax.invoice_ref fullSession = None ->
  free_of is_zoho (webhook env req)
  /\ exists t,
       webhook env req
       = ((t ++ [Log "[WEBHOOK] Error processing invoice data:";
                 Respond 200 (Text "{ received: true }")])%list, inr tt).
Proof.
  intros Hev Hm Hfull Hnone.
  assert (E : webhook env req
              = ((([Log "[WEBHOOK] Received webhook request";
                    Log "[WEBHOOK] Signature verified successfully";
                    Log "[WEBHOOK] Event type:";
                    Log "[WEBHOOK] Processing checkout.session.completed";
                    Log "[WEBHOOK] Payment successful:";
                    Log "[WEBHOOK] Calling sendPaymentNotification...";
                    SendPaymentNotification "success" (id session) (negb livemode);
                    Log "[WEBHOOK] Email result:";
                    Log "[WEBHOOK] Creating Zoho invoice...";
                    StripeSessionsRetrieve (id session)]
                   ++ trace (Tax.session_figures fullSession))
                  ++ [Log "[WEBHOOK] Error processing invoice data:";
                      Respond 200 (Text "{ received: true }")])%list, inr tt)).
  { unfold webhook. rewrite Hev.
    rewrite (checkout_without_invoice env livemode session Hm Hfull Hnone).
    cbn -[Tax.session_figures]. rewrite <- !app_assoc. reflexivity. }
  split; [|eexists; exact E].
  unfold free_of. rewrite E. unfold trace at 1. cbn [fst].
  rewrite !forallb_app. cbn [forallb is_zoho negb andb].
  rewrite (console_is_quiet is_zoho (fun _ => eq_refl)
             (TaxMore.session_figures_console fullSession)).
  reflexivity.
Qed.

Lemma checkout_without_invoice_is_not_invoiced_witness :
  let sess := Checkout.session_without_invoice 999 (Some 0) in
  let env := mkEnv (fun _ _ => inr (CheckoutSessionCompleted false sess))
               (Tax.mkStripeApi (fun _ => inr sess)
                  (fun _ => inl (Text "offline")) (fun _ => inl (Text "offline")))
               (Zoho.mkZohoApi (inr "token")
                  (fun _ => Zoho.CustomerOk "460000000026049" true)
                  (fun _ => inr (Zoho.Json 0 "ok" "INV-000001" "982000000567114"))
                  (fun _ _ => Zoho.Done) (fun _ _ _ => Zoho.Done))
               true (fun c => c) in
  free_of is_zoho (webhook env (mkRequest "{}" (Some "t=1,v1=00"))).
Proof.
  intros sess env.
  exact (proj1 (@checkout_without_invoice_is_not_invoiced env
                  (mkRequest "{}" (Some "t=1,v1=00")) false sess sess
                  (mkMetadata (Some "en")) eq_refl eq_refl eq_refl eq_refl)).
Defined.

End WebhookMore.

Module LocaleFacts.

Import JsString JsStringFacts Locale.
Local Open Scope N_scope.

Lemma str_eqb_eq (a b : jsstr) : str_eqb a b = true -> a = b.
Proof.
  revert b; induction a as [|x a IH]; intros [|y b] H; try discriminate;
    [reflexivity|].
  simpl in H. apply andb_true_iff in H. destruct H as [Hx Hab].
  apply N.eqb_eq in Hx. subst y. f_equal. now apply IH.
Qed.

Lemma includes_str_in (l : list jsstr) (x : jsstr) :
  includes_str l x = true -> In x l.
Proof.
  unfold includes_str. intros H. apply existsb_exists in H.
  destruct H as (y & Hy & Heq). apply str_eqb_eq in Heq. now subst y.
Qed.

Lemma detectLanguage_in (toLowerCase : jsstr -> jsstr) (header : option jsstr) :
  In (detectLanguage toLowerCase header) supportedLanguages.
Proof.
  assert (Hen : In (js "en") supportedLanguages) by (simpl; tauto).
  destruct header as [[|c h]|]; try exact Hen.
  unfold detectLanguage.
  destruct (find _ _) as [lang|] eqn:E; [|exact Hen].
  apply find_some in E. now apply includes_str_in.
Qed.

(** X20.  [detectLanguage] always answers with one of the five supported
    languages, whatever the header holds; a missing or empty header gives
    ['en']. *)
Theorem detectLanguage_is_supported (toLowerCase : jsstr -> jsstr)
  (header : option jsstr) :
  In (detectLanguage toLowerCase header) supportedLanguages
  /\ detectLanguage toLowerCase None = js "en"
  /\ detectLanguage toLowerCase (Some []) = js "en".
Proof.
  split; [apply detectLanguage_in|split; reflexivity].
Qed.

(** *** Currency *)

(** X21.  The currency is ['eur'] or ['usd'].  It is ['usd'] exactly when
    a country is known and is not in the list of euro countries; then the
    Stripe locale is ['en'] and the amount is the dollar price.  In every
    other case the amount is the euro price. *)
Theorem getCurrencyAndLocale_currency (prices : Prices) (lang : jsstr)
  (country : option jsstr) :
  let p := getCurrencyAndLocale prices lang country in
  (currency p = js "eur" \/ currency p = js "usd")
  /\ (currency p = js "usd"
      <-> exists c, country = Some c /\ c <> []
                    /\ includes_str eurCountries c = false)
  /\ (currency p = js "usd" ->
      locale p = js "en" /\ amount p = PRICE_ONETIME_USD prices)
  /\ (currency p = js "eur" -> amount p = PRICE_ONETIME_EUR prices).
Proof.
  unfold getCurrencyAndLocale.
  destruct country as [[|c cs]|].
  - destruct (includes_str europeanLanguages lang); cbn [currency locale amount];
      (split; [now left|]);
      (split; [split; [discriminate
                      |intros (x & Hx & Hne & _); injection Hx as <-;
                       now destruct Hne]|]);
      (split; [discriminate|reflexivity]).
  - destruct (includes_str eurCountries (c :: cs)) eqn:E; cbn [currency locale amount].
    + split; [now left|]. split.
      * split; [discriminate|].
        intros (x & Hx & _ & Hf). injection Hx as Hx. subst x.
        rewrite E in Hf. discriminate Hf.
      * split; [discriminate|reflexivity].
    + split; [now right|].
      split; [split; [intros _; exists (c :: cs); repeat split; [discriminate|exact E]
                     |reflexivity]|].
      split; [intros _; now split|discriminate].
  - destruct (includes_str europeanLanguages lang); cbn [currency locale amount];
      (split; [now left|]);
      (split; [split; [discriminate|intros (x & Hx & _); discriminate]|]);
      (split; [discriminate|reflexivity]).
Qed.

(** X22.  Every country of the EU list used for VAT ([EU_COUNTRIES]) is
    charged in euro, with the visitor's language as Stripe locale. *)
Theorem eu_countries_pay_in_euro (prices : Prices) (lang : jsstr) (c : string) :
  In c Zoho.EU_COUNTRIES ->
  getCurrencyAndLocale prices lang (Some (js c))
  = mkPricing (js "eur") lang (PRICE_ONETIME_EUR prices).
Proof.
  intros H. unfold Zoho.EU_COUNTRIES in H. simpl in H.
  repeat (destruct H as [<-|H]; [reflexivity|]). destruct H.
Qed.

Lemma eu_countries_pay_in_euro_witness :
  getCurrencyAndLocale (mkPrices 499 499) (js "de") (Some (js "AT"))
  = mkPricing (js "eur") (js "de") 499%Z.
Proof.
  apply eu_countries_pay_in_euro. simpl. tauto.
Defined.

(** *** The checkout *)

Lemma trimStart_members (c : char) (s : jsstr) : In c (trimStart s) -> In c s.
Proof.
  induction s as [|x s IH]; [tauto|].
  simpl. destruct (is_space x); [intros H; right; now apply IH|tauto].
Qed.

Lemma trim_members (c : char) (s : jsstr) : In c (trim s) -> In c s.
Proof.
  unfold trim. intros H.
  apply in_rev, trimStart_members in H.
  apply in_rev in H. now apply trimStart_members.
Qed.

Lemma split_members (sep c : char) (s p : jsstr) :
  In p (split sep s) -> In c p -> In c s.
Proof.
  revert p; induction s as [|x s IH]; simpl; intros p Hp Hc.
  - destruct Hp as [<-|[]]. destruct Hc.
  - destruct (char_eqb x sep).
    + destruct Hp as [<-|Hp]; [destruct Hc|]. right. now apply (IH p).
    + destruct (split sep s) as [|q qs] eqn:E.
      * destruct Hp as [<-|[]]. destruct Hc as [->|[]]. now left.
      * destruct Hp as [<-|Hp].
        -- destruct Hc as [->|Hc]; [now left|]. right.
           apply (IH q); [now left|exact Hc].
        -- right. apply (IH p); [now right|exact Hc].
Qed.

Lemma first_part_members (sep c : char) (s : jsstr) :
  In c (first_part sep s) -> In c s.
Proof.
  unfold first_part. intros H.
  pose proof (split_not_nil sep s) as Hne.
  destruct (split sep s) as [|p ps] eqn:E; [contradiction|].
  apply (split_members sep c s p); [rewrite E; now left|exact H].
Qed.

Lemma detectCountry_without_hyphen (toUpperCase : jsstr -> jsstr) (h : jsstr) :
  ~ In 45 h -> detectCountry toUpperCase (Some h) = None.
Proof.
  intros Hno. destruct h as [|x h]; [reflexivity|].
  unfold detectCountry.
  destruct (find _ _) as [loc|] eqn:E; [|reflexivity].
  apply find_some in E. destruct E as [Hin Hlen].
  apply in_map_iff in Hin. destruct Hin as (part & <- & Hpart).
  rewrite split_free in Hlen; [discriminate|].
  intros H45. apply Hno.
  apply trim_members, first_part_members in H45.
  now apply (split_members 44 45 (x :: h) part).
Qed.

(** X23.  At the start of a checkout the Stripe locale is always one of
    the five supported languages.  When the Accept-Language header is
    missing or names no region (it holds no hyphen), the visitor is
    charged the euro price in euro, whatever language was chosen. *)
Theorem checkout_pricing_defaults (prices : Prices)
  (toLowerCase toUpperCase : jsstr -> jsstr)
  (browserLanguage header : option jsstr) :
  let p := checkout_pricing prices toLowerCase toUpperCase browserLanguage header in
  In (locale p) supportedLanguages
  /\ ((header = None \/ exists h, header = Some h /\ ~ In 45 h) ->
      currency p = js "eur" /\ amount p = PRICE_ONETIME_EUR prices).
Proof.
  unfold checkout_pricing.
  set (lang := if truthy browserLanguage
               then detectLanguage toLowerCase browserLanguage
               else detectLanguage toLowerCase header).
  assert (Hlang : In lang supportedLanguages).
  { subst lang. destruct (truthy browserLanguage); apply detectLanguage_in. }
  assert (Hen : In (js "en") supportedLanguages) by (simpl; tauto).
  split.
  - unfold getCurrencyAndLocale.
    destruct (detectCountry toUpperCase header) as [[|c cs]|].
    + destruct (includes_str europeanLanguages lang); assumption.
    + destruct (includes_str eurCountries (c :: cs)); assumption.
    + destruct (includes_str europeanLanguages lang); assumption.
  - intros Hh.
    assert (Hc : detectCountry toUpperCase header = None).
    { destruct Hh as [->|(h & -> & Hno)]; [reflexivity|].
      now apply detectCountry_without_hyphen. }
    rewrite Hc. unfold getCurrencyAndLocale.
    destruct (includes_str europeanLanguages lang); now split.
Qed.

Lemma checkout_pricing_defaults_witness :
  let p := checkout_pricing (mkPrices 499 599) (fun s => s) (fun s => s)
             None (Some (js "en;q=0.9,ja;q=0.8")) in
  currency p = js "eur" /\ amount p = 499%Z.
Proof.
  intros p.
  apply (proj2 (checkout_pricing_defaults (mkPrices 499 599) (fun s => s)
                  (fun s => s) None (Some (js "en;q=0.9,ja;q=0.8")))).
  right. exists (js "en;q=0.9,ja;q=0.8"). split; [reflexivity|].
  simpl. intuition discriminate.
Defined.

End LocaleFacts.

Module AdminFacts.

Import Admin.
Local Open Scope string_scope.
Local Open Scope Z_scope.

Lemma has_set_same (sid : string) (created : Z) (m : Sessions) :
  has sid (set sid created m) = true.
Proof.
  unfold set. destruct (has sid m) eqn:H.
  - unfold has in *. apply existsb_exists in H. destruct H as (e & He & Heq).
    apply existsb_exists. exists (sid, created). split.
    + apply in_map_iff. exists e. now rewrite Heq.
    + apply String.eqb_refl.
  - unfold has. rewrite existsb_app. simpl.
    rewrite String.eqb_refl. apply orb_true_r.
Qed.

Lemma has_set_other (sid other : string) (created : Z) (m : Sessions) :
  other <> sid -> has other (set sid created m) = has other m.
Proof.
  intros Hne. unfold set. destruct (has sid m).
  - unfold has. induction m as [|[k c] m IH]; [reflexivity|].
    simpl. rewrite IH. f_equal.
    destruct (String.eqb_spec k sid) as [->|Hk]; simpl; [|reflexivity].
    reflexivity.
  - unfold has. rewrite existsb_app. simpl.
    apply String.eqb_neq in Hne. rewrite String.eqb_sym, Hne.
    now rewrite !orb_false_r.
Qed.

Lemma has_delete_same (sid : string) (m : Sessions) :
  has sid (delete sid m) = false.
Proof.
  unfold has, delete. induction m as [|[k c] m IH]; [reflexivity|].
  simpl. destruct (String.eqb k sid) eqn:E; simpl; [exact IH|].
  now rewrite E, IH.
Qed.

Lemma has_delete_other (sid other : string) (m : Sessions) :
  other <> sid -> has other (delete sid m) = has other m.
Proof.
  intros Hne. unfold has, delete. induction m as [|[k c] m IH]; [reflexivity|].
  simpl. destruct (String.eqb_spec k sid) as [->|Hk]; simpl.
  - rewrite IH. apply String.eqb_neq in Hne.
    now rewrite String.eqb_sym, Hne.
  - now rewrite IH.
Qed.

(** X24.  A login changes the sessions only when [STATS_PASSWORD] is set
    and the password equals it: otherwise the sessions stay as they are,
    no cookie is set and the browser is sent back with [error=1].  After
    a successful login the new cookie passes [requireAdminAuth] and every
    earlier session still does. *)
Theorem login_needs_the_password (correct password : option string)
  (fresh : string) (now : Z) (m : Sessions) :
  (Zoho.present correct = false \/ password <> correct ->
   login correct fresh now password m = (m, None, "/admin/login?error=1"))
  /\ (Zoho.present correct = true -> password = correct ->
      login correct fresh now password m
      = (set fresh now m, Some fresh, "/admin/stats")
      /\ (fresh <> "" ->
          forall path, requireAdminAuth (set fresh now m) (Some fresh) path = Next)
      /\ (forall cookie path,
            requireAdminAuth m cookie path = Next ->
            requireAdminAuth (set fresh now m) cookie path = Next)).
Proof.
  split.
  - intros H. unfold login.
    destruct correct as [[|c correct]|]; try reflexivity.
    destruct H as [H|H]; [discriminate H|].
    destruct password as [p|]; [|reflexivity].
    destruct (String.eqb_spec p (String c correct)) as [->|Hne];
      [now contradiction H|reflexivity].
  - intros Hp ->. unfold login.
    destruct correct as [[|c correct]|]; try discriminate Hp.
    rewrite String.eqb_refl. split; [reflexivity|]. split.
    + intros Hne path. unfold requireAdminAuth, logged_in.
      apply String.eqb_neq in Hne. now rewrite Hne, has_set_same.
    + intros cookie path. unfold requireAdminAuth, logged_in.
      destruct cookie as [sid|]; [|now destruct (String.prefix "/api/" path)].
      destruct (String.eqb sid ""); simpl;
        [now destruct (String.prefix "/api/" path)|].
      destruct (has sid m) eqn:Hm; simpl;
        [|now destruct (String.prefix "/api/" path)].
      intros _.
      destruct (String.eqb_spec sid fresh) as [->|Hne].
      * now rewrite has_set_same.
      * now rewrite has_set_other, Hm.
Qed.

Lemma login_needs_the_password_witness :
  login (Some "s3cret") "9f2c" 1700000000000 (Some "guess") [("a1b2", 1699999000000)]
  = ([("a1b2", 1699999000000)], None, "/admin/login?error=1").
Proof.
  apply (proj1 (login_needs_the_password (Some "s3cret") (Some "guess") "9f2c"
                  1700000000000 [("a1b2", 1699999000000)])).
  right. discriminate.
Defined.

(** X25.  After a logout the cookie no longer passes [requireAdminAuth],
    on any path, and every other session is left as it was. *)
Theorem logout_revokes (sid : string) (m : Sessions) :
  sid <> "" ->
  (forall path, requireAdminAuth (fst (logout (Some sid) m)) (Some sid) path <> Next)
  /\ (forall other, other <> sid ->
        logged_in (fst (logout (Some sid) m)) (Some other)
        = logged_in m (Some other)).
Proof.
  intros Hne. unfold logout.
  apply String.eqb_neq in Hne. rewrite Hne. cbn [fst]. split.
  - intros path. unfold requireAdminAuth, logged_in.
    rewrite Hne, has_delete_same. simpl.
    destruct (String.prefix "/api/" path); discriminate.
  - intros other Ho. unfold logged_in. now rewrite has_delete_other.
Qed.

Lemma logout_revokes_witness :
  requireAdminAuth (fst (logout (Some "a1b2") [("a1b2", 1699999000000)]))
    (Some "a1b2") "/api/stats" <> Next.
Proof.
  apply (proj1 (@logout_revokes "a1b2" [("a1b2", 1699999000000)]
                  ltac:(discriminate))).
Defined.

Lemma has_iff (sid : string) (m : Sessions) :
  has sid m = true <-> exists created, In (sid, created) m.
Proof.
  unfold has. rewrite existsb_exists. split.
  - intros ([k c] & Hin & Heq). apply String.eqb_eq in Heq.
    simpl in Heq. subst k. now exists c.
  - intros (c & Hin). exists (sid, c). split; [exact Hin|].
    apply String.eqb_refl.
Qed.

Lemma passes_iff (m : Sessions) (sid path : string) :
  requireAdminAuth m (Some sid) path = Next
  <-> sid <> "" /\ has sid m = true.
Proof.
  unfold requireAdminAuth, logged_in.
  destruct (String.eqb_spec sid "") as [->|Hne]; simpl.
  - destruct (String.prefix "/api/" path); split;
      try discriminate; intros [H _]; now contradiction H.
  - destruct (has sid m); simpl.
    + split; [now split|reflexivity].
    + destruct (String.prefix "/api/" path); split;
        try discriminate; intros [_ H]; discriminate H.
Qed.

(** X26.  After the hourly sweep a cookie passes [requireAdminAuth]
    exactly when its session was in the map with an age of at most 24
    hours; the middleware itself never looks at the age. *)
Theorem sweep_expires_sessions (now : Z) (m : Sessions) (sid path : string) :
  requireAdminAuth (sweep now m) (Some sid) path = Next
  <-> sid <> ""
      /\ exists created, In (sid, created) m /\ now - created <= 86400000.
Proof.
  rewrite passes_iff, has_iff. unfold sweep.
  split; intros [Hne (c & Hc)]; (split; [exact Hne|]); exists c.
  - apply filter_In in Hc. destruct Hc as [Hin Hage]. cbn [snd] in Hage.
    apply negb_true_iff, Z.ltb_ge in Hage. now split.
  - apply filter_In. destruct Hc as [Hin Hage]. split; [exact Hin|].
    cbn [snd]. now apply negb_true_iff, Z.ltb_ge.
Qed.

(** *** The statistics routes *)

(** X27.  No request to the two statistics routes adds or changes a
    row: the statistics route leaves the table as it is for every
    cookie, and the cleanup route only removes rows.  Without a live
    session both answer 401 and the cleanup route deletes nothing.  A
    missing, unreadable or zero [days] parameter means 90 days for the
    cleanup. *)
Theorem stats_routes_need_a_session (days_ago : Z -> Store.Instant)
  (m : Sessions) (cookie : option string) (days : option Z) (db : Store.Db) :
  snd (api_stats days_ago m cookie days db) = db
  /\ (forall r, In r (Store.rows (snd (api_stats_cleanup days_ago m cookie days db))) ->
                In r (Store.rows db))
  /\ (logged_in m cookie = false ->
      api_stats days_ago m cookie days db = (Refused Status401, db)
      /\ api_stats_cleanup days_ago m cookie days db = (Refused Status401, db))
  /\ (logged_in m cookie = true ->
      (days = None \/ days = Some 0) ->
      api_stats_cleanup days_ago m cookie days db
      = (CleanupJson (fst (Store.cleanupOldData (days_ago 90) db)),
         snd (Store.cleanupOldData (days_ago 90) db))).
Proof.
  unfold api_stats, api_stats_cleanup, requireAdminAuth.
  destruct (logged_in m cookie); cbn [negb String.prefix].
  - split; [reflexivity|]. split.
    + intros r Hr.
      apply (StoreFacts.cleanupOldData_removes_only
               (days_ago (days_or days 90)) db). exact Hr.
    + split; [discriminate|]. intros _ [-> | ->]; reflexivity.
  - split; [reflexivity|]. split; [intros r Hr; exact Hr|].
    split; [intros _; split; reflexivity|discriminate].
Qed.

Lemma stats_routes_need_a_session_witness :
  api_stats_cleanup (fun _ => Store.mkInstant 2024 3 10 9 0 0 0) [] None (Some 0)
    Calendar.empty_db
  = (Refused Status401, Calendar.empty_db).
Proof.
  apply (proj2 (proj1 (proj2 (proj2 (stats_routes_need_a_session
                  (fun _ => Store.mkInstant 2024 3 10 9 0 0 0) [] None (Some 0)
                  Calendar.empty_db))) eq_refl)).
Defined.

End AdminFacts.

Module TokenFacts.

Import Fx TokenCache.
Local Open Scope string_scope.
Local Open Scope Z_scope.

(** X28.  A token that was just fetched is reused: after a call that
    asked the endpoint and got a non-empty token, every call made less
    than 55 minutes after that answer returns the same token without
    asking again and leaves the cache as it is, whatever credentials or
    network the later call would have found. *)
Theorem fetched_token_is_reused (w w' : World) (cache : Cache) (tk : string) :
  asked (getZohoAccessToken w cache) = true ->
  returned (getZohoAccessToken w cache) = inr (Some tk) ->
  tk <> "" ->
  now w' < later w + 3300000 ->
  getZohoAccessToken w' (cache_after (getZohoAccessToken w cache))
  = mkResult false (inr (Some tk)) (mkCache (Some tk) (later w + 3300000)).
Proof.
  intros Hasked Hret Hne Hnow.
  unfold getZohoAccessToken in Hasked, Hret |- * at 2.
  destruct (Zoho.present (token cache) && (now w <? expiresAt cache));
    [discriminate Hasked|].
  destruct (credentials w) as [c|]; [|discriminate Hasked].
  destruct (fetched w c) as [e|[status|tok]]; try discriminate Hret.
  cbn [returned cache_after] in *. injection Hret as ->.
  unfold getZohoAccessToken. cbn [token expiresAt Zoho.present].
  apply String.eqb_neq in Hne. rewrite Hne.
  change (55 * 60 * 1000) with 3300000.
  apply Z.ltb_lt in Hnow. rewrite Hnow. reflexivity.
Qed.

Lemma fetched_token_is_reused_witness :
  let w := mkWorld (Some (mkCredentials "id" "secret" "refresh"))
             (fun _ => inr (AuthJson (Some "1000.abc")))
             1700000000000 1700000000400 in
  let w' := mkWorld None (fun _ => inl (Text "offline"))
              1700003000000 1700003000000 in
  getZohoAccessToken w' (cache_after (getZohoAccessToken w (mkCache None 0)))
  = mkResult false (inr (Some "1000.abc"))
             (mkCache (Some "1000.abc") 1700003300400).
Proof.
  intros w w'.
  apply (@fetched_token_is_reused w w' (mkCache None 0) "1000.abc");
    [reflexivity|reflexivity|discriminate|reflexivity].
Defined.

(** X29.  A call never loses a token: when it throws, the cache is left
    as it was; without credentials the endpoint is not even asked; and
    when it returns a token the endpoint was asked exactly if the cached
    token was missing or had expired. *)
Theorem token_cache_survives_failures (w : World) (cache : Cache) :
  (forall e, returned (getZohoAccessToken w cache) = inl e ->
             cache_after (getZohoAccessToken w cache) = cache)
  /\ (credentials w = None -> asked (getZohoAccessToken w cache) = false)
  /\ (forall t, returned (getZohoAccessToken w cache) = inr t ->
        (asked (getZohoAccessToken w cache) = false
         <-> Zoho.present (token cache) = true /\ now w < expiresAt cache)).
Proof.
  unfold getZohoAccessToken.
  destruct (Zoho.present (token cache)) eqn:Hp;
    destruct (now w <? expiresAt cache) eqn:Hn; cbn [andb];
    try (apply Z.ltb_lt in Hn); try (apply Z.ltb_ge in Hn).
  1:{ split; [intros e H; discriminate H|]. split; [reflexivity|].
      intros t _. split; [now split|reflexivity]. }
  all: destruct (credentials w) as [c|];
    [destruct (fetched w c) as [e0|[status|tok]]|];
    cbn [returned cache_after asked];
    (split; [intros e H; try discriminate H; reflexivity|]);
    (split; [intros H; try discriminate H; reflexivity|]);
    intros t H; try discriminate H;
    (split; [intros Hx; discriminate Hx|intros [Hx Hy]; try discriminate Hx; lia]).
Qed.

Lemma token_cache_survives_failures_witness :
  let w := mkWorld (Some (mkCredentials "id" "secret" "refresh"))
             (fun _ => inr (AuthNotOk "401")) 1700000000000 1700000000400 in
  cache_after (getZohoAccessToken w (mkCache (Some "1000.old") 1690000000000))
  = mkCache (Some "1000.old") 1690000000000.
Proof.
  intros w.
  apply (proj1 (token_cache_survives_failures w
                  (mkCache (Some "1000.old") 1690000000000))
           (Prefixed "Zoho auth failed: " (Text "401"))).
  reflexivity.
Defined.

End TokenFacts.
